(** * tradinghours: phase generation and market lookup

    A shallow embedding of [src/tradinghours/market.py] (class [Market]),
    followed by the properties of the phase generator, of the season and
    weekday filters and of the market lookup.

    Layout: the Python values the module computes with (strings, dates,
    times), the rows of the data store, the effect monad, what the module
    imports, the methods of [Market], the validation functions and a
    concrete environment with sample data, the vocabulary of the
    properties, and then the properties. *)

From Stdlib Require Import ZArith Lia List Bool Ascii String Sorted.
From stdpp Require Import gmap strings.

Import ListNotations.
Local Open Scope string_scope.
Local Open Scope Z_scope.

(** ** Python strings

    A [str] is modelled by its UTF-8 bytes; Python orders strings by code
    point, which is the byte order of their UTF-8 form. *)

Module Py.

Definition str_lt (a b : string) : bool := String.ltb a b.
Definition str_le (a b : string) : bool := String.leb a b.
Definition str_ge (a b : string) : bool := String.leb b a.
Definition str_eq (a b : string) : bool := String.eqb a b.

Definition lower_ascii (c : ascii) : ascii :=
  let n := nat_of_ascii c in
  if (Nat.leb 65 n && Nat.leb n 90)%bool then ascii_of_nat (n + 32) else c.

Definition upper_ascii (c : ascii) : ascii :=
  let n := nat_of_ascii c in
  if (Nat.leb 97 n && Nat.leb n 122)%bool then ascii_of_nat (n - 32) else c.

Fixpoint map_str (f : ascii -> ascii) (s : string) : string :=
  match s with
  | EmptyString => EmptyString
  | String c r => String (f c) (map_str f r)
  end.

(** [str.lower] and [str.upper] on the ASCII letters. Python folds every
    cased letter; the two agree on the texts that are [isascii]. *)
Definition lower : string -> string := map_str lower_ascii.
Definition upper : string -> string := map_str upper_ascii.

(** [c in s] for a one-character [c]. *)
Fixpoint contains (c : ascii) (s : string) : bool :=
  match s with
  | EmptyString => false
  | String x r => Ascii.eqb x c || contains c r
  end.

(** Truth value of a text column: the empty text is false. *)
Definition truthy (s : string) : bool := negb (str_eq s "").

(** [sorted(l, key=key)] with keys compared by [lt]: a stable sort, so an
    element goes in front of the first one that is not smaller. *)
Section Sorted.
Context {A K : Type} (lt : K -> K -> bool) (key : A -> K).

Fixpoint insert_sorted (x : A) (l : list A) : list A :=
  match l with
  | [] => [x]
  | y :: r => if lt (key y) (key x) then y :: insert_sorted x r else x :: l
  end.

Definition sorted (l : list A) : list A := fold_right insert_sorted [] l.
End Sorted.

(** Order of the tuples [(a, b)] of two strings. *)
Definition pair_lt (p q : string * string) : bool :=
  if str_eq (fst p) (fst q) then str_lt (snd p) (snd q) else str_lt (fst p) (fst q).

Definition pair_le (p q : string * string) : bool := negb (pair_lt q p).

End Py.

(** ** [datetime.date]

    A date is its proleptic Gregorian ordinal ([date.toordinal()], day 1 is
    0001-01-01): dates compare, and move by a [timedelta], as ordinals do.
    Year, month and day are read off the ordinal the way CPython's
    [_ord2ymd] does. *)

Module Date.

Definition t := Z.

Definition MINYEAR : Z := 1.
Definition MAXYEAR : Z := 9999.
Definition max_ordinal : Z := 3652059.

Definition valid (d : t) : Prop := 1 <= d <= max_ordinal.
Definition validb (d : t) : bool := (1 <=? d) && (d <=? max_ordinal).

Definition is_leap (y : Z) : bool :=
  (y mod 4 =? 0) && (negb (y mod 100 =? 0) || (y mod 400 =? 0)).

Definition days_before_year (y : Z) : Z :=
  let y1 := y - 1 in y1 * 365 + y1 / 4 - y1 / 100 + y1 / 400.

Definition DAYS_IN_MONTH : list Z :=
  [-1; 31; 28; 31; 30; 31; 30; 31; 31; 30; 31; 30; 31].

Definition DAYS_BEFORE_MONTH : list Z :=
  [-1; 0; 31; 59; 90; 120; 151; 181; 212; 243; 273; 304; 334].

Definition days_in_month (y m : Z) : Z :=
  if (m =? 2) && is_leap y then 29 else nth (Z.to_nat m) DAYS_IN_MONTH 0.

Definition days_before_month (y m : Z) : Z :=
  nth (Z.to_nat m) DAYS_BEFORE_MONTH 0 + (if (2 <? m) && is_leap y then 1 else 0).

Definition ymd2ord (y m d : Z) : Z :=
  days_before_year y + days_before_month y m + d.

Definition DI400Y : Z := 146097.
Definition DI100Y : Z := 36524.
Definition DI4Y : Z := 1461.

(** The end of [_ord2ymd]: month and day of the day numbered [n] (from
    0) of a year; the month is estimated and corrected. *)
Definition month_and_day (leapyear : bool) (n : Z) : Z * Z :=
  let month := Z.shiftr (n + 50) 5 in
  let preceding :=
    nth (Z.to_nat month) DAYS_BEFORE_MONTH 0
    + (if (2 <? month) && leapyear then 1 else 0) in
  if n <? preceding then
    let month := month - 1 in
    let preceding :=
      preceding
      - (nth (Z.to_nat month) DAYS_IN_MONTH 0
         + (if (month =? 2) && leapyear then 1 else 0)) in
    (month, n - preceding + 1)
  else (month, n - preceding + 1).

Definition ord2ymd (o : Z) : Z * Z * Z :=
  let n := o - 1 in
  let n400 := n / DI400Y in
  let n := n mod DI400Y in
  let year := n400 * 400 + 1 in
  let n100 := n / DI100Y in
  let n := n mod DI100Y in
  let n4 := n / DI4Y in
  let n := n mod DI4Y in
  let n1 := n / 365 in
  let n := n mod 365 in
  let year := year + n100 * 100 + n4 * 4 + n1 in
  if (n1 =? 4) || (n100 =? 4) then (year - 1, 12, 31)
  else
    let leapyear := (n1 =? 3) && (negb (n4 =? 24) || (n100 =? 3)) in
    let '(month, day) := month_and_day leapyear n in
    (year, month, day).

Definition year (d : t) : Z := fst (fst (ord2ymd d)).
Definition month (d : t) : Z := snd (fst (ord2ymd d)).
Definition day (d : t) : Z := snd (ord2ymd d).

(** [date.weekday()]: 0 is Monday, 6 is Sunday. *)
Definition weekday (d : t) : Z := (d + 6) mod 7.

Definition leb (a b : t) : bool := a <=? b.
Definition ltb (a b : t) : bool := a <? b.

(** Decimal rendering on a fixed number of digits. *)
Definition digit (n : Z) : ascii := ascii_of_nat (48 + Z.to_nat (n mod 10)).

Fixpoint digits (width : nat) (n : Z) (acc : string) : string :=
  match width with
  | O => acc
  | S w => digits w (n / 10) (String (digit n) acc)
  end.

Definition pad (width : nat) (n : Z) : string := digits width n "".

(** [date.isoformat()]: [YYYY-MM-DD]. *)
Definition isoformat (d : t) : string :=
  let '(y, m, dd) := ord2ymd d in
  pad 4 y +:+ "-" +:+ pad 2 m +:+ "-" +:+ pad 2 dd.

Definition digit_val (c : ascii) : option Z :=
  let n := nat_of_ascii c in
  if (Nat.leb 48 n && Nat.leb n 57)%bool then Some (Z.of_nat (n - 48)) else None.

Fixpoint number (s : list ascii) (acc : Z) : option Z :=
  match s with
  | [] => Some acc
  | c :: r =>
      match digit_val c with
      | Some v => number r (10 * acc + v)
      | None => None
      end
  end.

(** [date.fromisoformat] on the [YYYY-MM-DD] form; [None] stands for its
    [ValueError]. *)
Definition fromisoformat (s : string) : option t :=
  match list_ascii_of_string s with
  | [y1; y2; y3; y4; sep1; m1; m2; sep2; d1; d2] =>
      if Ascii.eqb sep1 "-" && Ascii.eqb sep2 "-" then
        match number [y1; y2; y3; y4] 0, number [m1; m2] 0, number [d1; d2] 0 with
        | Some y, Some m, Some d =>
            if (MINYEAR <=? y) && (1 <=? m) && (m <=? 12)
               && (1 <=? d) && (d <=? days_in_month y m)
            then Some (ymd2ord y m d) else None
        | _, _, _ => None
        end
      else None
  | _ => None
  end.

(** [d + timedelta(days=n)]; [None] stands for [OverflowError]. *)
Definition add_days (d : t) (n : Z) : option t :=
  let o := d + n in
  if validb o then Some o else None.

End Date.

(** ** [datetime.time], [zoneinfo.ZoneInfo] and [datetime.datetime] *)

Record time := {
  hour : Z;
  minute : Z;
  second : Z;
  microsecond : Z
}.

Definition time_valid (t : time) : Prop :=
  0 <= hour t < 24 /\ 0 <= minute t < 60 /\ 0 <= second t < 60
  /\ 0 <= microsecond t < 1000000.

(** Microseconds since midnight. *)
Definition time_micros (t : time) : Z :=
  ((hour t * 60 + minute t) * 60 + second t) * 1000000 + microsecond t.

(** A zone: its key and the offset from UTC, in seconds, that it gives to
    a wall-clock date and time. *)
Record tzinfo := {
  tz_key : string;
  utcoffset : Date.t -> time -> Z
}.

Record datetime := {
  dt_date : Date.t;
  dt_time : time;
  dt_tzinfo : option tzinfo
}.

Definition combine (d : Date.t) (t : time) : datetime :=
  {| dt_date := d; dt_time := t; dt_tzinfo := None |}.

Definition replace_tzinfo (x : datetime) (z : tzinfo) : datetime :=
  {| dt_date := dt_date x; dt_time := dt_time x; dt_tzinfo := Some z |}.

Definition day_micros : Z := 86400 * 1000000.

(** Wall-clock position of a datetime, in microseconds. *)
Definition wall_micros (x : datetime) : Z :=
  dt_date x * day_micros + time_micros (dt_time x).

(** The instant of a datetime, in microseconds on the UTC scale. *)
Definition instant_micros (x : datetime) : Z :=
  match dt_tzinfo x with
  | Some z => wall_micros x - utcoffset z (dt_date x) (dt_time x) * 1000000
  | None => wall_micros x
  end.

Definition time_isoformat (t : time) : string :=
  Date.pad 2 (hour t) +:+ ":" +:+ Date.pad 2 (minute t) +:+ ":" +:+ Date.pad 2 (second t)
  +:+ (if microsecond t =? 0 then "" else "." +:+ Date.pad 6 (microsecond t)).

Definition offset_isoformat (seconds : Z) : string :=
  let a := Z.abs seconds in
  (if seconds <? 0 then "-" else "+")
  +:+ Date.pad 2 (a / 3600) +:+ ":" +:+ Date.pad 2 (a / 60 mod 60)
  +:+ (if a mod 60 =? 0 then "" else ":" +:+ Date.pad 2 (a mod 60)).

(** [datetime.isoformat()], as in [2024-02-06T04:00:00-05:00]. *)
Definition datetime_isoformat (x : datetime) : string :=
  Date.isoformat (dt_date x) +:+ "T" +:+ time_isoformat (dt_time x)
  +:+ match dt_tzinfo x with
      | Some z => offset_isoformat (utcoffset z (dt_date x) (dt_time x))
      | None => ""
      end.

(** ** Rows of the data store

    Every column holds the text of the data files; a NULL and an empty
    text are both written [""], which the code cannot tell apart: both are
    false in a condition and both sort first. *)

Record Market := {
  m_fin_id : string;
  m_mic : string;
  m_exchange_name : string;
  m_market_name : string;
  m_timezone : string;
  m_replaced_by : string
}.

Record Schedule := {
  s_fin_id : string;
  s_schedule_group : string;
  s_timezone : string;
  s_phase_type : string;
  s_phase_name : string;
  s_phase_memo : string;
  s_days : string;
  s_start : string;
  s_end : string;
  s_offset_days : string;
  s_duration : string;
  s_in_force_start_date : string;
  s_in_force_end_date : string;
  s_season_start : string;
  s_season_end : string
}.

Record MarketHoliday := {
  h_fin_id : string;
  h_date : string;
  h_holiday_name : string;
  h_schedule : string;
  h_settlement : string;
  h_status : string;
  h_observed : string;
  h_memo : string
}.

Record SeasonDefinition := {
  sd_season : string;
  sd_year : Z;
  sd_date : string
}.

Record PhaseType := {
  pt_name : string;
  pt_status : string;
  pt_settlement : string
}.

Record MicMapping := {
  mm_mic : string;
  mm_fin_id : string
}.

(** The output of the generator. *)
Record Phase := {
  p_phase_type : string;
  p_phase_name : string;
  p_phase_memo : string;
  p_status : string;
  p_settlement : string;
  p_start : string;
  p_end : string
}.

Inductive table :=
| Markets | Schedules | MarketHolidays | SeasonDefinitions | PhaseTypes | MicMappings.

(** The read-only data set behind [db]. *)
Record Store := {
  markets : list Market;
  schedules : list Schedule;
  market_holidays : list MarketHoliday;
  season_definitions : list SeasonDefinition;
  phase_types : list PhaseType;
  mic_mappings : list MicMapping
}.

(** ** Effects

    A computation may raise, query the store, print, and (in a generator)
    yield. The state records the tables queried, the lines printed and
    the phases yielded so far; it survives an exception, so what a
    generator yielded before it raised is kept. *)

Inductive exn :=
| InvalidArgument
| ValueError
| OverflowError
| KeyError
| DataMissing
| MultipleResultsFound
| ZoneInfoNotFoundError
| AttributeError.

(** How a computation ends: with a value, with an exception, or, for the
    model only, because a loop was given too little fuel. *)
Inductive result (A : Type) :=
| Ok (a : A)
| Raise (e : exn)
| OutOfFuel.
Arguments Ok {A} a.
Arguments Raise {A} e.
Arguments OutOfFuel {A}.

(** What a validation function returns: its value, or the exception. *)
Inductive checked (A : Type) :=
| Accept (a : A)
| Reject (e : exn).
Arguments Accept {A} a.
Arguments Reject {A} e.

Record world := {
  queries : list table;
  printed : list string;
  yielded : list Phase
}.

Definition world0 : world := {| queries := []; printed := []; yielded := [] |}.

Definition M (A : Type) : Type := world -> result A * world.

Definition ret {A} (a : A) : M A := fun w => (Ok a, w).

Definition raise {A} (e : exn) : M A := fun w => (Raise e, w).

Definition bind {A B} (m : M A) (k : A -> M B) : M B :=
  fun w =>
    match m w with
    | (Ok a, w') => k a w'
    | (Raise e, w') => (Raise e, w')
    | (OutOfFuel, w') => (OutOfFuel, w')
    end.

Notation "'let*' x ':=' m 'in' k" := (bind m (fun x => k))
  (at level 10, x pattern, m at level 100, k at level 200).
Notation "m ';;' k" := (bind m (fun _ => k))
  (at level 100, k at level 200, right associativity, only parsing).

Definition out_of_fuel {A} : M A := fun w => (OutOfFuel, w).

(** A validation step. *)
Definition lift {A} (c : checked A) : M A :=
  match c with
  | Accept a => ret a
  | Reject e => raise e
  end.

Definition of_option {A} (e : exn) (o : option A) : M A :=
  match o with
  | Some a => ret a
  | None => raise e
  end.

Definition query_log (t : table) : M unit :=
  fun w =>
    (Ok tt,
     {| queries := (queries w ++ [t])%list; printed := printed w;
        yielded := yielded w |}).

Definition print (line : string) : M unit :=
  fun w =>
    (Ok tt,
     {| queries := queries w; printed := (printed w ++ [line])%list;
        yielded := yielded w |}).

Definition yield (p : Phase) : M unit :=
  fun w =>
    (Ok tt,
     {| queries := queries w; printed := printed w;
        yielded := (yielded w ++ [p])%list |}).

(** [db.query(table)]: the rows of one table. *)
Definition query {A} (t : table) (rows : list A) : M (list A) :=
  query_log t ;; ret rows.

(** [Query.one_or_none()]. *)
Definition one_or_none {A} (rows : list A) : M (option A) :=
  match rows with
  | [] => ret None
  | [r] => ret (Some r)
  | _ => raise MultipleResultsFound
  end.

Fixpoint for_each {A} (l : list A) (body : A -> M unit) : M unit :=
  match l with
  | [] => ret tt
  | x :: r => body x ;; for_each r body
  end.

(** A [while] loop on a pure state: the final state and the states the
    body ran on, or [None] when the fuel does not suffice. *)
Fixpoint while_loop {S} (fuel : nat) (cond : S -> bool) (body : S -> S) (s : S)
  : option (S * list S) :=
  if cond s then
    match fuel with
    | O => None
    | Datatypes.S fuel' =>
        match while_loop fuel' cond body (body s) with
        | Some (s', ran) => Some (s', s :: ran)
        | None => None
        end
    end
  else Some (s, []).

(** The arguments the public methods take: a string or a date. *)
Inductive StrOrDate :=
| Str (s : string)
| Dt (d : Date.t).

(** ** What [market.py] imports and the sources do not hold

    [tradinghours.util], [tradinghours.validate], the methods of
    [Schedule], and the parts of the Python library that need data of
    their own (the zone database, the general parsers). The functions of
    [Market] are stated over any such environment. *)

Class Externals := {
  (* tradinghours.util *)
  weekdays_match : string -> Z -> bool;
  (* tradinghours.dynamic_models.Schedule *)
  is_group_open : string -> bool;
  is_in_force : Schedule -> string -> string -> bool;
  has_season : Schedule -> bool;
  (* tradinghours.validate *)
  validate_date_arg : string -> StrOrDate -> checked Date.t;
  validate_range_args : Date.t -> Date.t -> checked (Date.t * Date.t);
  validate_finid_arg : string -> string -> checked string;
  validate_str_arg : string -> string -> checked string;
  (* Python: int(), the fromisoformat of date and of time, zoneinfo.ZoneInfo;
     [None] stands for the exception, which for ZoneInfo depends on the key
     ([ZoneInfoNotFoundError] for a key without zone data, [ValueError] for a
     key that is no normalized relative path) and is [ZoneInfo_error] *)
  py_int : string -> option Z;
  date_fromisoformat : string -> option Date.t;
  time_fromisoformat : string -> option time;
  time_fromisoformat_valid :
    forall s t, time_fromisoformat s = Some t -> time_valid t;
  ZoneInfo : string -> option tzinfo;
  ZoneInfo_error : string -> exn
}.

(** ** [class Market] *)

(** Arbitrary max offset days for TradingHours data *)
Definition MAX_OFFSET_DAYS : Z := 2.

Definition is_nil {A} (l : list A) : bool :=
  match l with
  | [] => true
  | _ :: _ => false
  end.

(** Order of the [order_by] columns, compared left to right. *)
Fixpoint columns_lt (a b : list string) : bool :=
  match a, b with
  | x :: a', y :: b' => if Py.str_eq x y then columns_lt a' b' else Py.str_lt x y
  | [], _ :: _ => true
  | _, [] => false
  end.

Section MarketMethods.
Context `{Externals} (db : Store).

(** Modelled from the spec: [SeasonDefinition.get] (tradinghours.dynamic_models
    is not among the sources). Section 4.1: a pure lookup into the season
    definitions table by name and year, which fails with [DataMissing] when
    the pair is absent. *)
Definition SeasonDefinition_get (season : string) (year : Z) : M SeasonDefinition :=
  let* rows := query SeasonDefinitions (season_definitions db) in
  match List.filter (fun r => Py.str_eq (sd_season r) season && (sd_year r =? year)) rows with
  | r :: _ => ret r
  | [] => raise DataMissing
  end.

(** Modelled from the spec: [PhaseType.as_dict] (tradinghours.dynamic_models
    is not among the sources). Section 4.5: the phase type is looked up by
    its name. *)
Definition PhaseType_as_dict : M (gmap string PhaseType) :=
  let* rows := query PhaseTypes (phase_types db) in
  ret (fold_left (fun d r => <[pt_name r := r]> d) rows ∅).

Definition _pick_schedule_group
    (some_date : Date.t) (holidays : gmap Z MarketHoliday) : string * bool :=
  match holidays !! some_date with
  | Some found =>
      let schedule_group := Py.lower (h_schedule found) in
      let fallback := is_group_open schedule_group in
      (schedule_group, fallback)
  | None => ("regular", false)
  end.

Definition _filter_schedule_group
    (schedule_group : string) (schedules : list Schedule) : list Schedule :=
  List.filter
    (fun current => Py.str_eq (Py.lower (s_schedule_group current)) (Py.lower schedule_group))
    schedules.

Definition _filter_inforce (some_date : string) (schedules : list Schedule) : list Schedule :=
  List.filter (fun current => is_in_force current some_date some_date) schedules.

(** What [_filter_season] yields for one schedule. *)
Definition season_yields (some_date : Date.t) (current : Schedule) : M (list Schedule) :=
  let some_date_str := Date.isoformat some_date in
  if negb (has_season current) then ret [current]
  else
    let* s := SeasonDefinition_get (s_season_start current) (Date.year some_date) in
    let start_date := sd_date s in
    let* e := SeasonDefinition_get (s_season_end current) (Date.year some_date) in
    let end_date := sd_date e in
    let wrapped :=
      if Py.str_lt end_date start_date then
        if Py.str_le some_date_str end_date || Py.str_ge some_date_str start_date
        then [current] else []
      else [] in
    let in_range :=
      if Py.str_ge some_date_str start_date && Py.str_le some_date_str end_date
      then [current] else [] in
    ret (wrapped ++ in_range)%list.

Fixpoint _filter_season (some_date : Date.t) (schedules : list Schedule)
  : M (list Schedule) :=
  match schedules with
  | [] => ret []
  | current :: rest =>
      let* now := season_yields some_date current in
      let* later := _filter_season some_date rest in
      ret (now ++ later)%list
  end.

Definition _filter_weekdays (weekday : Z) (schedules : list Schedule) : list Schedule :=
  List.filter (fun current => weekdays_match (s_days current) weekday) schedules.

Definition list_schedules (self : Market) : M (list Schedule) :=
  let* rows := query Schedules (schedules db) in
  let schedules := List.filter (fun r => Py.str_eq (s_fin_id r) (m_fin_id self)) rows in
  ret (Py.sorted columns_lt
         (fun r => [s_schedule_group r; s_in_force_start_date r; s_season_start r;
                    s_start r; s_end r])
         schedules).

Fixpoint holidays_as_dict (result : list MarketHoliday) (d : gmap Z MarketHoliday)
  : M (gmap Z MarketHoliday) :=
  match result with
  | [] => ret d
  | r :: rest =>
      let* key := of_option ValueError (date_fromisoformat (h_date r)) in
      holidays_as_dict rest (<[key := r]> d)
  end.

Definition list_holidays (self : Market) (start end_ : StrOrDate) (as_dict : bool)
  : M (list MarketHoliday + gmap Z MarketHoliday) :=
  let* s := lift (validate_date_arg "start" start) in
  let* e := lift (validate_date_arg "end" end_) in
  let* (start, end_) := lift (validate_range_args s e) in
  let* rows := query MarketHolidays (market_holidays db) in
  let result :=
    List.filter
      (fun r => Py.str_eq (h_fin_id r) (m_fin_id self)
                && Py.str_ge (h_date r) (Date.isoformat start)
                && Py.str_le (h_date r) (Date.isoformat end_))
      rows in
  if as_dict then
    let* d := holidays_as_dict result ∅ in ret (inr d)
  else ret (inl result).

(** The fallback loop keeps [(fallback_schedules, fallback_weekday)]. *)
Definition fallback_cond (current_weekday : Z) (s : list Schedule * Z) : bool :=
  is_nil (fst s) && negb (snd s =? current_weekday).

Definition fallback_body (before_weekdays : list Schedule) (s : list Schedule * Z)
  : list Schedule * Z :=
  let fallback_weekday := snd s in
  (List.filter (fun s => weekdays_match (s_days s) fallback_weekday) before_weekdays,
   if fallback_weekday =? 0 then 6 else fallback_weekday - 1).

Definition fallback_fuel : nat := 7.

(** Weekday filter, then the fallback when it is needed. *)
Definition found_schedules_of
    (fallback : bool) (current_weekday : Z) (before_weekdays : list Schedule)
  : M (list Schedule) :=
  let found_schedules := _filter_weekdays current_weekday before_weekdays in
  if is_nil found_schedules && fallback then
    let fallback_weekday := if current_weekday =? 0 then 6 else current_weekday - 1 in
    match while_loop fallback_fuel (fallback_cond current_weekday)
            (fallback_body before_weekdays) ([], fallback_weekday) with
    | Some ((fallback_schedules, _), _) => ret fallback_schedules
    | None => out_of_fuel
    end
  else ret found_schedules.

(** The body of the loop over [found_schedules]. *)
Definition emit_phase
    (phase_types_dict : gmap string PhaseType) (start current_date : Date.t)
    (current_schedule : Schedule) : M unit :=
  let start_date := current_date in
  let* offset := of_option ValueError (py_int (s_offset_days current_schedule)) in
  let* end_date := of_option OverflowError (Date.add_days current_date offset) in
  if Date.leb start end_date then
    let* start_time := of_option ValueError (time_fromisoformat (s_start current_schedule)) in
    let start_datetime := combine start_date start_time in
    let* end_time := of_option ValueError (time_fromisoformat (s_end current_schedule)) in
    let end_datetime := combine end_date end_time in
    let* zoneinfo_obj :=
      of_option (ZoneInfo_error (s_timezone current_schedule))
        (ZoneInfo (s_timezone current_schedule)) in
    let start_datetime := replace_tzinfo start_datetime zoneinfo_obj in
    let end_datetime := replace_tzinfo end_datetime zoneinfo_obj in
    let* phase_type := of_option KeyError (phase_types_dict !! s_phase_type current_schedule) in
    yield {| p_phase_type := s_phase_type current_schedule;
             p_phase_name := s_phase_name current_schedule;
             p_phase_memo := s_phase_memo current_schedule;
             p_status := pt_status phase_type;
             p_settlement := pt_settlement phase_type;
             p_start := datetime_isoformat start_datetime;
             p_end := datetime_isoformat end_datetime |}
  else ret tt.

(** One turn of the loop over the dates. *)
Definition phases_of_date
    (all_schedules : list Schedule) (holidays : gmap Z MarketHoliday)
    (phase_types_dict : gmap string PhaseType) (start current_date : Date.t) : M unit :=
  let current_date_str := Date.isoformat current_date in
  let current_weekday := Date.weekday current_date in
  let schedules := all_schedules in
  let '(schedule_group, fallback) := _pick_schedule_group current_date holidays in
  let schedules := _filter_schedule_group schedule_group schedules in
  let schedules := _filter_inforce current_date_str schedules in
  let* before_weekdays := _filter_season current_date schedules in
  let* found_schedules := found_schedules_of fallback current_weekday before_weekdays in
  let found_schedules :=
    Py.sorted Py.pair_lt (fun s => (s_start s, s_duration s)) found_schedules in
  for_each found_schedules (emit_phase phase_types_dict start current_date).

Fixpoint date_loop
    (fuel : nat) (all_schedules : list Schedule) (holidays : gmap Z MarketHoliday)
    (phase_types_dict : gmap string PhaseType) (start end_ current_date : Date.t)
  : M unit :=
  if Date.leb current_date end_ then
    match fuel with
    | O => out_of_fuel
    | S fuel' =>
        phases_of_date all_schedules holidays phase_types_dict start current_date ;;
        let* next := of_option OverflowError (Date.add_days current_date 1) in
        date_loop fuel' all_schedules holidays phase_types_dict start end_ next
    end
  else ret tt.

(** What follows the validation of the arguments. *)
Definition generate_phases_between (self : Market) (start end_ : Date.t) : M unit :=
  print ("generating phases between " +:+ Date.isoformat start
         +:+ " and " +:+ Date.isoformat end_) ;;
  let* phase_types_dict := PhaseType_as_dict in
  let* offset_start := of_option OverflowError (Date.add_days start (- MAX_OFFSET_DAYS)) in
  let* all_schedules := list_schedules self in
  let* holidays := list_holidays self (Dt offset_start) (Dt end_) true in
  match holidays with
  | inr holidays =>
      date_loop (Z.to_nat (end_ - offset_start + 1)) all_schedules holidays
        phase_types_dict start end_ offset_start
  | inl _ => raise AttributeError
  end.

Definition generate_phases (self : Market) (start end_ : StrOrDate) : M unit :=
  let* s := lift (validate_date_arg "start" start) in
  let* e := lift (validate_date_arg "end" end_) in
  let* (start, end_) := lift (validate_range_args s e) in
  generate_phases_between self start end_.

Definition list_all : M (list Market) := query Markets (markets db).

Definition get_by_finid (finid : string) (follow : bool) : M (option Market) :=
  let* finid := lift (validate_finid_arg "finid" finid) in
  let* rows := query Markets (markets db) in
  let* found := one_or_none (List.filter (fun r => Py.str_eq (m_fin_id r) finid) rows) in
  let* found :=
    match found with
    | Some row =>
        if Py.truthy (m_replaced_by row) && follow then
          let* rows := query Markets (markets db) in
          one_or_none
            (List.filter (fun r => Py.str_eq (m_fin_id r) (m_replaced_by row)) rows)
        else ret found
    | None => ret found
    end in
  ret found.

Definition get_by_mic (mic : string) (follow : bool) : M (option Market) :=
  let* mic := lift (validate_str_arg "mic" mic) in
  let* rows := query MicMappings (mic_mappings db) in
  let* mapping := one_or_none (List.filter (fun r => Py.str_eq (mm_mic r) mic) rows) in
  match mapping with
  | Some mapping => get_by_finid (mm_fin_id mapping) follow
  | None => ret None
  end.

Definition get (identifier : string) (follow : bool) : M (option Market) :=
  let* identifier := lift (validate_str_arg "identifier" identifier) in
  if Py.contains "." identifier then get_by_finid identifier follow
  else get_by_mic identifier follow.

End MarketMethods.

(** ** [tradinghours.validate], from the specification *)

Module Validate.

(** Modelled from the spec: [validate_date_arg] (tradinghours/validate.py is
    not among the sources). Sections 4.6 and 7: both arguments are coerced
    to dates, and an unparseable date is an [InvalidArgument]. *)
Definition validate_date_arg (fromisoformat : string -> option Date.t)
    (name : string) (value : StrOrDate) : checked Date.t :=
  match value with
  | Dt d => Accept d
  | Str s =>
      match fromisoformat s with
      | Some d => Accept d
      | None => Reject InvalidArgument
      end
  end.

(** Modelled from the spec: [validate_range_args] (tradinghours/validate.py
    is not among the sources). Section 7: [start > end] is an
    [InvalidArgument]. *)
Definition validate_range_args (start end_ : Date.t) : checked (Date.t * Date.t) :=
  if Date.ltb end_ start then Reject InvalidArgument else Accept (start, end_).

(** Modelled from the spec: [validate_finid_arg] (tradinghours/validate.py
    is not among the sources). Section 7 and the glossary: a FinID has the
    form COUNTRY.ACRONYM, and a malformed identifier is an
    [InvalidArgument]. *)
Definition validate_finid_arg (name value : string) : checked string :=
  if Py.contains "." value then Accept value else Reject InvalidArgument.

(** Modelled from the spec: [validate_str_arg] (tradinghours/validate.py is
    not among the sources). Section 4.7: on the MIC path the MIC is
    uppercased before the lookup; [get_by_mic] passes it through this
    function and nothing else. *)
Definition validate_str_arg (name value : string) : checked string :=
  if Py.str_eq name "mic" then Accept (Py.upper value) else Accept value.

End Validate.

(** ** A concrete environment

    The remaining imports, written out from the specification so that the
    methods can be run on sample data. *)

Module Env.

Definition day_names : list string := ["Mon"; "Tue"; "Wed"; "Thu"; "Fri"; "Sat"; "Sun"].

Fixpoint index_of (name : string) (l : list string) (i : Z) : option Z :=
  match l with
  | [] => None
  | x :: r => if Py.str_eq x name then Some i else index_of name r (i + 1)
  end.

(** Split at every [sep]. *)
Fixpoint split_on (sep : ascii) (s : string) (cur : string) : list string :=
  match s with
  | EmptyString => [cur]
  | String c r =>
      if Ascii.eqb c sep then cur :: split_on sep r ""
      else split_on sep r (cur +:+ String c "")
  end.

(** One element of a pattern: a day, or a range that may wrap. *)
Definition element_matches (elt : string) (weekday : Z) : bool :=
  match split_on "-" elt "" with
  | [d] =>
      match index_of d day_names 0 with
      | Some i => i =? weekday
      | None => false
      end
  | [a; b] =>
      match index_of a day_names 0, index_of b day_names 0 with
      | Some i, Some j =>
          if i <=? j then (i <=? weekday) && (weekday <=? j)
          else (i <=? weekday) || (weekday <=? j)
      | _, _ => false
      end
  | _ => false
  end.

(** Modelled from the spec: [weekdays_match] (tradinghours/util.py is not
    among the sources). Section 4.3, stage 5: a comma list of days and
    inclusive ranges, a range wrapping past Sunday. *)
Definition weekdays_match (days : string) (weekday : Z) : bool :=
  existsb (fun elt => element_matches elt weekday) (split_on "," days "").

(** Modelled from the spec: [Schedule.is_in_force]. Section 4.3, stage 3:
    a missing bound is open. *)
Definition is_in_force (s : Schedule) (start end_ : string) : bool :=
  (Py.str_eq (s_in_force_start_date s) "" || Py.str_le (s_in_force_start_date s) end_)
  && (Py.str_eq (s_in_force_end_date s) "" || Py.str_le start (s_in_force_end_date s)).

(** Modelled from the spec: [Schedule.has_season]. Section 3: both season
    bounds or neither. *)
Definition has_season (s : Schedule) : bool :=
  Py.truthy (s_season_start s) && Py.truthy (s_season_end s).

(** Modelled from the spec: [Schedule.is_group_open]. Section 4.3, stage 1:
    a group is open when one of its schedules has a phase type of status
    Open. *)
Definition is_group_open (db : Store) (group : string) : bool :=
  existsb
    (fun s =>
       Py.str_eq (Py.lower (s_schedule_group s)) (Py.lower group)
       && existsb (fun t => Py.str_eq (pt_name t) (s_phase_type s)
                            && Py.str_eq (pt_status t) "Open")
            (phase_types db))
    (schedules db).

(** [int()] on a decimal numeral with an optional sign. *)
Definition py_int (s : string) : option Z :=
  match list_ascii_of_string s with
  | [] => None
  | c :: r =>
      if Ascii.eqb c "-" then
        match r with
        | [] => None
        | _ => option_map Z.opp (Date.number r 0)
        end
      else Date.number (c :: r) 0
  end.

(** [time.fromisoformat] on the [HH:MM:SS] form. *)
Definition time_fromisoformat (s : string) : option time :=
  match list_ascii_of_string s with
  | [h1; h2; sep1; m1; m2; sep2; s1; s2] =>
      if Ascii.eqb sep1 ":" && Ascii.eqb sep2 ":" then
        match Date.number [h1; h2] 0, Date.number [m1; m2] 0, Date.number [s1; s2] 0 with
        | Some h, Some m, Some sec =>
            if (0 <=? h) && (h <? 24) && (0 <=? m) && (m <? 60)
               && (0 <=? sec) && (sec <? 60)
            then Some {| hour := h; minute := m; second := sec; microsecond := 0 |}
            else None
        | _, _, _ => None
        end
      else None
  | _ => None
  end.

(** The zones of fixed offset that the sample data uses. *)
Definition ZoneInfo (key : string) : option tzinfo :=
  if Py.str_eq key "UTC" then Some {| tz_key := key; utcoffset := fun _ _ => 0 |}
  else if Py.str_eq key "Etc/GMT+5" then
    Some {| tz_key := key; utcoffset := fun _ _ => -18000 |}
  else None.

(** Whether a key is a normalized relative path: not empty, and no part
    between slashes empty, [.] or [..]. *)
Definition conforming (key : string) : bool :=
  negb (Py.str_eq key "")
  && forallb (fun part => negb (Py.str_eq part "" || Py.str_eq part "."
                                || Py.str_eq part ".."))
       (split_on "/" key "").

(** What [ZoneInfo] raises on a key that gives no zone. *)
Definition ZoneInfo_error (key : string) : exn :=
  if conforming key then ZoneInfoNotFoundError else ValueError.

End Env.

(** The environment of the specification over a data set. *)
Definition spec_env (db : Store) : Externals.
Proof.
  refine {|
    weekdays_match := Env.weekdays_match;
    is_group_open := Env.is_group_open db;
    is_in_force := Env.is_in_force;
    has_season := Env.has_season;
    validate_date_arg := Validate.validate_date_arg Date.fromisoformat;
    validate_range_args := Validate.validate_range_args;
    validate_finid_arg := Validate.validate_finid_arg;
    validate_str_arg := Validate.validate_str_arg;
    py_int := Env.py_int;
    date_fromisoformat := Date.fromisoformat;
    time_fromisoformat := Env.time_fromisoformat;
    time_fromisoformat_valid := _;
    ZoneInfo := Env.ZoneInfo;
    ZoneInfo_error := Env.ZoneInfo_error
  |}.
  intros s t. unfold Env.time_fromisoformat.
  repeat (case_match; try discriminate).
  intros [= <-]. unfold time_valid; cbn.
  repeat match goal with
         | H : _ && _ = true |- _ => apply andb_prop in H; destruct H
         end.
  lia.
Defined.

(** ** Sample data: a fictitious exchange on UTC *)

Module Sample.

Definition schedule_row
    (group ptype name days start end_ offset duration season_start season_end : string)
  : Schedule :=
  {| s_fin_id := "ZZ.DEMO"; s_schedule_group := group; s_timezone := "UTC";
     s_phase_type := ptype; s_phase_name := name; s_phase_memo := "";
     s_days := days; s_start := start; s_end := end_; s_offset_days := offset;
     s_duration := duration; s_in_force_start_date := ""; s_in_force_end_date := "";
     s_season_start := season_start; s_season_end := season_end |}.

Definition pre_trading : Schedule :=
  schedule_row "Regular" "Pre-Trading Session" "Pre-Trading Session" "Mon-Fri"
    "04:00:00" "09:30:00" "0" "19800" "" "".

Definition primary : Schedule :=
  schedule_row "Regular" "Primary Trading Session" "Core Trading Session" "Mon-Fri"
    "09:30:00" "16:00:00" "0" "23400" "" "".

Definition overnight : Schedule :=
  schedule_row "Regular" "Post-Trading Session" "Overnight Session" "Sun-Thu"
    "22:00:00" "02:00:00" "1" "14400" "" "".

Definition winter : Schedule :=
  schedule_row "Regular" "Primary Trading Session" "Winter Evening Session" "Mon-Fri"
    "17:00:00" "18:00:00" "0" "3600" "First day of December" "Last day of February".

Definition partial : Schedule :=
  schedule_row "Partial" "Primary Trading Session" "Short Session" "Mon-Thu"
    "09:30:00" "13:00:00" "0" "12600" "" "".

Definition market_row (fin_id mic replaced_by : string) : Market :=
  {| m_fin_id := fin_id; m_mic := mic; m_exchange_name := "Demo Exchange";
     m_market_name := "Demo Exchange"; m_timezone := "UTC";
     m_replaced_by := replaced_by |}.

Definition demo : Market := market_row "ZZ.DEMO" "XDEM" "".
Definition old : Market := market_row "ZZ.OLD" "XOLD" "ZZ.DEMO".
Definition older : Market := market_row "ZZ.OLDER" "" "ZZ.OLD".
Definition lost : Market := market_row "ZZ.LOST" "" "ZZ.NOWHERE".
Definition self_ref : Market := market_row "ZZ.SELF" "" "ZZ.SELF".

Definition holiday_row (date name schedule status : string) : MarketHoliday :=
  {| h_fin_id := "ZZ.DEMO"; h_date := date; h_holiday_name := name;
     h_schedule := schedule; h_settlement := "No"; h_status := status;
     h_observed := ""; h_memo := "" |}.

Definition db : Store := {|
  markets := [demo; old; older; lost; self_ref];
  schedules := [winter; primary; partial; overnight; pre_trading];
  market_holidays :=
    [holiday_row "2024-11-29" "Day after Thanksgiving" "Partial" "Open";
     holiday_row "2024-12-25" "Christmas Day" "Closed" "Closed"];
  season_definitions :=
    [{| sd_season := "First day of December"; sd_year := 2023; sd_date := "2023-12-01" |};
     {| sd_season := "Last day of February"; sd_year := 2023; sd_date := "2023-02-28" |};
     {| sd_season := "First day of December"; sd_year := 2024; sd_date := "2024-12-01" |};
     {| sd_season := "Last day of February"; sd_year := 2024; sd_date := "2024-02-29" |}];
  phase_types :=
    [{| pt_name := "Primary Trading Session"; pt_status := "Open"; pt_settlement := "Yes" |};
     {| pt_name := "Pre-Trading Session"; pt_status := "Closed"; pt_settlement := "No" |};
     {| pt_name := "Post-Trading Session"; pt_status := "Closed"; pt_settlement := "No" |}];
  mic_mappings :=
    [{| mm_mic := "XDEM"; mm_fin_id := "ZZ.DEMO" |};
     {| mm_mic := "XOLD"; mm_fin_id := "ZZ.OLD" |}]
|}.

Definition env : Externals := spec_env db.

(** A data set whose only schedule opens and closes at the same time. *)
Definition auction : Schedule :=
  schedule_row "Regular" "Primary Trading Session" "Closing Auction" "Mon-Fri"
    "16:00:00" "16:00:00" "0" "0" "" "".

Definition flat_db : Store := {|
  markets := [demo];
  schedules := [auction];
  market_holidays := [];
  season_definitions := [];
  phase_types := phase_types db;
  mic_mappings := []
|}.

Definition flat_env : Externals := spec_env flat_db.

(** A data set with two sessions that start together, one of three hours
    and one of half an hour. *)
Definition long_session : Schedule :=
  schedule_row "Regular" "Primary Trading Session" "Long Session" "Mon-Fri"
    "09:30:00" "12:30:00" "0" "10800" "" "".

Definition short_auction : Schedule :=
  schedule_row "Regular" "Pre-Trading Session" "Short Auction" "Mon-Fri"
    "09:30:00" "10:00:00" "0" "1800" "" "".

Definition tie_db : Store := {|
  markets := [demo];
  schedules := [short_auction; long_session];
  market_holidays := [];
  season_definitions := [];
  phase_types := phase_types db;
  mic_mappings := []
|}.

Definition tie_env : Externals := spec_env tie_db.

(** A schedule row moved to another zone. *)
Definition in_zone (zone : string) (s : Schedule) : Schedule :=
  {| s_fin_id := s_fin_id s; s_schedule_group := s_schedule_group s;
     s_timezone := zone; s_phase_type := s_phase_type s;
     s_phase_name := s_phase_name s; s_phase_memo := s_phase_memo s;
     s_days := s_days s; s_start := s_start s; s_end := s_end s;
     s_offset_days := s_offset_days s; s_duration := s_duration s;
     s_in_force_start_date := s_in_force_start_date s;
     s_in_force_end_date := s_in_force_end_date s;
     s_season_start := s_season_start s; s_season_end := s_season_end s |}.

(** The same environment with a validation that refuses the empty text. *)
Definition strict_env : Externals := {|
  weekdays_match := @weekdays_match env;
  is_group_open := @is_group_open env;
  is_in_force := @is_in_force env;
  has_season := @has_season env;
  validate_date_arg := @validate_date_arg env;
  validate_range_args := @validate_range_args env;
  validate_finid_arg := @validate_finid_arg env;
  validate_str_arg := fun name value =>
    if Py.str_eq value "" then Reject InvalidArgument
    else Validate.validate_str_arg name value;
  py_int := @py_int env;
  date_fromisoformat := @date_fromisoformat env;
  time_fromisoformat := @time_fromisoformat env;
  time_fromisoformat_valid := @time_fromisoformat_valid env;
  ZoneInfo := @ZoneInfo env;
  ZoneInfo_error := @ZoneInfo_error env
|}.

End Sample.

(** * Vocabulary of the properties

    Pure readings of the methods and of their runs, used to state what
    the methods do. *)

(** The world after one more query of table [t]. *)
Definition logged (t : table) (w : world) : world :=
  {| queries := (queries w ++ [t])%list; printed := printed w; yielded := yielded w |}.

(** The row [SeasonDefinition.get] finds, if any. *)
Definition season_row (db : Store) (season : string) (year : Z)
  : option SeasonDefinition :=
  head (List.filter (fun r => Py.str_eq (sd_season r) season && (sd_year r =? year))
          (season_definitions db)).

(** The two tests of [_filter_season] on a date and the two season dates,
    all three in ISO form. *)
Definition season_keeps (x start_date end_date : string) : bool :=
  if Py.str_lt end_date start_date
  then Py.str_le x end_date || Py.str_ge x start_date
  else Py.str_ge x start_date && Py.str_le x end_date.

(** Whether [_filter_season] keeps a schedule; [None] when a season of the
    schedule does not resolve. *)
Definition season_keep `{Externals} (db : Store) (some_date : Date.t) (s : Schedule)
  : option bool :=
  if has_season s then
    match season_row db (s_season_start s) (Date.year some_date),
          season_row db (s_season_end s) (Date.year some_date) with
    | Some a, Some b =>
        Some (season_keeps (Date.isoformat some_date) (sd_date a) (sd_date b))
    | _, _ => None
    end
  else Some true.

(** The same as a test, false when a season does not resolve. *)
Definition season_kept `{Externals} (db : Store) (some_date : Date.t) (s : Schedule)
  : bool :=
  match season_keep db some_date s with
  | Some b => b
  | None => false
  end.

(** Days in a month and days before a month, by the leap flag of the year. *)
Definition dim_flag (leap : bool) (m : Z) : Z :=
  if (m =? 2) && leap then 29 else nth (Z.to_nat m) Date.DAYS_IN_MONTH 0.

Definition dbm_flag (leap : bool) (m : Z) : Z :=
  nth (Z.to_nat m) Date.DAYS_BEFORE_MONTH 0 + (if (2 <? m) && leap then 1 else 0).

(** [month_and_day] gives a month and a day of that month which count back
    to [n]. *)
Definition month_and_day_ok (leap : bool) (n : Z) : bool :=
  let '(m, d) := Date.month_and_day leap n in
  (1 <=? m) && (m <=? 12) && (1 <=? d) && (d <=? dim_flag leap m)
  && (dbm_flag leap m + d =? n + 1).

(** [f] holds on 0, ..., k - 1. *)
Fixpoint all_below (k : nat) (f : Z -> bool) : bool :=
  match k with
  | O => true
  | S k' => f (Z.of_nat k') && all_below k' f
  end.

(** A year, month and day that [datetime.date] admits. *)
Definition ymd_valid (a : Z * Z * Z) : Prop :=
  let '(y, m, d) := a in
  1 <= y <= 9999 /\ 1 <= m <= 12 /\ 1 <= d <= Date.days_in_month y m.

(** Order of the triples (year, month, day). *)
Definition ymd_compare (a b : Z * Z * Z) : comparison :=
  let '(y, m, d) := a in
  let '(y', m', d') := b in
  match y ?= y' with
  | Eq => match m ?= m' with
          | Eq => d ?= d'
          | c => c
          end
  | c => c
  end.

(** The weekdays before [weekday], nearest first. *)
Definition earlier_weekdays (weekday : Z) : list Z :=
  map (fun k => (weekday - k) mod 7) [1; 2; 3; 4; 5; 6].

(** The first list that is not empty, or [[]]. *)
Fixpoint first_nonempty {A} (ls : list (list A)) : list A :=
  match ls with
  | [] => []
  | l :: rest => if is_nil l then first_nonempty rest else l
  end.

(** [walk x cands today]: stepping back from [x] one weekday at a time
    goes through [cands] and then reaches [today]. *)
Inductive walk (today : Z) : Z -> list Z -> Prop :=
| walk_done : walk today today []
| walk_step x cands :
    x <> today ->
    walk today (if x =? 0 then 6 else x - 1) cands ->
    walk today x (x :: cands).

(** What the fallback search adopts. *)
Definition adopted_of `{Externals} (today : Z) (before_weekdays : list Schedule)
  : list Schedule :=
  first_nonempty
    (map (fun k => _filter_weekdays k before_weekdays) (earlier_weekdays today)).

(** A phase together with what it was made from. *)
Record emission := {
  e_date : Date.t;
  e_schedule : Schedule;
  e_offset : Z;
  e_end_date : Date.t;
  e_start_time : time;
  e_end_time : time;
  e_zone : tzinfo;
  e_phase : Phase
}.

(** The two datetimes whose ISO forms the phase carries. *)
Definition e_start (em : emission) : datetime :=
  replace_tzinfo (combine (e_date em) (e_start_time em)) (e_zone em).

Definition e_end (em : emission) : datetime :=
  replace_tzinfo (combine (e_end_date em) (e_end_time em)) (e_zone em).

(** The phase that a schedule gives on a date, when every step of
    [emit_phase] succeeds; the test against the window is left out. *)
Definition emission_of `{Externals} (types : gmap string PhaseType)
    (current_date : Date.t) (s : Schedule) : option emission :=
  match py_int (s_offset_days s) with
  | Some offset =>
      match Date.add_days current_date offset with
      | Some end_date =>
          match time_fromisoformat (s_start s), time_fromisoformat (s_end s),
                ZoneInfo (s_timezone s), types !! s_phase_type s with
          | Some st, Some et, Some zone, Some pt =>
              Some {| e_date := current_date; e_schedule := s; e_offset := offset;
                      e_end_date := end_date; e_start_time := st; e_end_time := et;
                      e_zone := zone;
                      e_phase :=
                        {| p_phase_type := s_phase_type s;
                           p_phase_name := s_phase_name s;
                           p_phase_memo := s_phase_memo s;
                           p_status := pt_status pt;
                           p_settlement := pt_settlement pt;
                           p_start :=
                             datetime_isoformat
                               (replace_tzinfo (combine current_date st) zone);
                           p_end :=
                             datetime_isoformat
                               (replace_tzinfo (combine end_date et) zone) |} |}
          | _, _, _, _ => None
          end
      | None => None
      end
  | None => None
  end.

(** The world after [ps] more phases were yielded. *)
Definition pushed (w : world) (ps : list Phase) : world :=
  {| queries := queries w; printed := printed w; yielded := (yielded w ++ ps)%list |}.

(** The sort key of [generate_phases] and its order. *)
Definition schedule_key (s : Schedule) : string * string := (s_start s, s_duration s).

Definition key_le (a b : Schedule) : Prop :=
  Py.pair_le (schedule_key a) (schedule_key b) = true.

(** Order of the emissions: by date, then by the sort key. *)
Definition emission_le (a b : emission) : Prop :=
  e_date a < e_date b
  \/ (e_date a = e_date b /\ key_le (e_schedule a) (e_schedule b)).

(** [em] is what [emit_phase] yields for its schedule on [current_date],
    in the window that starts at [start]. *)
Definition emitted_on `{Externals} (types : gmap string PhaseType)
    (start current_date : Date.t) (em : emission) : Prop :=
  emission_of types current_date (e_schedule em) = Some em
  /\ start <= e_end_date em.

(** The dictionary that [PhaseType.as_dict] builds. *)
Definition phase_types_dict_of (db : Store) : gmap string PhaseType :=
  fold_left (fun d r => <[pt_name r := r]> d) (phase_types db) ∅.

(** The two date arguments after validation. *)
Definition validated_range `{Externals} (start end_ : StrOrDate)
  : checked (Date.t * Date.t) :=
  match validate_date_arg "start" start with
  | Accept s =>
      match validate_date_arg "end" end_ with
      | Accept e => validate_range_args s e
      | Reject x => Reject x
      end
  | Reject x => Reject x
  end.

(** [em] is a phase of a run of [generate_phases] over the window from
    [first] to [last]. *)
Definition emitted_by `{Externals} (db : Store) (self : Market) (first last : Date.t)
    (em : emission) : Prop :=
  emitted_on (phase_types_dict_of db) first (e_date em) em
  /\ first - MAX_OFFSET_DAYS <= e_date em <= last
  /\ In (e_schedule em) (schedules db)
  /\ s_fin_id (e_schedule em) = m_fin_id self.

(** The rows of [markets] with a given FinID, in table order. *)
Definition rows_with (db : Store) (finid : string) : list Market :=
  List.filter (fun r => Py.str_eq (m_fin_id r) finid) (markets db).

(** What [one_or_none] makes of the rows of a query. *)
Definition lookup_result {A} (rows : list A) : result (option A) :=
  match rows with
  | [] => Ok None
  | [r] => Ok (Some r)
  | _ :: _ :: _ => Raise MultipleResultsFound
  end.

(** The rows of [mic_mappings] with a given MIC. *)
Definition mappings_with (db : Store) (mic : string) : list MicMapping :=
  List.filter (fun r => Py.str_eq (mm_mic r) mic) (mic_mappings db).

(** The date an argument stands for, if any. *)
Definition coerce `{Externals} (x : StrOrDate) : option Date.t :=
  match x with
  | Dt d => Some d
  | Str s => date_fromisoformat s
  end.

(** The holiday rows of a market between two dates. *)
Definition holidays_between (db : Store) (self : Market) (first last : Date.t)
  : list MarketHoliday :=
  List.filter
    (fun r => Py.str_eq (h_fin_id r) (m_fin_id self)
              && Py.str_ge (h_date r) (Date.isoformat first)
              && Py.str_le (h_date r) (Date.isoformat last))
    (market_holidays db).

(** [str.isascii()]: every character is below 128. On such a text
    [Py.lower] is [str.lower]. *)
Fixpoint isascii (s : string) : bool :=
  match s with
  | EmptyString => true
  | String c r => (nat_of_ascii c <? 128)%nat && isascii r
  end.

(** Whether the date of a holiday row parses. *)
Definition holiday_parses `{Externals} (r : MarketHoliday) : bool :=
  match date_fromisoformat (h_date r) with
  | Some _ => true
  | None => false
  end.

(** The row that a dictionary keyed by date holds for [d] once the rows
    were entered in order: the last row of that date. *)
Fixpoint holiday_on `{Externals} (rows : list MarketHoliday) (d : Date.t)
  : option MarketHoliday :=
  match rows with
  | [] => None
  | r :: rest =>
      match holiday_on rest d with
      | Some later => Some later
      | None =>
          match date_fromisoformat (h_date r) with
          | Some k => if k =? d then Some r else None
          | None => None
          end
      end
  end.

(** The dictionary that [list_holidays] builds from rows whose dates
    parse, on top of [d]. *)
Fixpoint holidays_dict `{Externals} (rows : list MarketHoliday)
    (d : gmap Z MarketHoliday) : gmap Z MarketHoliday :=
  match rows with
  | [] => d
  | r :: rest =>
      match date_fromisoformat (h_date r) with
      | Some key => holidays_dict rest (<[key := r]> d)
      | None => holidays_dict rest d
      end
  end.

(** The columns that [list_schedules] orders by, and their order. *)
Definition order_columns (r : Schedule) : list string :=
  [s_schedule_group r; s_in_force_start_date r; s_season_start r; s_start r; s_end r].

Definition columns_le (a b : list string) : bool := negb (columns_lt b a).

(** What [list_schedules] returns. *)
Definition schedules_of (db : Store) (self : Market) : list Schedule :=
  Py.sorted columns_lt order_columns
    (List.filter (fun r => Py.str_eq (s_fin_id r) (m_fin_id self)) (schedules db)).

(** The world after the line that [generate_phases] prints. *)
Definition announced (first last : Date.t) (w : world) : world :=
  {| queries := queries w;
     printed := (printed w ++ ["generating phases between " +:+ Date.isoformat first
                               +:+ " and " +:+ Date.isoformat last])%list;
     yielded := yielded w |}.

(** The schedules of a date that reach the weekday filter: those of the
    date's group that are in force and in season. *)
Definition before_weekdays_on `{Externals} (db : Store) (all_schedules : list Schedule)
    (holidays : gmap Z MarketHoliday) (d : Date.t) : list Schedule :=
  List.filter (season_kept db d)
    (_filter_inforce (Date.isoformat d)
       (_filter_schedule_group (fst (_pick_schedule_group d holidays)) all_schedules)).

(** The schedules of a date, in the order in which their phases are made. *)
Definition found_on `{Externals} (db : Store) (all_schedules : list Schedule)
    (holidays : gmap Z MarketHoliday) (d : Date.t) : list Schedule :=
  let before := before_weekdays_on db all_schedules holidays d in
  let today := Date.weekday d in
  Py.sorted Py.pair_lt schedule_key
    (if is_nil (_filter_weekdays today before) && snd (_pick_schedule_group d holidays)
     then adopted_of today before
     else _filter_weekdays today before).

(** The phase of a schedule on a date, if it ends in the window. *)
Definition phase_of `{Externals} (types : gmap string PhaseType) (start d : Date.t)
    (s : Schedule) : list Phase :=
  match emission_of types d s with
  | Some em => if Date.leb start (e_end_date em) then [e_phase em] else []
  | None => []
  end.

(** [emit_phase] does not fail on the schedule: its offset is a number,
    and if the phase ends in the window it can be made. *)
Definition emits `{Externals} (types : gmap string PhaseType) (start d : Date.t)
    (s : Schedule) : Prop :=
  exists offset,
    py_int (s_offset_days s) = Some offset
    /\ (start <= d + offset -> exists em, emission_of types d s = Some em).

(** The dates from [first] on, [n] of them. *)
Definition dates_from (first : Date.t) (n : nat) : list Date.t :=
  map (fun k => first + Z.of_nat k) (seq 0 n).

(** * Properties *)

Example date_2024_02_06 :
  Date.fromisoformat "2024-02-06" = Some 738922
  /\ Date.isoformat 738922 = "2024-02-06"
  /\ Date.weekday 738922 = 1
  /\ Date.isoformat Date.max_ordinal = "9999-12-31"
  /\ Date.isoformat 1 = "0001-01-01"
  /\ Date.fromisoformat "2023-02-29" = None.
Proof. vm_compute. repeat split. Qed.

(** ** Order of strings and of sort keys *)

Lemma str_le_iff a b : Py.str_le a b = true <-> String.le a b.
Proof. unfold Py.str_le, String.le. symmetry. apply Is_true_true. Qed.

Lemma str_le_refl a : Py.str_le a a = true.
Proof. apply str_le_iff. reflexivity. Qed.

Lemma str_le_trans a b c :
  Py.str_le a b = true -> Py.str_le b c = true -> Py.str_le a c = true.
Proof. rewrite !str_le_iff. intros; etrans; eauto. Qed.

Lemma str_le_antisym a b :
  Py.str_le a b = true -> Py.str_le b a = true -> a = b.
Proof. apply String.leb_antisym. Qed.

Lemma str_le_total a b : Py.str_le a b = true \/ Py.str_le b a = true.
Proof. apply String.leb_total. Qed.

Lemma str_lt_not_le a b : Py.str_lt a b = negb (Py.str_le b a).
Proof.
  unfold Py.str_lt, Py.str_le, String.ltb, String.leb.
  rewrite (String.compare_antisym a b).
  destruct (String.compare b a); reflexivity.
Qed.

Lemma str_eq_true a b : Py.str_eq a b = true <-> a = b.
Proof. apply String.eqb_eq. Qed.

Lemma str_eq_false a b : Py.str_eq a b = false <-> a <> b.
Proof. apply String.eqb_neq. Qed.

(** The wrap-around test and the in-range test of [_filter_season] exclude
    each other. *)
Lemma wrapped_excludes_in_range x sd ed :
  Py.str_lt ed sd = true ->
  Py.str_ge x sd && Py.str_le x ed = false.
Proof.
  rewrite str_lt_not_le, negb_true_iff. intros Hlt.
  apply not_true_is_false. intros [H1 H2]%andb_prop.
  unfold Py.str_ge in H1.
  rewrite (str_le_trans sd x ed H1 H2) in Hlt. discriminate.
Qed.

Lemma pair_le_unfold p q :
  Py.pair_le p q =
  if Py.str_eq (fst p) (fst q) then Py.str_le (snd p) (snd q)
  else Py.str_le (fst p) (fst q).
Proof.
  unfold Py.pair_le, Py.pair_lt, Py.str_eq. rewrite (String.eqb_sym (fst q) (fst p)).
  destruct (String.eqb (fst p) (fst q)); rewrite str_lt_not_le, negb_involutive; reflexivity.
Qed.

Lemma pair_le_total p q : Py.pair_le p q = true \/ Py.pair_le q p = true.
Proof.
  rewrite !pair_le_unfold. unfold Py.str_eq. rewrite (String.eqb_sym (fst q) (fst p)).
  destruct (String.eqb (fst p) (fst q)); apply str_le_total.
Qed.

Lemma pair_le_trans p q r :
  Py.pair_le p q = true -> Py.pair_le q r = true -> Py.pair_le p r = true.
Proof.
  rewrite !pair_le_unfold. unfold Py.str_eq.
  destruct (String.eqb_spec (fst p) (fst q)) as [Hpq|Hpq],
           (String.eqb_spec (fst q) (fst r)) as [Hqr|Hqr],
           (String.eqb_spec (fst p) (fst r)) as [Hpr|Hpr];
    intros H1 H2; try congruence.
  - eapply str_le_trans; eauto.
  - exfalso. apply Hpq. apply str_le_antisym; [exact H1|]. rewrite Hpr. exact H2.
  - eapply str_le_trans; eauto.
Qed.

(** ** [sorted] sorts, keeps the elements, and keeps a sorted list *)

Section SortedFacts.
Context {A K : Type} (lt : K -> K -> bool) (key : A -> K).

Let le (a b : A) : Prop := lt (key b) (key a) = false.

Hypothesis le_total : forall a b, le a b \/ le b a.
Hypothesis le_trans : forall a b c, le a b -> le b c -> le a c.

Lemma insert_sorted_perm x l : Permutation (Py.insert_sorted lt key x l) (x :: l).
Proof using Type.
  induction l as [|y r IH]; cbn; [reflexivity|].
  destruct (lt (key y) (key x)); [|reflexivity].
  rewrite IH. apply perm_swap.
Qed.

Lemma sorted_perm l : Permutation (Py.sorted lt key l) l.
Proof using Type.
  induction l as [|x r IH]; cbn; [reflexivity|].
  rewrite insert_sorted_perm. constructor. exact IH.
Qed.

Lemma insert_sorted_sorted x l :
  StronglySorted le l -> StronglySorted le (Py.insert_sorted lt key x l).
Proof using le_total le_trans.
  induction 1 as [|y r Hr IH Hy]; cbn.
  - repeat constructor.
  - destruct (lt (key y) (key x)) eqn:Hlt.
    + constructor; [exact IH|].
      rewrite List.Forall_forall. intros z Hz.
      apply (Permutation_in _ (insert_sorted_perm x r)) in Hz.
      destruct Hz as [<-|Hz].
      * destruct (le_total y x) as [H|H]; [exact H|].
        unfold le in H. congruence.
      * rewrite List.Forall_forall in Hy. auto.
    + constructor; [constructor; assumption|].
      constructor; [exact Hlt|].
      rewrite List.Forall_forall in Hy |- *. intros z Hz.
      eapply le_trans; [exact Hlt|]. auto.
Qed.

Lemma sorted_sorted l : StronglySorted le (Py.sorted lt key l).
Proof using le_total le_trans.
  induction l as [|x r IH]; cbn; [constructor|].
  apply insert_sorted_sorted. exact IH.
Qed.
End SortedFacts.

Lemma strongly_sorted_sublist {A} (R : A -> A -> Prop) (l k : list A) :
  sublist l k -> StronglySorted R k -> StronglySorted R l.
Proof.
  induction 1 as [|x l k Hs IH|x l k Hs IH]; intros Hk;
    inversion Hk as [|? ? Hk' Hx]; subst.
  - constructor.
  - constructor; [auto|].
    rewrite List.Forall_forall in Hx |- *. intros y Hy. apply Hx.
    apply list_elem_of_In. apply (sublist_subseteq _ _ Hs).
    apply list_elem_of_In. exact Hy.
  - auto.
Qed.

Lemma strongly_sorted_app {A} (R : A -> A -> Prop) (l k : list A) :
  StronglySorted R l -> StronglySorted R k ->
  (forall x y, In x l -> In y k -> R x y) ->
  StronglySorted R (l ++ k).
Proof.
  induction 1 as [|x l Hl IH Hx]; intros Hk Hlk; cbn; [exact Hk|].
  constructor.
  - apply IH; [exact Hk|]. intros; apply Hlk; [right|]; assumption.
  - rewrite List.Forall_forall in Hx |- *. intros y [Hy|Hy]%in_app_or; [auto|].
    apply Hlk; [left; reflexivity|exact Hy].
Qed.

(** ** Runs of the store primitives *)

Lemma SeasonDefinition_get_run db season year w :
  SeasonDefinition_get db season year w =
  (match season_row db season year with
   | Some r => Ok r
   | None => Raise DataMissing
   end, logged SeasonDefinitions w).
Proof.
  unfold SeasonDefinition_get, season_row, query, query_log, bind, ret, raise, logged.
  cbn. destruct (List.filter _ _); reflexivity.
Qed.

Section SeasonFilter.
Context `{Externals} (db : Store) (some_date : Date.t).

Lemma season_yields_run current w :
  season_yields db some_date current w =
  if has_season current then
    match season_row db (s_season_start current) (Date.year some_date) with
    | None => (Raise DataMissing, logged SeasonDefinitions w)
    | Some a =>
        match season_row db (s_season_end current) (Date.year some_date) with
        | None => (Raise DataMissing, logged SeasonDefinitions (logged SeasonDefinitions w))
        | Some b =>
            (Ok (if season_keeps (Date.isoformat some_date) (sd_date a) (sd_date b)
                 then [current] else []),
             logged SeasonDefinitions (logged SeasonDefinitions w))
        end
    end
  else (Ok [current], w).
Proof.
  unfold season_yields. destruct (has_season current); cbn; [|reflexivity].
  unfold bind. rewrite SeasonDefinition_get_run.
  destruct (season_row db (s_season_start current) _) as [a|]; [|reflexivity].
  rewrite SeasonDefinition_get_run.
  destruct (season_row db (s_season_end current) _) as [b|]; [|reflexivity].
  unfold ret, season_keeps. f_equal. f_equal.
  destruct (Py.str_lt (sd_date b) (sd_date a)) eqn:Hwrap.
  - rewrite (wrapped_excludes_in_range _ _ _ Hwrap).
    destruct (_ || _); reflexivity.
  - reflexivity.
Qed.

Lemma season_yields_ok current w now w' :
  season_yields db some_date current w = (Ok now, w') ->
  now = (if season_kept db some_date current then [current] else [])
  /\ season_keep db some_date current <> None
  /\ printed w' = printed w /\ yielded w' = yielded w.
Proof.
  rewrite season_yields_run. unfold season_kept, season_keep.
  destruct (has_season current).
  - destruct (season_row db (s_season_start current) _); [|discriminate].
    destruct (season_row db (s_season_end current) _); [|discriminate].
    intros [= <- <-]. repeat split; discriminate.
  - intros [= <- <-]. repeat split; discriminate.
Qed.

Lemma filter_season_ok schedules : forall w kept w',
  _filter_season db some_date schedules w = (Ok kept, w') ->
  kept = List.filter (season_kept db some_date) schedules
  /\ Forall (fun s => season_keep db some_date s <> None) schedules
  /\ printed w' = printed w /\ yielded w' = yielded w.
Proof.
  induction schedules as [|current rest IH]; cbn; intros w kept w'.
  - intros [= <- <-]. repeat split; constructor.
  - unfold bind at 1.
    destruct (season_yields db some_date current w) as [[now|e|] w1] eqn:Hnow;
      try discriminate.
    unfold bind at 1.
    destruct (_filter_season db some_date rest w1) as [[later|e|] w2] eqn:Hlater;
      try discriminate.
    intros [= <- <-].
    apply season_yields_ok in Hnow as (-> & Hres & Hp1 & Hy1).
    apply IH in Hlater as (-> & Hall & Hp2 & Hy2).
    repeat split; [|constructor; assumption|congruence|congruence].
    destruct (season_kept db some_date current); reflexivity.
Qed.

Lemma filter_season_total schedules : forall w,
  Forall (fun s => season_keep db some_date s <> None) schedules ->
  exists w', _filter_season db some_date schedules w
             = (Ok (List.filter (season_kept db some_date) schedules), w').
Proof.
  induction schedules as [|current rest IH]; cbn; intros w Hall.
  - eexists; reflexivity.
  - inversion Hall as [|? ? Hcur Hrest]; subst.
    unfold bind at 1. rewrite season_yields_run.
    unfold season_kept, season_keep in *.
    destruct (has_season current).
    + destruct (season_row db (s_season_start current) _); [|contradiction].
      destruct (season_row db (s_season_end current) _); [|contradiction].
      unfold bind at 1.
      destruct (IH (logged SeasonDefinitions (logged SeasonDefinitions w)) Hrest)
        as [w' ->].
      eexists. unfold ret. f_equal. f_equal.
      destruct (season_keeps _ _ _); reflexivity.
    + unfold bind at 1. destruct (IH w Hrest) as [w' ->].
      eexists. reflexivity.
Qed.

Lemma filter_sublist {A} (f : A -> bool) (l : list A) : sublist (List.filter f l) l.
Proof.
  induction l as [|x l IH]; cbn; [constructor|].
  destruct (f x); constructor; exact IH.
Qed.

End SeasonFilter.

(** C9. The season filter yields a schedule at most once: the in-range
    test cannot hold when the end date is before the start date, so the two
    conditionals never both fire; what [_filter_season] returns is a
    sublist of its input, without duplicates when the input has none. *)
Theorem season_filter_yields_once `{Externals} (db : Store) (some_date : Date.t) :
  (forall x start_date end_date,
      Py.str_lt end_date start_date = true ->
      Py.str_ge x start_date && Py.str_le x end_date = false)
  /\ (forall current w now w',
         season_yields db some_date current w = (Ok now, w') ->
         now = [] \/ now = [current])
  /\ (forall schedules w kept w',
         _filter_season db some_date schedules w = (Ok kept, w') ->
         sublist kept schedules
         /\ (NoDup schedules -> NoDup kept)).
Proof.
  split; [|split].
  - intros x sd ed. apply wrapped_excludes_in_range.
  - intros current w now w' Hrun.
    apply season_yields_ok in Hrun as (-> & _).
    destruct (season_kept db some_date current); auto.
  - intros schedules w kept w' Hrun.
    apply filter_season_ok in Hrun as (-> & _).
    split; [apply filter_sublist|].
    intros Hnd. exact (sublist_NoDup _ _ Hnd (filter_sublist _ _)).
Qed.

Lemma season_filter_yields_once_witness :
  exists kept w',
    @_filter_season Sample.env Sample.db 738922 (schedules Sample.db) world0 = (Ok kept, w')
    /\ sublist kept (schedules Sample.db).
Proof.
  eexists; eexists; split; [vm_compute; reflexivity|].
  refine (proj1 (proj2 (proj2 (@season_filter_yields_once Sample.env Sample.db 738922))
                  (schedules Sample.db) world0 _ _ _)).
  vm_compute; reflexivity.
Defined.

(** ** Calendar facts *)

Lemma all_below_spec k f :
  all_below k f = true -> forall n, 0 <= n < Z.of_nat k -> f n = true.
Proof.
  induction k as [|k IH]; cbn [all_below]; intros Hall n Hn; [lia|].
  apply andb_prop in Hall as [Hk Hrest].
  destruct (Z.eq_dec n (Z.of_nat k)) as [->|Hne]; [exact Hk|].
  apply IH; [exact Hrest|lia].
Qed.

Lemma month_and_day_spec leap n m d :
  0 <= n < 365 ->
  Date.month_and_day leap n = (m, d) ->
  1 <= m <= 12 /\ 1 <= d <= dim_flag leap m /\ dbm_flag leap m + d = n + 1.
Proof.
  intros Hn Hmd.
  assert (Hall : all_below 365 (month_and_day_ok leap) = true)
    by (destruct leap; vm_compute; reflexivity).
  pose proof (all_below_spec _ _ Hall n Hn) as Hok.
  unfold month_and_day_ok in Hok. rewrite Hmd in Hok.
  repeat (apply andb_prop in Hok as [Hok ?]). lia.
Qed.

Lemma is_leap_cycle n400 n100 n4 n1 :
  0 <= n100 <= 3 -> 0 <= n4 <= 24 -> 0 <= n1 <= 3 ->
  Date.is_leap (n400 * 400 + 1 + n100 * 100 + n4 * 4 + n1)
  = (n1 =? 3) && (negb (n4 =? 24) || (n100 =? 3)).
Proof.
  intros H100 H4 H1. unfold Date.is_leap.
  set (y := n400 * 400 + 1 + n100 * 100 + n4 * 4 + n1).
  assert (Hm4 : y mod 4 = (n1 + 1) mod 4).
  { unfold y. replace (n400 * 400 + 1 + n100 * 100 + n4 * 4 + n1)
      with ((n1 + 1) + (n400 * 100 + n100 * 25 + n4) * 4) by ring.
    apply Z.mod_add. lia. }
  assert (Hm100 : y mod 100 = (n4 * 4 + n1 + 1) mod 100).
  { unfold y. replace (n400 * 400 + 1 + n100 * 100 + n4 * 4 + n1)
      with ((n4 * 4 + n1 + 1) + (n400 * 4 + n100) * 100) by ring.
    apply Z.mod_add. lia. }
  assert (Hm400 : y mod 400 = (n100 * 100 + n4 * 4 + n1 + 1) mod 400).
  { unfold y. replace (n400 * 400 + 1 + n100 * 100 + n4 * 4 + n1)
      with ((n100 * 100 + n4 * 4 + n1 + 1) + n400 * 400) by ring.
    apply Z.mod_add. lia. }
  rewrite Hm4, Hm100, Hm400.
  assert (n1 = 0 \/ n1 = 1 \/ n1 = 2 \/ n1 = 3) as [-> | [-> | [-> | ->]]] by lia;
    cbn [Z.eqb Z.add Z.modulo]; try reflexivity.
  destruct (n4 =? 24) eqn:E4.
  - apply Z.eqb_eq in E4. subst n4. cbn.
    assert (n100 = 0 \/ n100 = 1 \/ n100 = 2 \/ n100 = 3) as [-> | [-> | [-> | ->]]] by lia;
      reflexivity.
  - apply Z.eqb_neq in E4.
    assert (E : ((n4 * 4 + 3 + 1) mod 100 =? 0) = false).
    { apply Z.eqb_neq. intros Hz.
      apply Z.mod_divide in Hz; [|lia]. destruct Hz as [k Hk]. lia. }
    rewrite E. reflexivity.
Qed.

Lemma days_before_year_cycle n400 n100 n4 n1 :
  0 <= n100 <= 3 -> 0 <= n4 <= 24 -> 0 <= n1 <= 3 ->
  Date.days_before_year (n400 * 400 + 1 + n100 * 100 + n4 * 4 + n1)
  = n400 * 146097 + n100 * 36524 + n4 * 1461 + n1 * 365.
Proof.
  intros H100 H4 H1. unfold Date.days_before_year.
  replace (n400 * 400 + 1 + n100 * 100 + n4 * 4 + n1 - 1)
    with (n400 * 400 + n100 * 100 + n4 * 4 + n1) by ring.
  set (y1 := n400 * 400 + n100 * 100 + n4 * 4 + n1).
  assert (Hq4 : y1 / 4 = n400 * 100 + n100 * 25 + n4).
  { symmetry. apply (Z.div_unique y1 4 _ n1); [lia|unfold y1; ring]. }
  assert (Hq100 : y1 / 100 = n400 * 4 + n100).
  { symmetry. apply (Z.div_unique y1 100 _ (n4 * 4 + n1)); [lia|unfold y1; ring]. }
  assert (Hq400 : y1 / 400 = n400).
  { symmetry. apply (Z.div_unique y1 400 _ (n100 * 100 + n4 * 4 + n1)); [lia|unfold y1; ring]. }
  rewrite Hq4, Hq100, Hq400. unfold y1. ring.
Qed.

Lemma days_in_month_flag y m : Date.days_in_month y m = dim_flag (Date.is_leap y) m.
Proof. reflexivity. Qed.

Lemma days_before_month_flag y m : Date.days_before_month y m = dbm_flag (Date.is_leap y) m.
Proof. reflexivity. Qed.

Lemma dim_flag_december leap : dim_flag leap 12 = 31.
Proof. destruct leap; reflexivity. Qed.

Lemma dbm_flag_december leap : dbm_flag leap 12 = 334 + (if leap then 1 else 0).
Proof. destruct leap; reflexivity. Qed.

Lemma ord2ymd_spec o y m d :
  Date.valid o -> Date.ord2ymd o = (y, m, d) ->
  1 <= y <= 9999 /\ 1 <= m <= 12 /\ 1 <= d <= Date.days_in_month y m
  /\ Date.ymd2ord y m d = o.
Proof.
  unfold Date.valid, Date.max_ordinal, Date.ord2ymd, Date.DI400Y, Date.DI100Y, Date.DI4Y.
  intros Ho.
  pose proof (Z.div_mod (o - 1) 146097 ltac:(lia)) as E400.
  pose proof (Z.mod_pos_bound (o - 1) 146097 ltac:(lia)) as B400.
  set (n400 := (o - 1) / 146097) in *. set (r400 := (o - 1) mod 146097) in *.
  pose proof (Z.div_mod r400 36524 ltac:(lia)) as E100.
  pose proof (Z.mod_pos_bound r400 36524 ltac:(lia)) as B100.
  set (n100 := r400 / 36524) in *. set (r100 := r400 mod 36524) in *.
  pose proof (Z.div_mod r100 1461 ltac:(lia)) as E4.
  pose proof (Z.mod_pos_bound r100 1461 ltac:(lia)) as B4.
  set (n4 := r100 / 1461) in *. set (r4 := r100 mod 1461) in *.
  pose proof (Z.div_mod r4 365 ltac:(lia)) as E1.
  pose proof (Z.mod_pos_bound r4 365 ltac:(lia)) as B1.
  set (n1 := r4 / 365) in *. set (r1 := r4 mod 365) in *.
  clearbody n400 r400 n100 r100 n4 r4 n1 r1.
  assert (0 <= n400 <= 24) by lia.
  assert (0 <= n100 <= 4) by lia.
  assert (0 <= n4 <= 24) by lia.
  assert (0 <= n1 <= 4) by lia.
  destruct (n1 =? 4) eqn:D1; [|destruct (n100 =? 4) eqn:D100]; cbn [orb].
  - apply Z.eqb_eq in D1. intros [= <- <- <-].
    assert (n100 <= 3) by lia. assert (n4 <= 23) by lia.
    replace (n400 * 400 + 1 + n100 * 100 + n4 * 4 + n1 - 1)
      with (n400 * 400 + 1 + n100 * 100 + n4 * 4 + 3) by lia.
    unfold Date.ymd2ord.
    rewrite days_in_month_flag, days_before_month_flag, is_leap_cycle,
      days_before_year_cycle by lia.
    replace (n4 =? 24) with false by (symmetry; apply Z.eqb_neq; lia).
    rewrite dim_flag_december, dbm_flag_december. cbn. lia.
  - apply Z.eqb_eq in D100. apply Z.eqb_neq in D1. intros [= <- <- <-].
    assert (n4 = 0 /\ n1 = 0) as [-> ->] by lia. subst n100.
    replace (n400 * 400 + 1 + 4 * 100 + 0 * 4 + 0 - 1)
      with (n400 * 400 + 1 + 3 * 100 + 24 * 4 + 3) by lia.
    unfold Date.ymd2ord.
    rewrite days_in_month_flag, days_before_month_flag, is_leap_cycle,
      days_before_year_cycle by lia.
    rewrite dim_flag_december, dbm_flag_december. cbn. lia.
  - apply Z.eqb_neq in D1. apply Z.eqb_neq in D100.
    destruct (Date.month_and_day _ r1) as [m' d'] eqn:Emd.
    intros [= <- <- <-].
    apply month_and_day_spec in Emd as (Hm & Hd & Hsum); [|lia].
    unfold Date.ymd2ord.
    rewrite days_in_month_flag, days_before_month_flag, is_leap_cycle,
      days_before_year_cycle by lia.
    repeat split; try lia.
Qed.

Lemma days_before_year_next y :
  Date.days_before_year (y + 1)
  = Date.days_before_year y + 365 + (if Date.is_leap y then 1 else 0).
Proof.
  unfold Date.days_before_year, Date.is_leap.
  replace (y + 1 - 1) with (y - 1 + 1) by ring.
  destruct (y mod 4 =? 0) eqn:E4, (y mod 100 =? 0) eqn:E100, (y mod 400 =? 0) eqn:E400;
    cbn [andb orb negb];
    repeat match goal with
           | H : (_ =? _) = true |- _ => apply Z.eqb_eq in H
           | H : (_ =? _) = false |- _ => apply Z.eqb_neq in H
           end;
    Z.div_mod_to_equations; lia.
Qed.

Lemma days_before_year_mono y y' :
  y <= y' -> Date.days_before_year y <= Date.days_before_year y'.
Proof.
  intros Hy. unfold Date.days_before_year.
  rewrite <- !(Z.div_div _ 4 25) by lia.
  replace 400 with (4 * 25 * 4) by reflexivity.
  rewrite <- !(Z.div_div _ (4 * 25) 4), <- !(Z.div_div _ 4 25) by lia.
  assert (H4 : (y - 1) / 4 <= (y' - 1) / 4) by (apply Z.div_le_mono; lia).
  set (a := (y - 1) / 4) in *. set (a' := (y' - 1) / 4) in *.
  clearbody a a'.
  assert (H25 : a / 25 <= a' / 25) by (apply Z.div_le_mono; lia).
  assert (H100 : a / 25 / 4 <= a' / 25 / 4) by (apply Z.div_le_mono; lia).
  assert (a - a / 25 <= a' - a' / 25) by (Z.div_mod_to_equations; lia).
  lia.
Qed.

Lemma month_window leap m m' :
  1 <= m -> m < m' -> m' <= 12 ->
  dbm_flag leap m + dim_flag leap m <= dbm_flag leap m'.
Proof.
  intros H1 H2 H3.
  assert (Hm : In m [1; 2; 3; 4; 5; 6; 7; 8; 9; 10; 11]) by (cbn; lia).
  assert (Hm' : In m' [2; 3; 4; 5; 6; 7; 8; 9; 10; 11; 12]) by (cbn; lia).
  cbn in Hm, Hm'.
  repeat (destruct Hm as [<-|Hm]); try contradiction;
    repeat (destruct Hm' as [<-|Hm']); try contradiction;
    try lia; destruct leap; vm_compute; discriminate.
Qed.

Lemma year_window leap m :
  1 <= m <= 12 ->
  0 <= dbm_flag leap m
  /\ dbm_flag leap m + dim_flag leap m <= 365 + (if leap then 1 else 0).
Proof.
  intros H.
  assert (Hm : In m [1; 2; 3; 4; 5; 6; 7; 8; 9; 10; 11; 12]) by (cbn; lia).
  cbn in Hm.
  repeat (destruct Hm as [<-|Hm]); try contradiction;
    destruct leap; vm_compute; split; discriminate.
Qed.

Lemma ymd2ord_lt a b :
  ymd_valid a -> ymd_valid b -> ymd_compare a b = Lt ->
  let '(y, m, d) := a in
  let '(y', m', d') := b in
  Date.ymd2ord y m d < Date.ymd2ord y' m' d'.
Proof.
  destruct a as [[y m] d], b as [[y' m'] d']. cbn -[Date.days_in_month].
  intros (Hy & Hm & Hd) (Hy' & Hm' & Hd').
  unfold Date.ymd2ord. rewrite !days_before_month_flag.
  rewrite days_in_month_flag in Hd, Hd'.
  destruct (Z.compare_spec y y') as [->|Hlt|Hgt]; [| |discriminate].
  - destruct (Z.compare_spec m m') as [->|Hlt|Hgt]; [| |discriminate].
    + intros Hc. apply -> Z.compare_lt_iff in Hc. lia.
    + intros _.
      pose proof (month_window (Date.is_leap y') m m' ltac:(lia) Hlt ltac:(lia)). lia.
  - intros _.
    pose proof (days_before_year_mono (y + 1) y' ltac:(lia)) as Hmono.
    rewrite days_before_year_next in Hmono.
    pose proof (year_window (Date.is_leap y) m Hm).
    pose proof (year_window (Date.is_leap y') m' Hm'). lia.
Qed.

Lemma ymd_compare_eq a b : ymd_compare a b = Eq -> a = b.
Proof.
  destruct a as [[y m] d], b as [[y' m'] d']. cbn.
  destruct (Z.compare_spec y y'); try discriminate.
  destruct (Z.compare_spec m m'); try discriminate.
  intros Hc. apply Z.compare_eq in Hc. congruence.
Qed.

Lemma ymd_compare_antisym a b : ymd_compare b a = CompOpp (ymd_compare a b).
Proof.
  destruct a as [[y m] d], b as [[y' m'] d']. cbn.
  rewrite (Z.compare_antisym y y'), (Z.compare_antisym m m'), (Z.compare_antisym d d').
  destruct (y ?= y'), (m ?= m'), (d ?= d'); reflexivity.
Qed.

(** Year, month and day are ordered as the ordinals are. *)
Lemma ord2ymd_compare a b :
  Date.valid a -> Date.valid b ->
  ymd_compare (Date.ord2ymd a) (Date.ord2ymd b) = (a ?= b).
Proof.
  intros Ha Hb.
  destruct (Date.ord2ymd a) as [[y m] d] eqn:Ea.
  destruct (Date.ord2ymd b) as [[y' m'] d'] eqn:Eb.
  pose proof (ord2ymd_spec _ _ _ _ Ha Ea) as (Hy & Hm & Hd & Hoa).
  pose proof (ord2ymd_spec _ _ _ _ Hb Eb) as (Hy' & Hm' & Hd' & Hob).
  destruct (ymd_compare (y, m, d) (y', m', d')) eqn:Ecmp.
  - apply ymd_compare_eq in Ecmp. injection Ecmp as -> -> ->.
    symmetry. apply Z.compare_eq_iff. congruence.
  - pose proof (ymd2ord_lt (y, m, d) (y', m', d')
                  (conj Hy (conj Hm Hd)) (conj Hy' (conj Hm' Hd')) Ecmp) as Hlt.
    cbn beta iota in Hlt. symmetry. apply Z.compare_lt_iff. lia.
  - pose proof (ymd2ord_lt (y', m', d') (y, m, d)
                  (conj Hy' (conj Hm' Hd')) (conj Hy (conj Hm Hd))) as Hlt.
    rewrite ymd_compare_antisym, Ecmp in Hlt. specialize (Hlt eq_refl).
    cbn beta iota in Hlt. symmetry. apply Z.compare_gt_iff. lia.
Qed.

(** ** ISO dates are ordered as the dates are *)

Lemma digit_compare n n' :
  Ascii.compare (Date.digit n) (Date.digit n') = (n mod 10 ?= n' mod 10).
Proof.
  unfold Date.digit.
  pose proof (Z.mod_pos_bound n 10 ltac:(lia)) as Hk.
  pose proof (Z.mod_pos_bound n' 10 ltac:(lia)) as Hk'.
  set (k := n mod 10) in *. set (k' := n' mod 10) in *. clearbody k k'.
  assert (Hin : In k [0; 1; 2; 3; 4; 5; 6; 7; 8; 9]) by (cbn; lia).
  assert (Hin' : In k' [0; 1; 2; 3; 4; 5; 6; 7; 8; 9]) by (cbn; lia).
  cbn in Hin, Hin'.
  repeat (destruct Hin as [<-|Hin]); try contradiction;
    repeat (destruct Hin' as [<-|Hin']); try contradiction; reflexivity.
Qed.

Lemma digits_app w : forall n acc rest,
  Date.digits w n acc +:+ rest = Date.digits w n (acc +:+ rest).
Proof.
  induction w as [|w IH]; intros n acc rest; cbn; [reflexivity|].
  rewrite IH. reflexivity.
Qed.

Lemma compare_two_digits q q' r r' :
  0 <= r < 10 -> 0 <= r' < 10 ->
  (10 * q + r ?= 10 * q' + r')
  = match q ?= q' with
    | Eq => r ?= r'
    | c => c
    end.
Proof.
  intros Hr Hr'.
  destruct (Z.compare_spec q q') as [->|Hlt|Hgt].
  - destruct (Z.compare_spec r r') as [->|Hlt|Hgt].
    + apply Z.compare_refl.
    + apply Z.compare_lt_iff. lia.
    + apply Z.compare_gt_iff. lia.
  - apply Z.compare_lt_iff. lia.
  - apply Z.compare_gt_iff. lia.
Qed.

Lemma digits_compare w : forall n n' acc acc',
  0 <= n < 10 ^ Z.of_nat w -> 0 <= n' < 10 ^ Z.of_nat w ->
  String.compare (Date.digits w n acc) (Date.digits w n' acc')
  = match n ?= n' with
    | Eq => String.compare acc acc'
    | c => c
    end.
Proof.
  induction w as [|w IH]; intros n n' acc acc' Hn Hn'.
  - cbn in Hn, Hn'. replace n with 0 by lia. replace n' with 0 by lia. reflexivity.
  - rewrite Nat2Z.inj_succ, Z.pow_succ_r in Hn, Hn' by lia.
    cbn [Date.digits].
    rewrite IH by (split; [apply Z.div_pos; lia|apply Z.div_lt_upper_bound; lia]).
    cbn [String.compare]. rewrite digit_compare.
    rewrite (Z.div_mod n 10) at 3 by lia. rewrite (Z.div_mod n' 10) at 3 by lia.
    rewrite compare_two_digits by (apply Z.mod_pos_bound; lia).
    destruct (n / 10 ?= n' / 10); [|reflexivity..].
    destruct (n mod 10 ?= n' mod 10); reflexivity.
Qed.

Lemma days_in_month_le y m : 1 <= m <= 12 -> Date.days_in_month y m <= 31.
Proof.
  intros H. rewrite days_in_month_flag.
  assert (Hm : In m [1; 2; 3; 4; 5; 6; 7; 8; 9; 10; 11; 12]) by (cbn; lia).
  cbn in Hm.
  repeat (destruct Hm as [<-|Hm]); try contradiction;
    destruct (Date.is_leap y); vm_compute; discriminate.
Qed.

Lemma append_empty s : "" +:+ s = s.
Proof. reflexivity. Qed.

Lemma append_char c s r : String c s +:+ r = String c (s +:+ r).
Proof. reflexivity. Qed.

Lemma isoformat_compare a b :
  Date.valid a -> Date.valid b ->
  String.compare (Date.isoformat a) (Date.isoformat b) = (a ?= b).
Proof.
  intros Ha Hb. rewrite <- (ord2ymd_compare a b Ha Hb).
  unfold Date.isoformat.
  destruct (Date.ord2ymd a) as [[y m] d] eqn:Ea.
  destruct (Date.ord2ymd b) as [[y' m'] d'] eqn:Eb.
  pose proof (ord2ymd_spec _ _ _ _ Ha Ea) as (Hy & Hm & Hd & _).
  pose proof (ord2ymd_spec _ _ _ _ Hb Eb) as (Hy' & Hm' & Hd' & _).
  pose proof (days_in_month_le y m Hm). pose proof (days_in_month_le y' m' Hm').
  assert (P4 : 10 ^ Z.of_nat 4 = 10000) by reflexivity.
  assert (P2 : 10 ^ Z.of_nat 2 = 100) by reflexivity.
  unfold Date.pad. rewrite !digits_app, !append_char, !append_empty.
  rewrite digits_compare by (rewrite P4; lia).
  cbn [ymd_compare]. destruct (y ?= y'); [|reflexivity..].
  cbn [String.compare]. change (Ascii.compare "-" "-") with Eq. cbn iota.
  rewrite digits_compare by (rewrite P2; lia).
  destruct (m ?= m'); [|reflexivity..].
  cbn [String.compare]. change (Ascii.compare "-" "-") with Eq. cbn iota.
  rewrite digits_compare by (rewrite P2; lia).
  destruct (d ?= d'); reflexivity.
Qed.

Lemma isoformat_le a b :
  Date.valid a -> Date.valid b ->
  Py.str_le (Date.isoformat a) (Date.isoformat b) = (a <=? b).
Proof.
  intros Ha Hb. unfold Py.str_le, String.leb, Z.leb.
  rewrite isoformat_compare by assumption. reflexivity.
Qed.

Lemma isoformat_lt a b :
  Date.valid a -> Date.valid b ->
  Py.str_lt (Date.isoformat a) (Date.isoformat b) = (a <? b).
Proof.
  intros Ha Hb. unfold Py.str_lt, String.ltb, Z.ltb.
  rewrite isoformat_compare by assumption. reflexivity.
Qed.

Lemma season_keeps_dates d start_date end_date :
  Date.valid d -> Date.valid start_date -> Date.valid end_date ->
  season_keeps (Date.isoformat d) (Date.isoformat start_date) (Date.isoformat end_date)
  = if end_date <? start_date
    then (d <=? end_date) || (start_date <=? d)
    else (start_date <=? d) && (d <=? end_date).
Proof.
  intros Hd Hs He. unfold season_keeps, Py.str_ge.
  rewrite isoformat_lt, !isoformat_le by assumption. reflexivity.
Qed.

(** C2. The season filter keeps a schedule without a season
    unconditionally. For a schedule with season bounds it resolves both
    season names with the year of the date; when these resolve to the
    dates [start_date] and [end_date], the schedule is kept iff
    [start_date <= d <= end_date] when [end_date >= start_date], and iff
    [d <= end_date] or [d >= start_date] when [end_date < start_date]. *)
Theorem season_filter_keeps `{Externals} (db : Store) (some_date : Date.t)
    (schedules : list Schedule) (w : world) (kept : list Schedule) (w' : world) :
  _filter_season db some_date schedules w = (Ok kept, w') ->
  forall s, In s schedules ->
    (has_season s = false -> In s kept)
    /\ (has_season s = true ->
        exists a b,
          season_row db (s_season_start s) (Date.year some_date) = Some a
          /\ season_row db (s_season_end s) (Date.year some_date) = Some b
          /\ (In s kept <->
              if Py.str_lt (sd_date b) (sd_date a)
              then Py.str_le (Date.isoformat some_date) (sd_date b) = true
                   \/ Py.str_ge (Date.isoformat some_date) (sd_date a) = true
              else Py.str_ge (Date.isoformat some_date) (sd_date a) = true
                   /\ Py.str_le (Date.isoformat some_date) (sd_date b) = true)
          /\ forall start_date end_date,
              Date.valid some_date -> Date.valid start_date -> Date.valid end_date ->
              sd_date a = Date.isoformat start_date ->
              sd_date b = Date.isoformat end_date ->
              (In s kept <->
               if end_date <? start_date
               then some_date <= end_date \/ start_date <= some_date
               else start_date <= some_date <= end_date)).
Proof.
  intros Hrun s Hin.
  apply filter_season_ok in Hrun as (-> & Hres & _).
  rewrite List.Forall_forall in Hres. specialize (Hres s Hin).
  assert (Hkept : In s (List.filter (season_kept db some_date) schedules)
                  <-> season_kept db some_date s = true).
  { rewrite filter_In. tauto. }
  unfold season_kept, season_keep in *.
  split; intros Hseason; rewrite Hseason in *.
  - apply Hkept. reflexivity.
  - destruct (season_row db (s_season_start s) _) as [a|]; [|contradiction].
    destruct (season_row db (s_season_end s) _) as [b|]; [|contradiction].
    exists a, b. split; [reflexivity|]. split; [reflexivity|]. split.
    + rewrite Hkept. unfold season_keeps.
      destruct (Py.str_lt (sd_date b) (sd_date a));
        [rewrite orb_true_iff|rewrite andb_true_iff]; tauto.
    + intros start_date end_date Hd Hs He Ea Eb.
      rewrite Hkept, Ea, Eb, season_keeps_dates by assumption.
      destruct (end_date <? start_date);
        [rewrite orb_true_iff|rewrite andb_true_iff]; rewrite !Z.leb_le; tauto.
Qed.

(** With the season from December 1 to February 28 (of the year of the
    date), January 15 is selected and April 1 is not. *)
Lemma season_filter_keeps_witness :
  (exists kept w',
      @_filter_season Sample.env Sample.db (Date.ymd2ord 2023 1 15)
        (schedules Sample.db) world0 = (Ok kept, w')
      /\ In Sample.winter kept)
  /\ (exists kept w',
         @_filter_season Sample.env Sample.db (Date.ymd2ord 2023 4 1)
           (schedules Sample.db) world0 = (Ok kept, w')
         /\ ~ In Sample.winter kept).
Proof.
  assert (Hin : In Sample.winter (schedules Sample.db)) by (left; reflexivity).
  assert (Hv : forall m d, 1 <= Date.ymd2ord 2023 m d <= Date.max_ordinal ->
                           Date.valid (Date.ymd2ord 2023 m d)) by (intros; assumption).
  split.
  - eexists; eexists; split; [vm_compute; reflexivity|].
    destruct (@season_filter_keeps Sample.env Sample.db (Date.ymd2ord 2023 1 15)
                (schedules Sample.db) world0 _ _ ltac:(vm_compute; reflexivity)
                Sample.winter Hin)
      as [_ Hseason].
    destruct (Hseason eq_refl) as (a & b & Ea & Eb & _ & Hdates).
    vm_compute in Ea, Eb. injection Ea as <-. injection Eb as <-.
    apply (Hdates (Date.ymd2ord 2023 12 1) (Date.ymd2ord 2023 2 28)).
    + apply Hv. vm_compute. split; discriminate.
    + apply Hv. vm_compute. split; discriminate.
    + apply Hv. vm_compute. split; discriminate.
    + vm_compute. reflexivity.
    + vm_compute. reflexivity.
    + vm_compute. left. discriminate.
  - eexists; eexists; split; [vm_compute; reflexivity|].
    destruct (@season_filter_keeps Sample.env Sample.db (Date.ymd2ord 2023 4 1)
                (schedules Sample.db) world0 _ _ ltac:(vm_compute; reflexivity)
                Sample.winter Hin)
      as [_ Hseason].
    destruct (Hseason eq_refl) as (a & b & Ea & Eb & _ & Hdates).
    vm_compute in Ea, Eb. injection Ea as <-. injection Eb as <-.
    intros Hkept.
    apply (Hdates (Date.ymd2ord 2023 12 1) (Date.ymd2ord 2023 2 28)) in Hkept.
    + vm_compute in Hkept. destruct Hkept as [Hle|Hle]; apply Hle; reflexivity.
    + apply Hv. vm_compute. split; discriminate.
    + apply Hv. vm_compute. split; discriminate.
    + apply Hv. vm_compute. split; discriminate.
    + vm_compute. reflexivity.
    + vm_compute. reflexivity.
Defined.

(** ** The weekday fallback *)

Lemma walk_earlier_weekdays today :
  0 <= today < 7 ->
  walk today (if today =? 0 then 6 else today - 1) (earlier_weekdays today).
Proof.
  intros H.
  assert (Hin : In today [0; 1; 2; 3; 4; 5; 6]) by (cbn; lia).
  cbn in Hin.
  repeat (destruct Hin as [<-|Hin]); try contradiction;
    vm_compute; repeat (first [apply walk_done | apply walk_step; [discriminate|]]).
Qed.

Section Fallback.
Context `{Externals} (before_weekdays : list Schedule) (today : Z).

Let tried (k : Z) : list Schedule := _filter_weekdays k before_weekdays.

Lemma fallback_loop_walk x cands :
  walk today x cands ->
  forall fuel, (length cands <= fuel)%nat ->
  exists final ran,
    while_loop fuel (fallback_cond today) (fallback_body before_weekdays) ([], x)
    = Some (final, ran)
    /\ fst final = first_nonempty (map tried cands)
    /\ (length ran <= length cands)%nat
    /\ (exists rest, cands = (map snd ran ++ rest)%list)
    /\ Forall (fun s => fst s = []) ran.
Proof using Type.
  induction 1 as [|x cands Hne Hwalk IH]; intros fuel Hfuel.
  - exists ([], today), [].
    destruct fuel; cbn; unfold fallback_cond; cbn; rewrite Z.eqb_refl; cbn;
      (repeat split; [lia|exists []; reflexivity|constructor]).
  - destruct fuel as [|fuel]; [cbn in Hfuel; lia|].
    cbn [while_loop]. unfold fallback_cond at 1. cbn [fst snd is_nil andb].
    apply Z.eqb_neq in Hne. rewrite Hne. cbn [negb].
    unfold fallback_body at 2. cbn [snd].
    fold (_filter_weekdays x before_weekdays). fold (tried x).
    cbn [map first_nonempty].
    destruct (tried x) as [|s found] eqn:Hx.
    + cbn [is_nil]. cbn in Hfuel.
      destruct (IH fuel ltac:(lia)) as (final & ran & -> & Hfinal & Hlen & [rest Hrest] & Hnil).
      exists final, (([], x) :: ran). cbn.
      repeat split; [exact Hfinal|lia| |constructor; [reflexivity|exact Hnil]].
      exists rest. rewrite Hrest. reflexivity.
    + exists (s :: found, if x =? 0 then 6 else x - 1), [([], x)].
      destruct fuel; cbn;
        (repeat split; [lia|exists cands; reflexivity|repeat constructor]).
Qed.

End Fallback.

Lemma not_in_prefix {A} (x : A) (l pre rest : list A) :
  l = (pre ++ rest)%list -> ~ In x l -> ~ In x pre.
Proof. intros -> Hl Hpre. apply Hl, in_or_app. left. exact Hpre. Qed.

Lemma today_not_earlier today : 0 <= today < 7 -> ~ In today (earlier_weekdays today).
Proof.
  intros H.
  assert (Hin : In today [0; 1; 2; 3; 4; 5; 6]) by (cbn; lia).
  cbn in Hin.
  repeat (destruct Hin as [<-|Hin]); try contradiction;
    vm_compute; intuition discriminate.
Qed.

Lemma weekday_range d : 0 <= Date.weekday d < 7.
Proof. unfold Date.weekday. apply Z.mod_pos_bound. lia. Qed.

Lemma first_nonempty_all_empty {A} (ls : list (list A)) :
  Forall (fun l => l = []) ls -> first_nonempty ls = [].
Proof. induction 1 as [|l ls -> _ IH]; cbn; [reflexivity|exact IH]. Qed.

Lemma fallback_loop_run `{Externals} (before_weekdays : list Schedule) (today : Z)
    (fuel : nat) :
  0 <= today < 7 -> (6 <= fuel)%nat ->
  exists final ran,
    while_loop fuel (fallback_cond today) (fallback_body before_weekdays)
      ([], if today =? 0 then 6 else today - 1)
    = Some (final, ran)
    /\ fst final = adopted_of today before_weekdays
    /\ (length ran <= 6 <= 7)%nat
    /\ (exists rest, earlier_weekdays today = (map snd ran ++ rest)%list)
    /\ ~ In today (map snd ran).
Proof.
  intros Hrange Hfuel.
  destruct (fallback_loop_walk before_weekdays today _ _
              (walk_earlier_weekdays today Hrange) fuel Hfuel)
    as (final & ran & Hrun & Hfinal & Hlen & [rest Hrest] & _).
  change (length (earlier_weekdays today)) with 6%nat in Hlen.
  exists final, ran.
  split; [exact Hrun|]. split; [exact Hfinal|]. split; [lia|].
  split; [exists rest; exact Hrest|].
  eapply not_in_prefix; [exact Hrest|]. apply today_not_earlier. exact Hrange.
Qed.

Lemma found_schedules_of_run `{Externals} (fallback : bool) (today : Z)
    (before_weekdays : list Schedule) (w : world) :
  0 <= today < 7 ->
  found_schedules_of fallback today before_weekdays w
  = (Ok (if is_nil (_filter_weekdays today before_weekdays) && fallback
         then adopted_of today before_weekdays
         else _filter_weekdays today before_weekdays), w).
Proof.
  intros Hrange. unfold found_schedules_of.
  destruct (is_nil (_filter_weekdays today before_weekdays) && fallback);
    [|reflexivity].
  destruct (fallback_loop_run before_weekdays today fallback_fuel Hrange
              ltac:(unfold fallback_fuel; lia))
    as ([result next] & ran & -> & Hfinal & _).
  cbn in Hfinal. rewrite Hfinal. reflexivity.
Qed.

(** ** What the generator yields *)

Lemma pushed_nil w : pushed w [] = w.
Proof. destruct w. unfold pushed. cbn. rewrite app_nil_r. reflexivity. Qed.

Lemma pushed_app w ps qs : pushed (pushed w ps) qs = pushed w (ps ++ qs).
Proof. unfold pushed. cbn. rewrite app_assoc. reflexivity. Qed.

Lemma emission_of_fields `{Externals} types current_date s em :
  emission_of types current_date s = Some em ->
  e_date em = current_date /\ e_schedule em = s
  /\ py_int (s_offset_days s) = Some (e_offset em)
  /\ e_end_date em = current_date + e_offset em
  /\ time_fromisoformat (s_start s) = Some (e_start_time em)
  /\ time_fromisoformat (s_end s) = Some (e_end_time em)
  /\ ZoneInfo (s_timezone s) = Some (e_zone em)
  /\ p_start (e_phase em) = datetime_isoformat (e_start em)
  /\ p_end (e_phase em) = datetime_isoformat (e_end em)
  /\ p_phase_name (e_phase em) = s_phase_name s.
Proof.
  unfold emission_of, Date.add_days.
  destruct (py_int _) as [offset|]; [|discriminate].
  destruct (Date.validb _); [|discriminate].
  destruct (time_fromisoformat (s_start s)) as [st|]; [|discriminate].
  destruct (time_fromisoformat (s_end s)) as [et|]; [|discriminate].
  destruct (ZoneInfo _) as [zone|]; [|discriminate].
  destruct (types !! _) as [pt|]; [|discriminate].
  intros [= <-]. cbn. repeat split; reflexivity.
Qed.

Section Generator.
Context `{Externals} (types : gmap string PhaseType) (start : Date.t).

(** A run of [emit_phase]: an error, nothing (the phase ends before the
    window), or one phase. *)
Lemma emit_phase_run current_date s w :
  emit_phase types start current_date s w =
  match py_int (s_offset_days s) with
  | None => (Raise ValueError, w)
  | Some offset =>
      match Date.add_days current_date offset with
      | None => (Raise OverflowError, w)
      | Some end_date =>
          if Date.leb start end_date then
            match emission_of types current_date s with
            | Some em => (Ok tt, pushed w [e_phase em])
            | None => (fst (emit_phase types start current_date s w), w)
            end
          else (Ok tt, w)
      end
  end.
Proof using Type.
  unfold emit_phase, emission_of, bind, of_option.
  destruct (py_int _) as [offset|]; [|reflexivity]. cbn.
  destruct (Date.add_days _ _) as [end_date|]; [|reflexivity]. cbn.
  destruct (Date.leb start end_date); [|reflexivity].
  destruct (time_fromisoformat (s_start s)) as [st|]; [|reflexivity]. cbn.
  destruct (time_fromisoformat (s_end s)) as [et|]; [|reflexivity]. cbn.
  destruct (ZoneInfo _) as [zone|]; [|reflexivity]. cbn.
  destruct (types !! _) as [pt|]; reflexivity.
Qed.

Lemma emit_phase_fuel current_date s w :
  fst (emit_phase types start current_date s w) <> OutOfFuel.
Proof using Type.
  unfold emit_phase, bind, of_option.
  destruct (py_int _) as [offset|]; [|discriminate]. cbn.
  destruct (Date.add_days _ _) as [end_date|]; [|discriminate]. cbn.
  destruct (Date.leb start end_date); [|discriminate].
  destruct (time_fromisoformat (s_start s)) as [st|]; [|discriminate]. cbn.
  destruct (time_fromisoformat (s_end s)) as [et|]; [|discriminate]. cbn.
  destruct (ZoneInfo _) as [zone|]; [|discriminate]. cbn.
  destruct (types !! _) as [pt|]; discriminate.
Qed.

Lemma emit_phase_sound current_date s w r w' :
  emit_phase types start current_date s w = (r, w') ->
  r <> OutOfFuel
  /\ ((w' = w)
      \/ exists em, emission_of types current_date s = Some em
                    /\ start <= e_end_date em /\ r = Ok tt
                    /\ w' = pushed w [e_phase em]).
Proof using Type.
  rewrite emit_phase_run.
  destruct (py_int _) as [offset|] eqn:Hint0;
    [|intros [= <- <-]; split; [discriminate|left; reflexivity]].
  destruct (Date.add_days _ _) as [end_date|] eqn:Hadd;
    [|intros [= <- <-]; split; [discriminate|left; reflexivity]].
  destruct (Date.leb start end_date) eqn:Hle;
    [|intros [= <- <-]; split; [discriminate|left; reflexivity]].
  destruct (emission_of types current_date s) as [em|] eqn:Hem.
  - intros [= <- <-]. split; [discriminate|]. right. exists em.
    apply emission_of_fields in Hem as Hf.
    destruct Hf as (_ & _ & Hint & Hend & _).
    rewrite Hint0 in Hint. injection Hint as Hoff.
    repeat split; try reflexivity.
    unfold Date.add_days in Hadd. destruct (Date.validb _); [|discriminate].
    injection Hadd as <-. unfold Date.leb in Hle.
    apply Z.leb_le in Hle. lia.
  - intros [= <- <-]. split; [apply emit_phase_fuel|left; reflexivity].
Qed.

End Generator.

Lemma strongly_sorted_impl {A} (R S : A -> A -> Prop) (l : list A) :
  (forall x y, In x l -> In y l -> R x y -> S x y) ->
  StronglySorted R l -> StronglySorted S l.
Proof.
  intros Himpl Hs. induction Hs as [|x l Hl IH Hx]; constructor.
  - apply IH. intros; apply Himpl; auto; right; assumption.
  - rewrite List.Forall_forall in Hx |- *. intros y Hy.
    apply Himpl; [left; reflexivity|right; exact Hy|auto].
Qed.

Lemma strongly_sorted_map {A B} (f : A -> B) (R : B -> B -> Prop) (l : list A) :
  StronglySorted R (map f l) -> StronglySorted (fun x y => R (f x) (f y)) l.
Proof.
  induction l as [|x l IH]; cbn; intros Hs; [constructor|].
  inversion Hs as [|? ? Hl Hx]; subst. constructor; [auto|].
  rewrite List.Forall_forall in Hx |- *. intros y Hy. apply Hx, in_map, Hy.
Qed.

Lemma sorted_by_key (l : list Schedule) :
  StronglySorted key_le (Py.sorted Py.pair_lt schedule_key l).
Proof.
  eapply strongly_sorted_impl;
    [|apply (sorted_sorted Py.pair_lt schedule_key)].
  - intros x y _ _ Hlt. unfold key_le, Py.pair_le. rewrite Hlt. reflexivity.
  - intros a b.
    destruct (pair_le_total (schedule_key a) (schedule_key b)) as [Hab|Hba];
      [left|right]; unfold Py.pair_le in *; apply negb_true_iff; assumption.
  - intros a b c Hab Hbc.
    apply negb_true_iff. apply negb_true_iff in Hab, Hbc.
    exact (pair_le_trans _ _ _ Hab Hbc).
Qed.

Lemma first_nonempty_incl {A} (ls : list (list A)) (l : list A) :
  Forall (fun k => incl k l) ls -> incl (first_nonempty ls) l.
Proof.
  induction 1 as [|k ls Hk _ IH]; cbn; [intros x []|].
  destruct k; [exact IH|exact Hk].
Qed.

Section GeneratorRuns.
Context `{Externals} (db : Store).

Lemma for_each_emit types start current_date l : forall w r w',
  for_each l (emit_phase types start current_date) w = (r, w') ->
  r <> OutOfFuel
  /\ exists es,
      w' = pushed w (map e_phase es)
      /\ sublist (map e_schedule es) l
      /\ Forall (emitted_on types start current_date) es.
Proof using Type.
  induction l as [|s l IH]; cbn; intros w r w'.
  - intros [= <- <-]. split; [discriminate|].
    exists []. rewrite pushed_nil. repeat split; constructor.
  - unfold bind at 1.
    destruct (emit_phase types start current_date s w) as [[[]|e|] w1] eqn:Hs.
    + intros Hrest. apply IH in Hrest as (Hfuel & es & -> & Hsub & Hall).
      split; [exact Hfuel|].
      apply emit_phase_sound in Hs as (_ & [->|(em & Hem & Hend & _ & ->)]).
      * exists es. repeat split; [constructor|]; assumption.
      * exists (em :: es). rewrite pushed_app.
        apply emission_of_fields in Hem as Hf. destruct Hf as (_ & Hsch & _).
        repeat split.
        -- cbn. rewrite Hsch. constructor. exact Hsub.
        -- constructor; [|exact Hall]. split; [rewrite Hsch|]; assumption.
    + intros [= <- <-]. split; [discriminate|].
      apply emit_phase_sound in Hs as (_ & [->|(em & _ & _ & Hr & _)]);
        [|discriminate].
      exists []. rewrite pushed_nil. repeat split; [apply sublist_nil_l|constructor].
    + apply emit_phase_sound in Hs as (Hfuel & _). contradiction.
Qed.

Lemma season_yields_frame some_date current w r w' :
  season_yields db some_date current w = (r, w') ->
  r <> OutOfFuel /\ printed w' = printed w /\ yielded w' = yielded w.
Proof using Type.
  rewrite season_yields_run.
  destruct (has_season current).
  - destruct (season_row db (s_season_start current) _);
      [destruct (season_row db (s_season_end current) _)|];
      intros [= <- <-]; repeat split; discriminate.
  - intros [= <- <-]. repeat split; discriminate.
Qed.

Lemma filter_season_frame some_date schedules : forall w r w',
  _filter_season db some_date schedules w = (r, w') ->
  r <> OutOfFuel /\ printed w' = printed w /\ yielded w' = yielded w.
Proof using Type.
  induction schedules as [|current rest IH]; cbn; intros w r w'.
  - intros [= <- <-]. repeat split; discriminate.
  - unfold bind at 1.
    destruct (season_yields db some_date current w) as [[now|e|] w1] eqn:Hnow;
      apply season_yields_frame in Hnow as (Hf & Hp & Hy).
    + unfold bind at 1.
      destruct (_filter_season db some_date rest w1) as [[later|e|] w2] eqn:Hlater;
        apply IH in Hlater as (Hf2 & Hp2 & Hy2);
        intros [= <- <-]; repeat split; try discriminate; try congruence.
    + intros [= <- <-]. repeat split; [discriminate|assumption..].
    + contradiction.
Qed.

Lemma adopted_incl today before_weekdays :
  incl (adopted_of today before_weekdays) before_weekdays.
Proof using Type.
  unfold adopted_of. apply first_nonempty_incl.
  rewrite List.Forall_forall. intros k (d & <- & _)%in_map_iff.
  intros x Hx. unfold _filter_weekdays in Hx. apply filter_In in Hx. tauto.
Qed.

Lemma phases_of_date_run all_schedules holidays types start current_date w r w' :
  phases_of_date db all_schedules holidays types start current_date w = (r, w') ->
  r <> OutOfFuel
  /\ exists es,
      yielded w' = (yielded w ++ map e_phase es)%list
      /\ printed w' = printed w
      /\ Forall (emitted_on types start current_date) es
      /\ StronglySorted key_le (map e_schedule es)
      /\ Forall (fun em => In (e_schedule em) all_schedules) es.
Proof using Type.
  unfold phases_of_date.
  destruct (_pick_schedule_group _ _) as [schedule_group fallback].
  unfold bind at 1.
  destruct (_filter_season db current_date _ w) as [[before|e|] w1] eqn:Hseason.
  - apply filter_season_ok in Hseason as (Hbefore & _ & Hp & Hy).
    unfold bind at 1.
    rewrite found_schedules_of_run by apply weekday_range.
    match goal with
    | |- context [Py.sorted _ _ ?f] => set (found := f)
    end.
    intros Hrun. apply for_each_emit in Hrun as (Hfuel & es & -> & Hsub & Hall).
    split; [exact Hfuel|]. exists es. cbn.
    rewrite Hy, Hp. repeat split; try assumption.
    + eapply strongly_sorted_sublist; [exact Hsub|]. apply sorted_by_key.
    + assert (Hfound : incl found all_schedules).
      { assert (Hb : incl before all_schedules).
        { intros x Hx. rewrite Hbefore in Hx.
          apply filter_In in Hx as [Hx _].
          unfold _filter_inforce in Hx. apply filter_In in Hx as [Hx _].
          unfold _filter_schedule_group in Hx. apply filter_In in Hx as [Hx _].
          exact Hx. }
        intros x Hx. apply Hb. subst found.
        destruct (_ && _); [apply adopted_incl in Hx; exact Hx|].
        unfold _filter_weekdays in Hx. apply filter_In in Hx. tauto. }
      rewrite List.Forall_forall. intros em Hem. apply Hfound.
      apply (Permutation_in _ (sorted_perm Py.pair_lt schedule_key found)).
      apply list_elem_of_In. apply (sublist_subseteq _ _ Hsub).
      apply list_elem_of_In. apply in_map. exact Hem.
  - apply filter_season_frame in Hseason as (_ & Hp & Hy).
    intros [= <- <-]. split; [discriminate|]. exists []. cbn.
    rewrite app_nil_r. repeat split; try assumption; constructor.
  - apply filter_season_frame in Hseason as (Hf & _). contradiction.
Qed.

End GeneratorRuns.

Section GeneratorLoop.
Context `{Externals} (db : Store).

Lemma emitted_on_date types start current_date em :
  emitted_on types start current_date em -> e_date em = current_date.
Proof using Type. intros [Hem _]. apply emission_of_fields in Hem. tauto. Qed.

Lemma one_date_sorted all_schedules types start end_ current_date es :
  current_date <= end_ ->
  Forall (emitted_on types start current_date) es ->
  StronglySorted key_le (map e_schedule es) ->
  Forall (fun em => In (e_schedule em) all_schedules) es ->
  Forall (fun em => emitted_on types start (e_date em) em
                    /\ current_date <= e_date em <= end_
                    /\ In (e_schedule em) all_schedules) es
  /\ StronglySorted emission_le es.
Proof using Type.
  intros Hle Hon Hsorted Hin. split.
  - rewrite List.Forall_forall in Hon, Hin |- *. intros em Hem.
    pose proof (emitted_on_date _ _ _ _ (Hon em Hem)) as Hd.
    split; [rewrite Hd; apply Hon; exact Hem|]. split; [lia|auto].
  - apply strongly_sorted_map in Hsorted.
    eapply strongly_sorted_impl; [|exact Hsorted].
    intros x y Hx Hy Hxy. right. split; [|exact Hxy].
    rewrite List.Forall_forall in Hon.
    rewrite (emitted_on_date _ _ _ _ (Hon x Hx)),
            (emitted_on_date _ _ _ _ (Hon y Hy)). reflexivity.
Qed.

Lemma date_loop_run all_schedules holidays types start end_ :
  forall fuel current_date w r w',
  end_ - current_date + 1 <= Z.of_nat fuel ->
  date_loop db fuel all_schedules holidays types start end_ current_date w = (r, w') ->
  r <> OutOfFuel
  /\ exists es,
      yielded w' = (yielded w ++ map e_phase es)%list
      /\ Forall (fun em => emitted_on types start (e_date em) em
                           /\ current_date <= e_date em <= end_
                           /\ In (e_schedule em) all_schedules) es
      /\ StronglySorted emission_le es.
Proof using Type.
  induction fuel as [|fuel IH]; intros current_date w r w' Hfuel;
    cbn [date_loop]; unfold Date.leb;
    destruct (Z.leb_spec current_date end_) as [Hle|Hgt];
    try (intros [= <- <-]; split; [discriminate|]; exists []; cbn;
         rewrite app_nil_r; repeat split; constructor).
  - lia.
  - unfold bind at 1.
    destruct (phases_of_date db all_schedules holidays types start current_date w)
      as [[[]|e|] w1] eqn:Hdate;
      apply phases_of_date_run in Hdate
        as (Hf1 & es1 & Hy1 & _ & Hon1 & Hsorted1 & Hin1); [| |contradiction].
    + destruct (one_date_sorted _ _ _ _ _ _ Hle Hon1 Hsorted1 Hin1) as [Hes1 Hs1].
      unfold bind at 1, of_option, Date.add_days.
      destruct (Date.validb (current_date + 1)); cbn.
      * intros Hrest.
        apply IH in Hrest as (Hf2 & es2 & Hy2 & Hes2 & Hs2); [|lia].
        split; [exact Hf2|]. exists (es1 ++ es2)%list.
        rewrite Hy2, Hy1, map_app, app_assoc. split; [reflexivity|]. split.
        -- apply Forall_app. split; [exact Hes1|].
           eapply List.Forall_impl; [|exact Hes2]. cbn. intros em (? & ? & ?).
           split; [assumption|]. split; [lia|assumption].
        -- apply strongly_sorted_app; try assumption.
           intros x y Hx Hy. left.
           rewrite List.Forall_forall in Hon1, Hes2.
           rewrite (emitted_on_date _ _ _ _ (Hon1 x Hx)).
           destruct (Hes2 y Hy) as (_ & ? & _). lia.
      * intros [= <- <-]. split; [discriminate|]. exists es1.
        split; [assumption|]. split; assumption.
    + destruct (one_date_sorted _ _ _ _ _ _ Hle Hon1 Hsorted1 Hin1) as [Hes1 Hs1].
      intros [= <- <-]. split; [discriminate|]. exists es1.
      split; [assumption|]. split; assumption.
Qed.

Lemma list_schedules_run self w :
  list_schedules db self w =
  (Ok (Py.sorted columns_lt
         (fun r => [s_schedule_group r; s_in_force_start_date r; s_season_start r;
                    s_start r; s_end r])
         (List.filter (fun r => Py.str_eq (s_fin_id r) (m_fin_id self)) (schedules db))),
   logged Schedules w).
Proof using Type. reflexivity. Qed.

Lemma holidays_as_dict_frame result : forall d w r w',
  holidays_as_dict result d w = (r, w') -> r <> OutOfFuel /\ w' = w.
Proof using Type.
  induction result as [|row rest IH]; cbn; intros d w r w'.
  - intros [= <- <-]. split; [discriminate|reflexivity].
  - unfold bind at 1, of_option.
    destruct (date_fromisoformat (h_date row)); cbn.
    + apply IH.
    + intros [= <- <-]. split; [discriminate|reflexivity].
Qed.

Lemma lift_run {A} (c : checked A) w :
  lift c w = (match c with Accept a => Ok a | Reject e => Raise e end, w).
Proof using Type. destruct c; reflexivity. Qed.

Lemma list_holidays_frame self start end_ as_dict w r w' :
  list_holidays db self start end_ as_dict w = (r, w') ->
  r <> OutOfFuel /\ printed w' = printed w /\ yielded w' = yielded w.
Proof using Type.
  unfold list_holidays.
  unfold bind at 1. rewrite lift_run.
  destruct (validate_date_arg "start" start) as [s|e];
    [|intros [= <- <-]; repeat split; discriminate].
  unfold bind at 1. rewrite lift_run.
  destruct (validate_date_arg "end" end_) as [e|x];
    [|intros [= <- <-]; repeat split; discriminate].
  unfold bind at 1. rewrite lift_run.
  destruct (validate_range_args s e) as [[first last]|x];
    [|intros [= <- <-]; repeat split; discriminate].
  unfold bind at 1. cbn.
  destruct as_dict.
  - unfold bind at 1.
    destruct (holidays_as_dict _ _ _) as [[d|x|] w1] eqn:Hd;
      apply holidays_as_dict_frame in Hd as (Hf & ->);
      intros [= <- <-]; repeat split; try discriminate. contradiction.
  - intros [= <- <-]. repeat split; discriminate.
Qed.

Lemma generate_phases_between_run self start end_ w r w' :
  generate_phases_between db self start end_ w = (r, w') ->
  r <> OutOfFuel
  /\ exists es,
      yielded w' = (yielded w ++ map e_phase es)%list
      /\ Forall (emitted_by db self start end_) es
      /\ StronglySorted emission_le es.
Proof using Type.
  unfold generate_phases_between.
  unfold bind at 1. cbn [print].
  unfold bind at 1. unfold PhaseType_as_dict at 1, query, query_log, bind, ret. cbn.
  fold (phase_types_dict_of db).
  unfold of_option, Date.add_days.
  destruct (Date.validb (start + - MAX_OFFSET_DAYS)); cbn;
    [|intros [= <- <-]; split; [discriminate|]; exists []; cbn;
      rewrite app_nil_r; repeat split; constructor].
  match goal with
  | |- context [list_holidays db self ?a ?b true ?w0] =>
      destruct (list_holidays db self a b true w0) as [[[l|holidays]|x|] w1] eqn:Hh;
        apply list_holidays_frame in Hh as (Hf & Hp & Hy); cbn in Hy
  end; try contradiction;
    try (intros [= <- <-]; split; [discriminate|]; exists []; cbn;
         rewrite app_nil_r; repeat split; [congruence|constructor..]).
  intros Hloop.
  apply date_loop_run in Hloop as (Hfuel & es & Hyield & Hes & Hsorted);
    [|unfold MAX_OFFSET_DAYS; lia].
  split; [exact Hfuel|]. exists es. rewrite Hyield, Hy.
  repeat split; try assumption.
  eapply List.Forall_impl; [|exact Hes]. cbn. intros em (Hon & Hrange & Hin).
  apply (Permutation_in _ (sorted_perm _ _ _)) in Hin.
  apply filter_In in Hin as [Hin Hfin]. apply str_eq_true in Hfin.
  unfold emitted_by, MAX_OFFSET_DAYS in *.
  split; [exact Hon|]. split; [lia|]. split; assumption.
Qed.

Lemma generate_phases_run self start end_ w :
  generate_phases db self start end_ w =
  match validated_range start end_ with
  | Accept (first, last) => generate_phases_between db self first last w
  | Reject x => (Raise x, w)
  end.
Proof using Type.
  unfold generate_phases, validated_range.
  unfold bind at 1. rewrite lift_run.
  destruct (validate_date_arg "start" start) as [s|x]; [|reflexivity].
  unfold bind at 1. rewrite lift_run.
  destruct (validate_date_arg "end" end_) as [e|x]; [|reflexivity].
  unfold bind at 1. rewrite lift_run.
  destruct (validate_range_args s e) as [[first last]|x]; reflexivity.
Qed.

End GeneratorLoop.

(** ** The phases of a run *)

Lemma generate_phases_trace `{Externals} (db : Store) (self : Market)
    (start end_ : StrOrDate) (first last : Date.t) (w : world) (r : result unit)
    (w' : world) :
  validated_range start end_ = Accept (first, last) ->
  generate_phases db self start end_ w = (r, w') ->
  r <> OutOfFuel
  /\ exists es,
      yielded w' = (yielded w ++ map e_phase es)%list
      /\ Forall (emitted_by db self first last) es
      /\ StronglySorted emission_le es.
Proof.
  intros Hv. rewrite generate_phases_run, Hv. apply generate_phases_between_run.
Qed.

(** The fuel that [generate_phases] gives its loops suffices: no run ends
    for want of fuel. *)
Lemma generate_phases_returns `{Externals} (db : Store) (self : Market)
    (start end_ : StrOrDate) (w : world) :
  fst (generate_phases db self start end_ w) <> OutOfFuel.
Proof.
  rewrite generate_phases_run.
  destruct (validated_range start end_) as [[first last]|x]; [|discriminate].
  destruct (generate_phases_between db self first last w) as [r w'] eqn:Hrun.
  apply generate_phases_between_run in Hrun as [Hfuel _]. exact Hfuel.
Qed.

Lemma emit_phase_suppressed `{Externals} types start current_date s offset end_date w :
  py_int (s_offset_days s) = Some offset ->
  Date.add_days current_date offset = Some end_date ->
  end_date < start ->
  emit_phase types start current_date s w = (Ok tt, w).
Proof.
  intros Hint Hadd Hlt. rewrite emit_phase_run, Hint, Hadd.
  unfold Date.leb. destruct (Z.leb_spec start end_date); [lia|reflexivity].
Qed.

Lemma emit_phase_emitted `{Externals} types start current_date s em w :
  emission_of types current_date s = Some em ->
  start <= e_end_date em ->
  emit_phase types start current_date s w = (Ok tt, pushed w [e_phase em]).
Proof.
  intros Hem Hle. rewrite emit_phase_run, Hem.
  apply emission_of_fields in Hem as Hf.
  destruct Hf as (_ & _ & Hint & Hend & _). rewrite Hint.
  unfold emission_of in Hem. rewrite Hint in Hem.
  destruct (Date.add_days current_date (e_offset em)) as [end_date|] eqn:Hadd;
    [|discriminate].
  assert (end_date = e_end_date em) as ->.
  { unfold Date.add_days in Hadd. destruct (Date.validb _); [|discriminate].
    injection Hadd as <-. symmetry. exact Hend. }
  unfold Date.leb. destruct (Z.leb_spec start (e_end_date em)); [reflexivity|lia].
Qed.

Lemma time_micros_range t : time_valid t -> 0 <= time_micros t < day_micros.
Proof. unfold time_valid, time_micros, day_micros. lia. Qed.

(** How far the end of an emitted phase is from its start. *)
Lemma emission_interval `{Externals} types current_date s em :
  emission_of types current_date s = Some em ->
  dt_tzinfo (e_start em) = dt_tzinfo (e_end em)
  /\ wall_micros (e_end em) - wall_micros (e_start em)
     = e_offset em * day_micros
       + (time_micros (e_end_time em) - time_micros (e_start_time em))
  /\ 0 <= time_micros (e_start_time em) < day_micros
  /\ 0 <= time_micros (e_end_time em) < day_micros
  /\ instant_micros (e_end em) - instant_micros (e_start em)
     = wall_micros (e_end em) - wall_micros (e_start em)
       - (utcoffset (e_zone em) (e_end_date em) (e_end_time em)
          - utcoffset (e_zone em) (e_date em) (e_start_time em)) * 1000000.
Proof.
  intros Hem. apply emission_of_fields in Hem as Hf.
  destruct Hf as (Hdate & _ & _ & Hend & Hst & Het & _).
  apply time_fromisoformat_valid, time_micros_range in Hst, Het.
  unfold e_start, e_end, instant_micros, wall_micros, replace_tzinfo, combine. cbn.
  rewrite Hend, Hdate. unfold day_micros in *.
  repeat split; try assumption; try reflexivity; lia.
Qed.

(** C5, as the code has it. A phase that [generate_phases] yields starts
    and ends in the same zone, and on the wall clock its end is
    [offset_days] days plus (end time - start time) after its start. So
    the start is before the end whenever [offset_days >= 1], and when
    [offset_days = 0] exactly when the start time of the schedule is
    before its end time; nothing in [generate_phases] compares the two. *)
Theorem emitted_phase_interval `{Externals} (db : Store) (self : Market)
    (start end_ : StrOrDate) (first last : Date.t) (w : world) (r : result unit)
    (w' : world) :
  validated_range start end_ = Accept (first, last) ->
  generate_phases db self start end_ w = (r, w') ->
  exists es,
    yielded w' = (yielded w ++ map e_phase es)%list
    /\ Forall (fun em =>
         emission_of (phase_types_dict_of db) (e_date em) (e_schedule em) = Some em
         /\ p_start (e_phase em) = datetime_isoformat (e_start em)
         /\ p_end (e_phase em) = datetime_isoformat (e_end em)
         /\ py_int (s_offset_days (e_schedule em)) = Some (e_offset em)
         /\ dt_tzinfo (e_start em) = dt_tzinfo (e_end em)
         /\ wall_micros (e_end em) - wall_micros (e_start em)
            = e_offset em * day_micros
              + (time_micros (e_end_time em) - time_micros (e_start_time em))
         /\ (1 <= e_offset em -> wall_micros (e_start em) < wall_micros (e_end em))
         /\ (e_offset em = 0 ->
             (wall_micros (e_start em) < wall_micros (e_end em)
              <-> time_micros (e_start_time em) < time_micros (e_end_time em)))
         /\ (utcoffset (e_zone em) (e_end_date em) (e_end_time em)
             = utcoffset (e_zone em) (e_date em) (e_start_time em) ->
             instant_micros (e_end em) - instant_micros (e_start em)
             = wall_micros (e_end em) - wall_micros (e_start em))) es.
Proof.
  intros Hv Hrun.
  destruct (generate_phases_trace db self start end_ first last w r w' Hv Hrun)
    as (_ & es & Hy & Hes & _).
  exists es. split; [exact Hy|].
  eapply List.Forall_impl; [|exact Hes]. cbn.
  intros em ((Hem & _) & _).
  apply emission_of_fields in Hem as Hf.
  destruct Hf as (_ & _ & Hint & _ & _ & _ & _ & Hps & Hpe & _).
  apply emission_interval in Hem as Hi.
  destruct Hi as (Htz & Hwall & Hs & He & Hinst).
  split; [exact Hem|]. split; [exact Hps|]. split; [exact Hpe|].
  split; [exact Hint|]. split; [exact Htz|]. split; [exact Hwall|].
  unfold day_micros in *.
  split; [intros; nia|]. split; [intros Hz; rewrite Hz in Hwall; lia|].
  intros Hoff. rewrite Hoff. lia.
Qed.

Lemma emitted_phase_interval_witness :
  exists es,
    yielded (snd (@generate_phases Sample.env Sample.db Sample.demo
                    (Str "2024-02-06") (Str "2024-02-06") world0))
    = map e_phase es
    /\ Forall (fun em =>
         1 <= e_offset em -> wall_micros (e_start em) < wall_micros (e_end em)) es.
Proof.
  destruct (@emitted_phase_interval Sample.env Sample.db Sample.demo
              (Str "2024-02-06") (Str "2024-02-06") 738922 738922 world0 _ _
              ltac:(vm_compute; reflexivity) (surjective_pairing _))
    as (es & Hy & Hes).
  exists es. split; [exact Hy|].
  eapply List.Forall_impl; [|exact Hes]. cbn. intros em Hem. apply Hem.
Defined.

(** C5 as stated fails: a schedule that opens and closes at 16:00:00 with
    no offset days is emitted as a phase whose start and end are the same
    instant. *)
Lemma emitted_phase_of_no_length :
  exists em,
    @emission_of Sample.flat_env (phase_types_dict_of Sample.flat_db) 738922
      Sample.auction = Some em
    /\ yielded (snd (@generate_phases Sample.flat_env Sample.flat_db Sample.demo
                       (Str "2024-02-06") (Str "2024-02-06") world0))
       = [e_phase em]
    /\ p_start (e_phase em) = "2024-02-06T16:00:00+00:00"
    /\ p_end (e_phase em) = "2024-02-06T16:00:00+00:00"
    /\ ~ instant_micros (e_start em) < instant_micros (e_end em).
Proof.
  eexists. split; [vm_compute; reflexivity|].
  split; [vm_compute; reflexivity|].
  split; [vm_compute; reflexivity|].
  split; [vm_compute; reflexivity|].
  vm_compute. discriminate.
Defined.

(** ** Market lookup *)

Lemma one_or_none_run {A} (rows : list A) w :
  one_or_none rows w = (lookup_result rows, w).
Proof. destruct rows as [|r [|r' rows]]; reflexivity. Qed.

Lemma get_by_finid_run `{Externals} (db : Store) (finid : string) (follow : bool)
    (w : world) :
  get_by_finid db finid follow w =
  match validate_finid_arg "finid" finid with
  | Reject x => (Raise x, w)
  | Accept f =>
      match rows_with db f with
      | [] => (Ok None, logged Markets w)
      | [row] =>
          if Py.truthy (m_replaced_by row) && follow
          then (lookup_result (rows_with db (m_replaced_by row)),
                logged Markets (logged Markets w))
          else (Ok (Some row), logged Markets w)
      | _ :: _ :: _ => (Raise MultipleResultsFound, logged Markets w)
      end
  end.
Proof.
  unfold get_by_finid. unfold bind at 1. rewrite lift_run.
  destruct (validate_finid_arg "finid" finid) as [f|x]; [|reflexivity].
  unfold bind at 1. cbn. fold (rows_with db f).
  unfold bind at 1. rewrite one_or_none_run.
  destruct (rows_with db f) as [|row [|row' rows]]; cbn; try reflexivity.
  destruct (Py.truthy (m_replaced_by row) && follow); cbn; [|reflexivity].
  unfold bind. cbn. fold (rows_with db (m_replaced_by row)).
  rewrite one_or_none_run.
  destruct (lookup_result _); reflexivity.
Qed.

Lemma rows_with_fin_id db f row : In row (rows_with db f) -> m_fin_id row = f.
Proof. unfold rows_with. rewrite filter_In. intros [_ Heq]. apply str_eq_true, Heq. Qed.

(** C6. [get_by_finid] makes at most one redirection hop. With the FinID
    accepted by the validation: it queries [markets] once or twice and
    nothing else; no row gives [None], not an error; without [follow], or
    with an empty [replaced_by], the row found is returned; with [follow]
    and a non-empty [replaced_by] the result is the row whose FinID is
    that [replaced_by], whatever that row's own [replaced_by] is, and
    [None] when there is none; a row that names itself is returned. *)
Theorem get_by_finid_one_hop `{Externals} (db : Store) (finid f : string)
    (follow : bool) (w : world) (r : result (option Market)) (w' : world) :
  validate_finid_arg "finid" finid = Accept f ->
  get_by_finid db finid follow w = (r, w') ->
  r <> OutOfFuel
  /\ (w' = logged Markets w \/ w' = logged Markets (logged Markets w))
  /\ (rows_with db f = [] -> r = Ok None /\ w' = logged Markets w)
  /\ (follow = false -> r = lookup_result (rows_with db f) /\ w' = logged Markets w)
  /\ (forall row, rows_with db f = [row] ->
      (Py.truthy (m_replaced_by row) = false ->
       r = Ok (Some row) /\ w' = logged Markets w)
      /\ (Py.truthy (m_replaced_by row) = true -> follow = true ->
          r = lookup_result (rows_with db (m_replaced_by row))
          /\ w' = logged Markets (logged Markets w)
          /\ (forall target, rows_with db (m_replaced_by row) = [target] ->
              r = Ok (Some target) /\ m_fin_id target = m_replaced_by row)
          /\ (rows_with db (m_replaced_by row) = [] -> r = Ok None))
      /\ (m_replaced_by row = m_fin_id row -> r = Ok (Some row))).
Proof.
  intros Hv. rewrite get_by_finid_run, Hv.
  destruct (rows_with db f) as [|row [|row' rows]] eqn:Hrows.
  - intros [= <- <-]. split; [discriminate|]. split; [left; reflexivity|].
    split; [auto|]. split; [auto|]. intros row' [=].
  - assert (Hfin : m_fin_id row = f).
    { apply (rows_with_fin_id db). rewrite Hrows. left. reflexivity. }
    destruct (Py.truthy (m_replaced_by row)) eqn:Htruthy; destruct follow; cbn;
      intros [= <- <-].
    + split; [destruct (rows_with db (m_replaced_by row)) as [|? [|? ?]]; discriminate|].
      split; [right; reflexivity|]. split; [intros [=]|]. split; [intros [=]|].
      intros row' [= <-]. split; [intros Hf; congruence|]. split.
      * intros _ _. split; [reflexivity|]. split; [reflexivity|]. split.
        -- intros target Ht. rewrite Ht. split; [reflexivity|].
           apply (rows_with_fin_id db). rewrite Ht. left. reflexivity.
        -- intros ->. reflexivity.
      * intros Hself. rewrite Hself, Hfin, Hrows. reflexivity.
    + split; [discriminate|]. split; [left; reflexivity|]. split; [intros [=]|].
      split; [auto|]. intros row' [= <-]. split; [intros Hf; congruence|].
      split; [intros _ [=]|]. reflexivity.
    + split; [discriminate|]. split; [left; reflexivity|]. split; [intros [=]|].
      split; [intros [=]|]. intros row' [= <-]. split; [auto|].
      split; [intros Ht; congruence|]. reflexivity.
    + split; [discriminate|]. split; [left; reflexivity|]. split; [intros [=]|].
      split; [auto|]. intros row' [= <-]. split; [auto|].
      split; [intros Ht; congruence|]. reflexivity.
  - intros [= <- <-]. split; [discriminate|]. split; [left; reflexivity|].
    split; [intros [=]|]. split; [auto|]. intros row'' [=].
Qed.

(** ZZ.OLDER was replaced by ZZ.OLD, itself replaced by ZZ.DEMO: the
    lookup stops at ZZ.OLD. *)
Lemma get_by_finid_one_hop_witness :
  fst (@get_by_finid Sample.env Sample.db "ZZ.OLDER" true world0) = Ok (Some Sample.old)
  /\ m_replaced_by Sample.old = "ZZ.DEMO".
Proof.
  split; [|reflexivity].
  destruct (@get_by_finid_one_hop Sample.env Sample.db "ZZ.OLDER" "ZZ.OLDER" true
              world0 _ _ eq_refl (surjective_pairing _))
    as (_ & _ & _ & _ & Hrow).
  destruct (Hrow Sample.older ltac:(vm_compute; reflexivity)) as (_ & Hhop & _).
  destruct (Hhop ltac:(vm_compute; reflexivity) eq_refl) as (_ & _ & Htarget & _).
  apply (Htarget Sample.old). vm_compute. reflexivity.
Defined.

(** C10. With [follow], a market whose [replaced_by] is non-empty and
    matches no row is hidden: the result is [None], after two queries,
    although without [follow] the market is found. *)
Theorem get_by_finid_dangling_redirect `{Externals} (db : Store) (finid f : string)
    (row : Market) (w : world) :
  validate_finid_arg "finid" finid = Accept f ->
  rows_with db f = [row] ->
  Py.truthy (m_replaced_by row) = true ->
  rows_with db (m_replaced_by row) = [] ->
  get_by_finid db finid true w = (Ok None, logged Markets (logged Markets w))
  /\ get_by_finid db finid false w = (Ok (Some row), logged Markets w).
Proof.
  intros Hv Hrows Htruthy Hnone.
  rewrite !get_by_finid_run, Hv, Hrows, Htruthy, Hnone. split; reflexivity.
Qed.

Lemma get_by_finid_dangling_redirect_witness :
  @get_by_finid Sample.env Sample.db "ZZ.LOST" true world0
  = (Ok None, logged Markets (logged Markets world0))
  /\ @get_by_finid Sample.env Sample.db "ZZ.LOST" false world0
     = (Ok (Some Sample.lost), logged Markets world0).
Proof.
  apply (@get_by_finid_dangling_redirect Sample.env Sample.db "ZZ.LOST" "ZZ.LOST"
           Sample.lost world0);
    vm_compute; reflexivity.
Defined.

Lemma get_by_mic_run `{Externals} (db : Store) (mic : string) (follow : bool)
    (w : world) :
  get_by_mic db mic follow w =
  match validate_str_arg "mic" mic with
  | Reject x => (Raise x, w)
  | Accept mic' =>
      match mappings_with db mic' with
      | [] => (Ok None, logged MicMappings w)
      | [mapping] => get_by_finid db (mm_fin_id mapping) follow (logged MicMappings w)
      | _ :: _ :: _ => (Raise MultipleResultsFound, logged MicMappings w)
      end
  end.
Proof.
  unfold get_by_mic. unfold bind at 1. rewrite lift_run.
  destruct (validate_str_arg "mic" mic) as [mic'|x]; [|reflexivity].
  unfold bind at 1. cbn. fold (mappings_with db mic').
  unfold bind at 1. rewrite one_or_none_run.
  destruct (mappings_with db mic') as [|mapping [|mapping' rows]]; reflexivity.
Qed.

Lemma get_run `{Externals} (db : Store) (identifier : string) (follow : bool)
    (w : world) :
  get db identifier follow w =
  match validate_str_arg "identifier" identifier with
  | Reject x => (Raise x, w)
  | Accept identifier' =>
      if Py.contains "." identifier'
      then get_by_finid db identifier' follow w
      else get_by_mic db identifier' follow w
  end.
Proof.
  unfold get. unfold bind at 1. rewrite lift_run.
  destruct (validate_str_arg "identifier" identifier) as [identifier'|x];
    [|reflexivity].
  destruct (Py.contains "." identifier'); reflexivity.
Qed.

(** C7. [get] dispatches on the dot: an identifier with a dot goes to
    [get_by_finid], one without goes to [get_by_mic], and there the
    mapping is looked up by the uppercased identifier. The uppercasing is
    that of [Validate.validate_str_arg]; [get] and [get_by_mic] pass the
    validated text on unchanged. *)
Theorem get_dispatches_on_dot `{Externals} (db : Store) (identifier : string)
    (follow : bool) (w : world) :
  validate_str_arg = Validate.validate_str_arg ->
  (Py.contains "." identifier = true ->
   get db identifier follow w = get_by_finid db identifier follow w)
  /\ (Py.contains "." identifier = false ->
      get db identifier follow w = get_by_mic db identifier follow w
      /\ get_by_mic db identifier follow w =
         match mappings_with db (Py.upper identifier) with
         | [] => (Ok None, logged MicMappings w)
         | [mapping] =>
             get_by_finid db (mm_fin_id mapping) follow (logged MicMappings w)
         | _ :: _ :: _ => (Raise MultipleResultsFound, logged MicMappings w)
         end).
Proof.
  intros Hv. split; intros Hdot.
  - rewrite get_run, Hv. cbn. rewrite Hdot. reflexivity.
  - split.
    + rewrite get_run, Hv. cbn. rewrite Hdot. reflexivity.
    + rewrite get_by_mic_run, Hv. reflexivity.
Qed.

(** The MIC of the sample market in lower case, and its FinID. *)
Lemma get_dispatches_on_dot_witness :
  fst (@get Sample.env Sample.db "xdem" true world0) = Ok (Some Sample.demo)
  /\ fst (@get Sample.env Sample.db "ZZ.DEMO" true world0) = Ok (Some Sample.demo).
Proof.
  destruct (@get_dispatches_on_dot Sample.env Sample.db "xdem" true world0 eq_refl)
    as [_ Hmic].
  destruct (@get_dispatches_on_dot Sample.env Sample.db "ZZ.DEMO" true world0 eq_refl)
    as [Hfinid _].
  split.
  - destruct (Hmic eq_refl) as [-> ->]. vm_compute. reflexivity.
  - rewrite (Hfinid eq_refl). vm_compute. reflexivity.
Defined.

(** ** Validation comes first *)

Lemma validated_range_spec `{Externals} (start end_ : StrOrDate) :
  validate_date_arg = Validate.validate_date_arg date_fromisoformat ->
  validate_range_args = Validate.validate_range_args ->
  validated_range start end_ =
  match coerce start, coerce end_ with
  | Some s, Some e => if e <? s then Reject InvalidArgument else Accept (s, e)
  | _, _ => Reject InvalidArgument
  end.
Proof.
  intros Hd Hr. unfold validated_range. rewrite Hd, Hr.
  unfold Validate.validate_date_arg, Validate.validate_range_args, coerce, Date.ltb.
  destruct start as [s|s], end_ as [e|e]; cbn;
    repeat (match goal with
            | |- context [date_fromisoformat ?x] => destruct (date_fromisoformat x)
            end; cbn); reflexivity.
Qed.

Lemma list_holidays_run `{Externals} (db : Store) (self : Market)
    (start end_ : StrOrDate) (as_dict : bool) (w : world) :
  list_holidays db self start end_ as_dict w =
  match validated_range start end_ with
  | Reject x => (Raise x, w)
  | Accept (first, last) =>
      if as_dict then
        match holidays_as_dict (holidays_between db self first last) ∅
                (logged MarketHolidays w) with
        | (Ok d, w') => (Ok (inr d), w')
        | (Raise x, w') => (Raise x, w')
        | (OutOfFuel, w') => (OutOfFuel, w')
        end
      else (Ok (inl (holidays_between db self first last)), logged MarketHolidays w)
  end.
Proof.
  unfold list_holidays, validated_range.
  unfold bind at 1. rewrite lift_run.
  destruct (validate_date_arg "start" start) as [s|x]; [|reflexivity].
  unfold bind at 1. rewrite lift_run.
  destruct (validate_date_arg "end" end_) as [e|x]; [|reflexivity].
  unfold bind at 1. rewrite lift_run.
  destruct (validate_range_args s e) as [[first last]|x]; [|reflexivity].
  unfold bind at 1. cbn. fold (holidays_between db self first last).
  destruct as_dict; [|reflexivity].
  unfold bind. destruct (holidays_as_dict _ _ _) as [[d|x|] w']; reflexivity.
Qed.

(** C8. With the validation functions of the specification,
    [generate_phases] and [list_holidays] raise [InvalidArgument] when an
    argument does not parse as a date or when start > end, and they do so
    in the world they started in: no table was queried, nothing printed,
    nothing yielded. Otherwise both arguments are taken as dates and the
    operation goes on with them. *)
Theorem invalid_arguments_abort_first `{Externals} (db : Store) (self : Market)
    (start end_ : StrOrDate) (w : world) :
  validate_date_arg = Validate.validate_date_arg date_fromisoformat ->
  validate_range_args = Validate.validate_range_args ->
  (coerce start = None \/ coerce end_ = None
   \/ (exists s e, coerce start = Some s /\ coerce end_ = Some e /\ e < s) ->
   generate_phases db self start end_ w = (Raise InvalidArgument, w)
   /\ forall as_dict,
       list_holidays db self start end_ as_dict w = (Raise InvalidArgument, w))
  /\ (forall s e, coerce start = Some s -> coerce end_ = Some e -> s <= e ->
      generate_phases db self start end_ w = generate_phases_between db self s e w
      /\ list_holidays db self start end_ false w
         = (Ok (inl (holidays_between db self s e)), logged MarketHolidays w)
      /\ exists r w',
          list_holidays db self start end_ true w = (r, w')
          /\ queries w' = (queries w ++ [MarketHolidays])%list).
Proof.
  intros Hd Hr.
  pose proof (validated_range_spec start end_ Hd Hr) as Hv.
  split.
  - intros Hbad.
    assert (Hrej : validated_range start end_ = Reject InvalidArgument).
    { rewrite Hv. destruct Hbad as [->|[Hend|(s & e & -> & -> & Hlt)]].
      - reflexivity.
      - rewrite Hend. destruct (coerce start); reflexivity.
      - destruct (Z.ltb_spec e s); [reflexivity|lia]. }
    split; [|intros as_dict].
    + rewrite generate_phases_run, Hrej. reflexivity.
    + rewrite list_holidays_run, Hrej. reflexivity.
  - intros s e Hs He Hle.
    assert (Hacc : validated_range start end_ = Accept (s, e)).
    { rewrite Hv, Hs, He. destruct (Z.ltb_spec e s); [lia|reflexivity]. }
    split; [|split].
    + rewrite generate_phases_run, Hacc. reflexivity.
    + rewrite list_holidays_run, Hacc. reflexivity.
    + rewrite list_holidays_run, Hacc.
      destruct (holidays_as_dict _ _ _) as [[d|x|] w'] eqn:Hdict;
        apply holidays_as_dict_frame in Hdict as (_ & ->);
        eexists; eexists; (split; [reflexivity|reflexivity]).
Qed.

Lemma invalid_arguments_abort_first_witness :
  @generate_phases Sample.env Sample.db Sample.demo (Str "2024-13-26") (Str "2024-12-25")
    world0 = (Raise InvalidArgument, world0)
  /\ @list_holidays Sample.env Sample.db Sample.demo (Str "2024-12-26") (Str "2024-12-25")
       false world0 = (Raise InvalidArgument, world0)
  /\ @list_holidays Sample.env Sample.db Sample.demo (Str "2024-11-20") (Str "2024-11-30")
       false world0
     = (Ok (inl [Sample.holiday_row "2024-11-29" "Day after Thanksgiving" "Partial" "Open"]),
        logged MarketHolidays world0).
Proof.
  split; [|split].
  - apply (proj1 (@invalid_arguments_abort_first Sample.env Sample.db Sample.demo
                    (Str "2024-13-26") (Str "2024-12-25") world0 eq_refl eq_refl)).
    left. reflexivity.
  - apply (proj1 (@invalid_arguments_abort_first Sample.env Sample.db Sample.demo
                    (Str "2024-12-26") (Str "2024-12-25") world0 eq_refl eq_refl)).
    right. right. eexists; eexists.
    split; [vm_compute; reflexivity|]. split; [vm_compute; reflexivity|]. lia.
  - destruct (proj2 (@invalid_arguments_abort_first Sample.env Sample.db Sample.demo
                       (Str "2024-11-20") (Str "2024-11-30") world0 eq_refl eq_refl)
                _ _ ltac:(vm_compute; reflexivity) ltac:(vm_compute; reflexivity)
                ltac:(lia))
      as (_ & -> & _).
    vm_compute. reflexivity.
Defined.

(** * Further properties of the methods *)

(** ** What a lookup returns and what it reads *)

Lemma rows_with_in db f row : In row (rows_with db f) -> In row (markets db).
Proof. unfold rows_with. rewrite filter_In. tauto. Qed.

Lemma lookup_result_some {A} (rows : list A) (a : A) :
  lookup_result rows = Ok (Some a) -> rows = [a].
Proof. destruct rows as [|r [|r' rows]]; cbn; congruence. Qed.

Lemma lookup_result_fuel {A} (rows : list A) : lookup_result rows <> OutOfFuel.
Proof. destruct rows as [|r [|r' rows]]; discriminate. Qed.

(** A market that [get_by_finid] returns is a row of [markets]: the one
    with the validated FinID, or the one that a row with that FinID names
    in [replaced_by]. *)
Lemma get_by_finid_sound `{Externals} (db : Store) (finid : string) (follow : bool)
    (w : world) (m : Market) (w' : world) :
  get_by_finid db finid follow w = (Ok (Some m), w') ->
  exists f,
    validate_finid_arg "finid" finid = Accept f
    /\ In m (markets db)
    /\ (m_fin_id m = f
        \/ (follow = true
            /\ exists row, In row (markets db) /\ m_fin_id row = f
                           /\ m_replaced_by row = m_fin_id m)).
Proof.
  rewrite get_by_finid_run.
  destruct (validate_finid_arg "finid" finid) as [f|x]; [|discriminate].
  destruct (rows_with db f) as [|row [|row' rows]] eqn:Hrows; try discriminate.
  assert (Hrow : In row (rows_with db f)) by (rewrite Hrows; left; reflexivity).
  destruct (Py.truthy (m_replaced_by row) && follow) eqn:Hhop.
  - intros [= Hlook _]. apply lookup_result_some in Hlook.
    assert (Hm : In m (rows_with db (m_replaced_by row)))
      by (rewrite Hlook; left; reflexivity).
    exists f. split; [reflexivity|]. split; [exact (rows_with_in _ _ _ Hm)|].
    right. apply andb_prop in Hhop as [_ ->]. split; [reflexivity|].
    exists row. split; [exact (rows_with_in _ _ _ Hrow)|].
    split; [exact (rows_with_fin_id _ _ _ Hrow)|].
    symmetry. exact (rows_with_fin_id _ _ _ Hm).
  - intros [= <- _]. exists f. split; [reflexivity|].
    split; [exact (rows_with_in _ _ _ Hrow)|].
    left. exact (rows_with_fin_id _ _ _ Hrow).
Qed.

(** The tables that [get_by_finid] reads, in order. *)
Lemma get_by_finid_reads `{Externals} (db : Store) (finid : string) (follow : bool)
    (w : world) (r : result (option Market)) (w' : world) :
  get_by_finid db finid follow w = (r, w') ->
  r <> OutOfFuel
  /\ printed w' = printed w /\ yielded w' = yielded w
  /\ exists qs, queries w' = (queries w ++ qs)%list
                /\ In qs [[]; [Markets]; [Markets; Markets]].
Proof.
  rewrite get_by_finid_run.
  destruct (validate_finid_arg "finid" finid) as [f|x].
  - destruct (rows_with db f) as [|row [|row' rows]];
      [| destruct (Py.truthy (m_replaced_by row) && follow) |];
      intros [= <- <-]; (split; [try discriminate; apply lookup_result_fuel|]);
      (split; [reflexivity|]); (split; [reflexivity|]); cbn.
    + exists [Markets]. split; [reflexivity|]. right; left; reflexivity.
    + exists [Markets; Markets]. rewrite <- app_assoc. split; [reflexivity|].
      right; right; left; reflexivity.
    + exists [Markets]. split; [reflexivity|]. right; left; reflexivity.
    + exists [Markets]. split; [reflexivity|]. right; left; reflexivity.
  - intros [= <- <-]. split; [discriminate|].
    split; [reflexivity|]. split; [reflexivity|].
    exists []. rewrite app_nil_r. split; [reflexivity|]. left; reflexivity.
Qed.

Lemma mappings_with_in db mic mapping :
  In mapping (mappings_with db mic) -> In mapping (mic_mappings db) /\ mm_mic mapping = mic.
Proof.
  unfold mappings_with. rewrite filter_In. intros [Hin Heq].
  split; [exact Hin|]. apply str_eq_true, Heq.
Qed.

(** X1. [get_by_mic], with the MIC accepted by the validation as [mic']:
    with no mapping of that MIC the result is [None], after one query of
    [mic_mappings] and none of [markets]; with several mappings it raises
    [MultipleResultsFound]; with one it goes on as [get_by_finid] on the
    FinID of the mapping. A market it returns is a row of [markets]
    reached from a mapping of that MIC: the row with the mapping's
    validated FinID or, with [follow], the row which that one names in
    [replaced_by]. The MIC column of the market itself is never read. *)
Theorem get_by_mic_follows_mapping `{Externals} (db : Store) (mic mic' : string)
    (follow : bool) (w : world) (r : result (option Market)) (w' : world) :
  validate_str_arg "mic" mic = Accept mic' ->
  get_by_mic db mic follow w = (r, w') ->
  (mappings_with db mic' = [] -> r = Ok None /\ w' = logged MicMappings w)
  /\ ((2 <= length (mappings_with db mic'))%nat ->
      r = Raise MultipleResultsFound /\ w' = logged MicMappings w)
  /\ (forall mapping, mappings_with db mic' = [mapping] ->
      (r, w') = get_by_finid db (mm_fin_id mapping) follow (logged MicMappings w))
  /\ (forall m, r = Ok (Some m) ->
      In m (markets db)
      /\ exists mapping f,
          In mapping (mic_mappings db) /\ mm_mic mapping = mic'
          /\ validate_finid_arg "finid" (mm_fin_id mapping) = Accept f
          /\ (m_fin_id m = f
              \/ (follow = true
                  /\ exists row, In row (markets db) /\ m_fin_id row = f
                                 /\ m_replaced_by row = m_fin_id m))).
Proof.
  intros Hv. rewrite get_by_mic_run, Hv.
  destruct (mappings_with db mic') as [|mapping [|mapping' rows]] eqn:Hmap.
  - intros [= <- <-]. split; [auto|]. split; [cbn; lia|].
    split; [intros ? [=]|]. intros m [=].
  - intros Hrun. split; [intros [=]|]. split; [cbn; lia|].
    split; [intros ? [= <-]; symmetry; exact Hrun|].
    intros m ->. apply get_by_finid_sound in Hrun as (f & Hf & Hin & Hfin).
    split; [exact Hin|]. exists mapping, f.
    destruct (mappings_with_in db mic' mapping) as [Hm1 Hm2];
      [rewrite Hmap; left; reflexivity|].
    repeat split; assumption.
  - intros [= <- <-]. split; [intros [=]|]. split; [auto|].
    split; [intros ? [=]|]. intros m [=].
Qed.

(** The MIC of a market that was replaced: the lookup ends at the
    successor, whose own MIC is another one. *)
Lemma get_by_mic_follows_mapping_witness :
  @get_by_mic Sample.env Sample.db "XOLD" true world0
  = (Ok (Some Sample.demo), logged Markets (logged Markets (logged MicMappings world0)))
  /\ In Sample.demo (markets Sample.db)
  /\ m_mic Sample.demo = "XDEM".
Proof.
  assert (Hrun : @get_by_mic Sample.env Sample.db "XOLD" true world0
                 = (Ok (Some Sample.demo),
                    logged Markets (logged Markets (logged MicMappings world0))))
    by (vm_compute; reflexivity).
  split; [exact Hrun|]. split; [|reflexivity].
  exact (proj1 (proj2 (proj2 (proj2
           (@get_by_mic_follows_mapping Sample.env Sample.db "XOLD" "XOLD" true world0
              _ _ eq_refl Hrun))) Sample.demo eq_refl)).
Defined.

(** X2. The lookups validate before they read. When the validation
    rejects the argument, [get_by_finid], [get_by_mic] and [get] raise its
    exception in the world they started in: no table was queried. [get]
    validates twice, first the identifier and then the validated text as
    a FinID (when it has a dot) or as a MIC (when it has none); a
    rejection by the second validation also comes before any query. *)
Theorem lookups_validate_first `{Externals} (db : Store) (x : string) (follow : bool)
    (w : world) (e : exn) :
  (validate_finid_arg "finid" x = Reject e ->
   get_by_finid db x follow w = (Raise e, w))
  /\ (validate_str_arg "mic" x = Reject e ->
      get_by_mic db x follow w = (Raise e, w))
  /\ (validate_str_arg "identifier" x = Reject e ->
      get db x follow w = (Raise e, w))
  /\ (forall x', validate_str_arg "identifier" x = Accept x' ->
      (Py.contains "." x' = true -> validate_finid_arg "finid" x' = Reject e ->
       get db x follow w = (Raise e, w))
      /\ (Py.contains "." x' = false -> validate_str_arg "mic" x' = Reject e ->
          get db x follow w = (Raise e, w))).
Proof.
  split; [|split; [|split]].
  - intros Hv. rewrite get_by_finid_run, Hv. reflexivity.
  - intros Hv. rewrite get_by_mic_run, Hv. reflexivity.
  - intros Hv. rewrite get_run, Hv. reflexivity.
  - intros x' Hv. split; intros Hdot Hv2; rewrite get_run, Hv, Hdot.
    + rewrite get_by_finid_run, Hv2. reflexivity.
    + rewrite get_by_mic_run, Hv2. reflexivity.
Qed.

(** A FinID without a dot, and the empty text where the validation
    refuses it. *)
Lemma lookups_validate_first_witness :
  @get_by_finid Sample.env Sample.db "NODOT" true world0 = (Raise InvalidArgument, world0)
  /\ @get_by_mic Sample.strict_env Sample.db "" true world0
     = (Raise InvalidArgument, world0)
  /\ @get Sample.strict_env Sample.db "" true world0 = (Raise InvalidArgument, world0).
Proof.
  split; [|split].
  - apply (proj1 (@lookups_validate_first Sample.env Sample.db "NODOT" true world0
                    InvalidArgument)).
    reflexivity.
  - apply (proj1 (proj2 (@lookups_validate_first Sample.strict_env Sample.db "" true
                           world0 InvalidArgument))).
    reflexivity.
  - apply (proj1 (proj2 (proj2 (@lookups_validate_first Sample.strict_env Sample.db ""
                                  true world0 InvalidArgument)))).
    reflexivity.
Defined.

(** X3. What [get] returns is a row that [list_all] lists. A run of [get]
    reads at most three times, [mic_mappings] at most once and before
    [markets], and it prints and yields nothing. *)
Theorem get_returns_a_listed_market `{Externals} (db : Store) (identifier : string)
    (follow : bool) (w : world) (r : result (option Market)) (w' : world) :
  get db identifier follow w = (r, w') ->
  r <> OutOfFuel
  /\ printed w' = printed w /\ yielded w' = yielded w
  /\ (exists qs, queries w' = (queries w ++ qs)%list
                 /\ In qs [[]; [Markets]; [Markets; Markets]; [MicMappings];
                           [MicMappings; Markets]; [MicMappings; Markets; Markets]])
  /\ (forall m, r = Ok (Some m) ->
      forall w0, exists ms, list_all db w0 = (Ok ms, logged Markets w0) /\ In m ms).
Proof.
  rewrite get_run.
  assert (Hfinid : forall x w1 r1 w1',
             get_by_finid db x follow w1 = (r1, w1') ->
             forall m, r1 = Ok (Some m) ->
             forall w0, exists ms, list_all db w0 = (Ok ms, logged Markets w0) /\ In m ms).
  { intros x w1 r1 w1' Hrun m -> w0.
    apply get_by_finid_sound in Hrun as (f & _ & Hin & _).
    exists (markets db). split; [reflexivity|exact Hin]. }
  destruct (validate_str_arg "identifier" identifier) as [x|e].
  - destruct (Py.contains "." x).
    + intros Hrun. pose proof (Hfinid _ _ _ _ Hrun) as Hlisted.
      apply get_by_finid_reads in Hrun as (Hfuel & Hp & Hy & qs & Hq & Hqs).
      split; [exact Hfuel|]. split; [exact Hp|]. split; [exact Hy|].
      split; [|exact Hlisted].
      exists qs. split; [exact Hq|]. cbn in Hqs |- *. intuition auto.
    + rewrite get_by_mic_run.
      destruct (validate_str_arg "mic" x) as [mic'|e].
      * destruct (mappings_with db mic') as [|mapping [|mapping' rows]].
        -- intros [= <- <-]. split; [discriminate|].
           split; [reflexivity|]. split; [reflexivity|]. split; [|intros m [=]].
           exists [MicMappings]. split; [reflexivity|]. cbn. auto.
        -- intros Hrun. pose proof (Hfinid _ _ _ _ Hrun) as Hlisted.
           apply get_by_finid_reads in Hrun as (Hfuel & Hp & Hy & qs & Hq & Hqs).
           split; [exact Hfuel|]. split; [exact Hp|]. split; [exact Hy|].
           split; [|exact Hlisted].
           exists (MicMappings :: qs). cbn in Hq. rewrite <- app_assoc in Hq.
           split; [exact Hq|].
           cbn in Hqs |- *.
           destruct Hqs as [<-|[<-|[<-|[]]]]; auto 10.
        -- intros [= <- <-]. split; [discriminate|].
           split; [reflexivity|]. split; [reflexivity|]. split; [|intros m [=]].
           exists [MicMappings]. split; [reflexivity|]. cbn. auto.
      * intros [= <- <-]. split; [discriminate|].
        split; [reflexivity|]. split; [reflexivity|]. split; [|intros m [=]].
        exists []. rewrite app_nil_r. split; [reflexivity|]. cbn. auto.
  - intros [= <- <-]. split; [discriminate|].
    split; [reflexivity|]. split; [reflexivity|]. split; [|intros m [=]].
    exists []. rewrite app_nil_r. split; [reflexivity|]. cbn. auto.
Qed.

(** The MIC of the replaced market in lower case: one query of the
    mappings, two of the markets. *)
Lemma get_returns_a_listed_market_witness :
  fst (@get Sample.env Sample.db "xold" true world0) = Ok (Some Sample.demo)
  /\ queries (snd (@get Sample.env Sample.db "xold" true world0))
     = [MicMappings; Markets; Markets]
  /\ exists ms, @list_all Sample.db world0 = (Ok ms, logged Markets world0)
                /\ In Sample.demo ms.
Proof.
  split; [vm_compute; reflexivity|]. split; [vm_compute; reflexivity|].
  exact (proj2 (proj2 (proj2 (proj2
           (@get_returns_a_listed_market Sample.env Sample.db "xold" true world0
              _ _ (surjective_pairing _))))) Sample.demo
           ltac:(vm_compute; reflexivity) world0).
Defined.

(** ** The holidays of a market *)

Lemma holiday_on_in `{Externals} rows d r :
  holiday_on rows d = Some r -> In r rows /\ date_fromisoformat (h_date r) = Some d.
Proof.
  induction rows as [|x rest IH]; cbn; [discriminate|].
  destruct (holiday_on rest d) as [later|].
  - intros [= <-]. destruct (IH eq_refl) as [Hin Hd]. split; [right|]; assumption.
  - destruct (date_fromisoformat (h_date x)) as [k|] eqn:Hk; [|discriminate].
    destruct (Z.eqb_spec k d) as [->|]; [|discriminate].
    intros [= <-]. split; [left; reflexivity|exact Hk].
Qed.

Lemma holiday_on_some `{Externals} rows d r :
  In r rows -> date_fromisoformat (h_date r) = Some d ->
  exists r', holiday_on rows d = Some r'.
Proof.
  induction rows as [|x rest IH]; cbn; [intros []|].
  intros [->|Hin] Hd.
  - destruct (holiday_on rest d) as [later|]; [eauto|].
    rewrite Hd, Z.eqb_refl. eauto.
  - destruct (IH Hin Hd) as [r' ->]. eauto.
Qed.

(** The dictionary of the holidays is built row by row; the first row
    whose date does not parse ends it with a [ValueError]. *)
Lemma holidays_as_dict_run `{Externals} rows : forall d0 w,
  holidays_as_dict rows d0 w
  = (if forallb holiday_parses rows then Ok (holidays_dict rows d0) else Raise ValueError,
     w).
Proof.
  induction rows as [|r rest IH]; intros d0 w; cbn; [reflexivity|].
  unfold holiday_parses at 1. unfold bind, of_option.
  destruct (date_fromisoformat (h_date r)) as [key|]; cbn; [|reflexivity].
  rewrite IH. destruct (forallb holiday_parses rest); reflexivity.
Qed.

Lemma holidays_dict_lookup `{Externals} rows : forall d0 k,
  holidays_dict rows d0 !! k =
  match holiday_on rows k with
  | Some r => Some r
  | None => d0 !! k
  end.
Proof.
  induction rows as [|r rest IH]; intros d0 k; cbn; [reflexivity|].
  destruct (date_fromisoformat (h_date r)) as [key|]; rewrite IH;
    destruct (holiday_on rest k); try reflexivity.
  destruct (Z.eqb_spec key k) as [->|Hne].
  - apply lookup_insert_eq.
  - apply lookup_insert_ne. exact Hne.
Qed.

Lemma holidays_dict_on `{Externals} rows k :
  holidays_dict rows ∅ !! k = holiday_on rows k.
Proof.
  rewrite holidays_dict_lookup. destruct (holiday_on rows k); [reflexivity|].
  apply lookup_empty.
Qed.

(** X4. [list_holidays] in its list form returns, in the order of the
    table and after one query of it, the holiday rows of the market's
    FinID whose date text lies between the ISO forms of the two validated
    dates. For rows dated in ISO form these are the rows of the market
    dated from [start] to [end], both days included. *)
Theorem list_holidays_in_range `{Externals} (db : Store) (self : Market)
    (start end_ : StrOrDate) (first last : Date.t) (w : world) :
  validated_range start end_ = Accept (first, last) ->
  Date.valid first -> Date.valid last ->
  exists rows,
    list_holidays db self start end_ false w = (Ok (inl rows), logged MarketHolidays w)
    /\ sublist rows (market_holidays db)
    /\ (forall r, In r rows -> h_fin_id r = m_fin_id self)
    /\ (forall r d,
          In r (market_holidays db) -> h_fin_id r = m_fin_id self ->
          Date.valid d -> h_date r = Date.isoformat d ->
          (In r rows <-> first <= d <= last)).
Proof.
  intros Hv Hfirst Hlast. exists (holidays_between db self first last).
  split; [rewrite list_holidays_run, Hv; reflexivity|].
  unfold holidays_between. split; [apply filter_sublist|]. split.
  - intros r [_ Hr]%filter_In.
    apply andb_prop in Hr as [Hr _]. apply andb_prop in Hr as [Hr _].
    apply str_eq_true, Hr.
  - intros r d Hin Hfin Hd Hiso. rewrite filter_In, Hiso.
    unfold Py.str_ge. rewrite !isoformat_le by assumption.
    apply str_eq_true in Hfin. rewrite Hfin. cbn.
    rewrite andb_true_iff, !Z.leb_le. tauto.
Qed.

(** From 2024-11-29 to 2024-12-24: the holiday of the first day is in,
    Christmas Day is not. *)
Lemma list_holidays_in_range_witness :
  exists rows,
    @list_holidays Sample.env Sample.db Sample.demo (Str "2024-11-29") (Str "2024-12-24")
      false world0 = (Ok (inl rows), logged MarketHolidays world0)
    /\ In (Sample.holiday_row "2024-11-29" "Day after Thanksgiving" "Partial" "Open") rows
    /\ ~ In (Sample.holiday_row "2024-12-25" "Christmas Day" "Closed" "Closed") rows.
Proof.
  destruct (@list_holidays_in_range Sample.env Sample.db Sample.demo
              (Str "2024-11-29") (Str "2024-12-24") 739219 739244 world0
              ltac:(vm_compute; reflexivity)
              ltac:(unfold Date.valid, Date.max_ordinal; lia)
              ltac:(unfold Date.valid, Date.max_ordinal; lia))
    as (rows & Hrun & _ & _ & Hdate).
  exists rows. split; [exact Hrun|]. split.
  - apply (Hdate _ 739219);
      [left; reflexivity|reflexivity|unfold Date.valid, Date.max_ordinal; lia
      |vm_compute; reflexivity|lia].
  - intros Hin. apply (Hdate _ 739245) in Hin;
      [lia|right; left; reflexivity|reflexivity
      |unfold Date.valid, Date.max_ordinal; lia|vm_compute; reflexivity].
Defined.

(** X5. [list_holidays] with [as_dict] returns a dictionary of the rows
    of the list form, keyed by their parsed dates: the key of an entry is
    the date of its row, the date of every row is a key, and of several
    rows with one date the last one stays. A row whose date does not parse
    makes it raise [ValueError], after the query. *)
Theorem holidays_dict_keeps_last_row `{Externals} (db : Store) (self : Market)
    (start end_ : StrOrDate) (first last : Date.t) (w : world) :
  validated_range start end_ = Accept (first, last) ->
  let rows := holidays_between db self first last in
  (forallb holiday_parses rows = true ->
   exists dict,
     list_holidays db self start end_ true w = (Ok (inr dict), logged MarketHolidays w)
     /\ (forall d, dict !! d = holiday_on rows d)
     /\ (forall d r, dict !! d = Some r ->
         In r rows /\ date_fromisoformat (h_date r) = Some d)
     /\ (forall r d, In r rows -> date_fromisoformat (h_date r) = Some d ->
         exists r', dict !! d = Some r'))
  /\ (forallb holiday_parses rows = false ->
      list_holidays db self start end_ true w
      = (Raise ValueError, logged MarketHolidays w)).
Proof.
  intros Hv rows.
  split; intros Hparse; rewrite list_holidays_run, Hv, holidays_as_dict_run;
    fold rows; rewrite Hparse; [|reflexivity].
  exists (holidays_dict rows ∅). split; [reflexivity|].
  split; [apply holidays_dict_on|]. split.
  - intros d r. rewrite holidays_dict_on. apply holiday_on_in.
  - intros r d Hin Hd. rewrite holidays_dict_on. eapply holiday_on_some; eassumption.
Qed.

(** November and December 2024: the holiday of 2024-11-29 is under its
    date, the day after has no entry. *)
Lemma holidays_dict_keeps_last_row_witness :
  exists dict,
    @list_holidays Sample.env Sample.db Sample.demo (Str "2024-11-01") (Str "2024-12-31")
      true world0 = (Ok (inr dict), logged MarketHolidays world0)
    /\ dict !! 739219
       = Some (Sample.holiday_row "2024-11-29" "Day after Thanksgiving" "Partial" "Open")
    /\ dict !! 739220 = None.
Proof.
  destruct (proj1 (@holidays_dict_keeps_last_row Sample.env Sample.db Sample.demo
                     (Str "2024-11-01") (Str "2024-12-31") 739191 739251 world0
                     ltac:(vm_compute; reflexivity))
              ltac:(vm_compute; reflexivity))
    as (dict & Hrun & Hon & _).
  exists dict. split; [exact Hrun|].
  rewrite !Hon. split; vm_compute; reflexivity.
Defined.

(** ** The schedules of a market *)

Lemma columns_le_cons x a y b :
  columns_le (x :: a) (y :: b) =
  if Py.str_eq x y then columns_le a b else Py.str_le x y.
Proof.
  unfold columns_le. cbn. unfold Py.str_eq. rewrite (String.eqb_sym y x).
  destruct (String.eqb x y); [reflexivity|].
  rewrite str_lt_not_le, negb_involutive. reflexivity.
Qed.

Lemma columns_le_total a : forall b, columns_le a b = true \/ columns_le b a = true.
Proof.
  induction a as [|x a IH]; intros [|y b]; try (left; reflexivity);
    try (right; reflexivity).
  rewrite !columns_le_cons. unfold Py.str_eq. rewrite (String.eqb_sym y x).
  destruct (String.eqb x y); [apply IH|apply str_le_total].
Qed.

Lemma columns_le_trans a : forall b c,
  columns_le a b = true -> columns_le b c = true -> columns_le a c = true.
Proof.
  induction a as [|x a IH]; intros [|y b] [|z c]; try reflexivity;
    try (intros; discriminate).
  rewrite !columns_le_cons. unfold Py.str_eq.
  destruct (String.eqb_spec x y) as [Hxy|Hxy],
           (String.eqb_spec y z) as [Hyz|Hyz],
           (String.eqb_spec x z) as [Hxz|Hxz];
    intros H1 H2; try congruence.
  - eapply IH; eassumption.
  - exfalso. apply Hxy. apply str_le_antisym; [exact H1|]. rewrite Hxz. exact H2.
  - eapply str_le_trans; eauto.
Qed.

Lemma schedules_of_in db self s :
  In s (schedules_of db self) <-> In s (schedules db) /\ s_fin_id s = m_fin_id self.
Proof.
  unfold schedules_of. split.
  - intros Hin. apply (Permutation_in _ (sorted_perm _ _ _)) in Hin.
    apply filter_In in Hin as [Hin Heq]. split; [exact Hin|]. apply str_eq_true, Heq.
  - intros [Hin Heq]. apply (Permutation_in _ (Permutation_sym (sorted_perm _ _ _))).
    apply filter_In. split; [exact Hin|]. apply str_eq_true, Heq.
Qed.

(** X6. [list_schedules] returns the schedule rows of the market's FinID
    and no others, each as often as the table holds it, in ascending
    order of schedule group, in-force start date, season start, start and
    end, the columns compared in this order as texts (an empty one
    first); it reads [schedules] once. *)
Theorem list_schedules_sorted `{Externals} (db : Store) (self : Market) (w : world) :
  exists rows,
    list_schedules db self w = (Ok rows, logged Schedules w)
    /\ Permutation rows
         (List.filter (fun r => Py.str_eq (s_fin_id r) (m_fin_id self)) (schedules db))
    /\ (forall r, In r rows <-> In r (schedules db) /\ s_fin_id r = m_fin_id self)
    /\ StronglySorted
         (fun a b => columns_le (order_columns a) (order_columns b) = true) rows.
Proof.
  exists (schedules_of db self). split; [apply list_schedules_run|].
  split; [apply sorted_perm|]. split; [apply schedules_of_in|].
  eapply strongly_sorted_impl; [|apply (sorted_sorted columns_lt order_columns)].
  - intros x y _ _ Hlt. unfold columns_le. rewrite Hlt. reflexivity.
  - intros a b.
    destruct (columns_le_total (order_columns a) (order_columns b)) as [Hab|Hba];
      [left|right]; unfold columns_le in *; apply negb_true_iff; assumption.
  - intros a b c Hab Hbc.
    apply negb_true_iff. apply negb_true_iff in Hab, Hbc.
    exact (columns_le_trans _ _ _ Hab Hbc).
Qed.

(** ** One schedule on one date *)

Lemma emit_phase_ok `{Externals} types start d s w w' :
  emit_phase types start d s w = (Ok tt, w') ->
  w' = pushed w (phase_of types start d s) /\ emits types start d s.
Proof.
  unfold emit_phase, phase_of, emits, emission_of, bind, of_option, Date.add_days.
  destruct (py_int _) as [offset|]; [|discriminate]. cbn.
  destruct (Date.validb (d + offset)); [|discriminate]. cbn.
  unfold Date.leb. destruct (Z.leb_spec start (d + offset)) as [Hle|Hgt].
  - destruct (time_fromisoformat (s_start s)) as [st|]; [|discriminate]. cbn.
    destruct (time_fromisoformat (s_end s)) as [et|]; [|discriminate]. cbn.
    destruct (ZoneInfo _) as [zone|]; [|discriminate]. cbn.
    destruct (types !! _) as [pt|]; [|discriminate]. cbn.
    destruct (Z.leb_spec start (d + offset)); [|lia].
    intros [= <-]. split; [reflexivity|].
    exists offset. split; [reflexivity|]. intros _. eexists. reflexivity.
  - intros [= <-]. split.
    + destruct (time_fromisoformat (s_start s)), (time_fromisoformat (s_end s)),
        (ZoneInfo (s_timezone s)), (types !! s_phase_type s); cbn;
        try (destruct (Z.leb_spec start (d + offset)); [lia|]);
        rewrite pushed_nil; reflexivity.
    + exists offset. split; [reflexivity|]. lia.
Qed.

Lemma for_each_emit_ok `{Externals} types start d l : forall w w',
  for_each l (emit_phase types start d) w = (Ok tt, w') ->
  w' = pushed w (flat_map (phase_of types start d) l)
  /\ Forall (emits types start d) l.
Proof.
  induction l as [|s l IH]; cbn; intros w w'.
  - intros [= <-]. rewrite pushed_nil. split; [reflexivity|constructor].
  - unfold bind at 1.
    destruct (emit_phase types start d s w) as [[[]|e|] w1] eqn:Hs; try discriminate.
    intros Hrest. apply emit_phase_ok in Hs as (-> & Hemits).
    apply IH in Hrest as (-> & Hall).
    rewrite pushed_app. split; [reflexivity|]. constructor; assumption.
Qed.

(** ** The schedules of one date *)

Lemma lower_ascii_idem c : Py.lower_ascii (Py.lower_ascii c) = Py.lower_ascii c.
Proof. destruct c as [[] [] [] [] [] [] [] []]; reflexivity. Qed.

Lemma lower_idem s : Py.lower (Py.lower s) = Py.lower s.
Proof.
  induction s as [|c s IH]; cbn; [reflexivity|].
  rewrite lower_ascii_idem. f_equal. exact IH.
Qed.

Lemma first_nonempty_in {A} (ls : list (list A)) (x : A) :
  In x (first_nonempty ls) -> exists l, In l ls /\ In x l.
Proof.
  induction ls as [|l ls IH]; cbn; [intros []|].
  destruct l as [|y l]; cbn.
  - intros Hx. destruct (IH Hx) as (k & Hk & Hin). exists k. auto.
  - intros Hx. exists (y :: l). auto.
Qed.

(** The group of a date and whether the fallback is allowed, read off the
    holiday rows. *)
Lemma pick_schedule_group_on `{Externals} rows d :
  _pick_schedule_group d (holidays_dict rows ∅) =
  match holiday_on rows d with
  | Some h => (Py.lower (h_schedule h), is_group_open (Py.lower (h_schedule h)))
  | None => ("regular", false)
  end.
Proof.
  unfold _pick_schedule_group. rewrite holidays_dict_on.
  destruct (holiday_on rows d); reflexivity.
Qed.

Section Selection.
Context `{Externals} (db : Store) (all_schedules : list Schedule)
  (holidays : gmap Z MarketHoliday) (d : Date.t).

Lemma before_weekdays_on_in s :
  In s (before_weekdays_on db all_schedules holidays d) <->
  In s all_schedules
  /\ Py.lower (s_schedule_group s) = Py.lower (fst (_pick_schedule_group d holidays))
  /\ is_in_force s (Date.isoformat d) (Date.isoformat d) = true
  /\ season_kept db d s = true.
Proof using Type.
  unfold before_weekdays_on, _filter_inforce, _filter_schedule_group.
  rewrite !filter_In, str_eq_true. tauto.
Qed.

Lemma found_on_sound s :
  In s (found_on db all_schedules holidays d) ->
  In s (before_weekdays_on db all_schedules holidays d)
  /\ (weekdays_match (s_days s) (Date.weekday d) = true
      \/ (snd (_pick_schedule_group d holidays) = true
          /\ weekdays_match (s_days s) (Date.weekday d) = false
          /\ exists k, In k (earlier_weekdays (Date.weekday d))
                       /\ weekdays_match (s_days s) k = true)).
Proof using Type.
  unfold found_on. intros Hin.
  apply (Permutation_in _ (sorted_perm Py.pair_lt schedule_key _)) in Hin.
  destruct (is_nil _ && _) eqn:Hfb.
  - apply andb_prop in Hfb as [Hnil Hfb].
    unfold adopted_of in Hin. apply first_nonempty_in in Hin as (l & Hl & Hin).
    apply in_map_iff in Hl as (k & <- & Hk).
    unfold _filter_weekdays in Hin. apply filter_In in Hin as [Hbefore Hmatch].
    split; [exact Hbefore|]. right. split; [exact Hfb|]. split; [|eauto].
    destruct (weekdays_match (s_days s) (Date.weekday d)) eqn:Htoday; [|reflexivity].
    assert (Hs : In s (_filter_weekdays (Date.weekday d)
                         (before_weekdays_on db all_schedules holidays d))).
    { unfold _filter_weekdays. apply filter_In. split; assumption. }
    destruct (_filter_weekdays (Date.weekday d) _); [destruct Hs|discriminate].
  - unfold _filter_weekdays in Hin. apply filter_In in Hin as [Hbefore Hmatch].
    split; [exact Hbefore|]. left. exact Hmatch.
Qed.

Lemma found_on_complete s :
  In s (before_weekdays_on db all_schedules holidays d) ->
  weekdays_match (s_days s) (Date.weekday d) = true ->
  In s (found_on db all_schedules holidays d).
Proof using Type.
  intros Hbefore Hmatch. unfold found_on.
  apply (Permutation_in _ (Permutation_sym (sorted_perm Py.pair_lt schedule_key _))).
  assert (Hs : In s (_filter_weekdays (Date.weekday d)
                       (before_weekdays_on db all_schedules holidays d))).
  { unfold _filter_weekdays. apply filter_In. split; assumption. }
  destruct (_filter_weekdays (Date.weekday d) _) eqn:Hf; [destruct Hs|].
  cbn. exact Hs.
Qed.

End Selection.

(** One turn of the loop over the dates, with its filters read as pure
    functions. *)
Lemma phases_of_date_unfold `{Externals} db all_schedules holidays types start d w :
  phases_of_date db all_schedules holidays types start d w =
  match _filter_season db d
          (_filter_inforce (Date.isoformat d)
             (_filter_schedule_group (fst (_pick_schedule_group d holidays))
                all_schedules)) w with
  | (Ok before, w1) =>
      for_each
        (Py.sorted Py.pair_lt schedule_key
           (if is_nil (_filter_weekdays (Date.weekday d) before)
               && snd (_pick_schedule_group d holidays)
            then adopted_of (Date.weekday d) before
            else _filter_weekdays (Date.weekday d) before))
        (emit_phase types start d) w1
  | (Raise e, w1) => (Raise e, w1)
  | (OutOfFuel, w1) => (OutOfFuel, w1)
  end.
Proof.
  unfold phases_of_date.
  destruct (_pick_schedule_group d holidays) as [schedule_group fallback]. cbn [fst snd].
  unfold bind at 1.
  destruct (_filter_season db d _ w) as [[before|e|] w1]; try reflexivity.
  unfold bind at 1. rewrite found_schedules_of_run by apply weekday_range.
  reflexivity.
Qed.

Lemma phases_of_date_selected `{Externals} db all_schedules holidays types start d
    w r w' :
  phases_of_date db all_schedules holidays types start d w = (r, w') ->
  exists es,
    yielded w' = (yielded w ++ map e_phase es)%list
    /\ printed w' = printed w
    /\ Forall (fun em => emitted_on types start d em
                         /\ In (e_schedule em) (found_on db all_schedules holidays d)) es.
Proof.
  rewrite phases_of_date_unfold.
  destruct (_filter_season db d _ w) as [[before|e|] w1] eqn:Hseason.
  - apply filter_season_ok in Hseason as (-> & _ & Hp & Hy).
    fold (before_weekdays_on db all_schedules holidays d).
    fold (found_on db all_schedules holidays d).
    intros Hrun. apply for_each_emit in Hrun as (_ & es & -> & Hsub & Hall).
    exists es. cbn. rewrite Hy, Hp. split; [reflexivity|]. split; [reflexivity|].
    rewrite List.Forall_forall in Hall |- *. intros em Hem.
    split; [apply Hall, Hem|].
    apply list_elem_of_In. apply (sublist_subseteq _ _ Hsub).
    apply list_elem_of_In. apply in_map. exact Hem.
  - apply filter_season_frame in Hseason as (_ & Hp & Hy).
    intros [= <- <-]. exists []. cbn. rewrite app_nil_r.
    split; [assumption|]. split; [assumption|constructor].
  - apply filter_season_frame in Hseason as (Hf & _). contradiction.
Qed.

Lemma phases_of_date_ok `{Externals} db all_schedules holidays types start d w w' :
  phases_of_date db all_schedules holidays types start d w = (Ok tt, w') ->
  yielded w' = (yielded w
                ++ flat_map (phase_of types start d)
                     (found_on db all_schedules holidays d))%list
  /\ Forall (emits types start d) (found_on db all_schedules holidays d).
Proof.
  rewrite phases_of_date_unfold.
  destruct (_filter_season db d _ w) as [[before|e|] w1] eqn:Hseason; try discriminate.
  apply filter_season_ok in Hseason as (-> & _ & Hp & Hy).
  fold (before_weekdays_on db all_schedules holidays d).
  fold (found_on db all_schedules holidays d).
  intros Hrun. apply for_each_emit_ok in Hrun as (-> & Hall).
  cbn. rewrite Hy. split; [reflexivity|exact Hall].
Qed.

(** ** The loop over the dates *)

Section DateLoop.
Context `{Externals} (db : Store) (all_schedules : list Schedule)
  (holidays : gmap Z MarketHoliday) (types : gmap string PhaseType)
  (start end_ : Date.t).

(** Whatever way the loop ends, each phase it yielded comes from a
    schedule found on a date it went through. *)
Lemma date_loop_selected : forall fuel current_date w r w',
  date_loop db fuel all_schedules holidays types start end_ current_date w = (r, w') ->
  exists es,
    yielded w' = (yielded w ++ map e_phase es)%list
    /\ printed w' = printed w
    /\ Forall (fun em =>
         current_date <= e_date em <= end_
         /\ emitted_on types start (e_date em) em
         /\ In (e_schedule em) (found_on db all_schedules holidays (e_date em))) es.
Proof using Type.
  induction fuel as [|fuel IH]; intros current_date w r w';
    cbn [date_loop]; unfold Date.leb;
    destruct (Z.leb_spec current_date end_) as [Hle|Hgt];
    try (intros [= <- <-]; exists []; cbn; rewrite app_nil_r;
         split; [reflexivity|]; split; [reflexivity|constructor]).
  unfold bind at 1.
  destruct (phases_of_date db all_schedules holidays types start current_date w)
    as [r1 w1] eqn:Hdate.
  apply phases_of_date_selected in Hdate as (es1 & Hy1 & Hp1 & Hes1).
  assert (Hes1' : Forall (fun em =>
            current_date <= e_date em <= end_
            /\ emitted_on types start (e_date em) em
            /\ In (e_schedule em) (found_on db all_schedules holidays (e_date em))) es1).
  { eapply List.Forall_impl; [|exact Hes1]. cbn. intros em [Hon Hin].
    assert (Hd : e_date em = current_date).
    { destruct Hon as [Hem _]. apply emission_of_fields in Hem. tauto. }
    rewrite Hd. split; [lia|]. split; assumption. }
  destruct r1 as [[]|e|]; try (intros [= <- <-]; exists es1; auto).
  unfold bind at 1, of_option, Date.add_days.
  destruct (Date.validb (current_date + 1)); cbn;
    [|intros [= <- <-]; exists es1; auto].
  intros Hrest. apply IH in Hrest as (es2 & Hy2 & Hp2 & Hes2).
  exists (es1 ++ es2)%list. rewrite Hy2, Hy1, Hp2, Hp1, map_app, app_assoc.
  split; [reflexivity|]. split; [reflexivity|].
  apply Forall_app. split; [exact Hes1'|].
  eapply List.Forall_impl; [|exact Hes2]. cbn. intros em (? & ? & ?).
  split; [lia|]. split; assumption.
Qed.

Lemma dates_from_succ first n :
  dates_from first (S n) = first :: dates_from (first + 1) n.
Proof using Type.
  unfold dates_from. cbn [seq map]. rewrite <- seq_shift, map_map.
  f_equal; [lia|]. apply map_ext. intros k. lia.
Qed.

Lemma in_dates_from first n d :
  In d (dates_from first n) <-> first <= d < first + Z.of_nat n.
Proof using Type.
  unfold dates_from. rewrite in_map_iff. split.
  - intros (k & <- & Hk). apply in_seq in Hk. lia.
  - intros Hd. exists (Z.to_nat (d - first)). split; [lia|]. apply in_seq. lia.
Qed.

(** When the loop ends normally it went through every date up to the
    end, and yielded the phases of the schedules found on each. *)
Lemma date_loop_ok : forall fuel current_date w w',
  date_loop db fuel all_schedules holidays types start end_ current_date w = (Ok tt, w') ->
  yielded w' =
    (yielded w
     ++ flat_map (fun d => flat_map (phase_of types start d)
                             (found_on db all_schedules holidays d))
          (dates_from current_date (Z.to_nat (end_ - current_date + 1))))%list
  /\ forall d, current_date <= d <= end_ ->
       Forall (emits types start d) (found_on db all_schedules holidays d).
Proof using Type.
  induction fuel as [|fuel IH]; intros current_date w w';
    cbn [date_loop]; unfold Date.leb;
    destruct (Z.leb_spec current_date end_) as [Hle|Hgt];
    try discriminate;
    try (intros [= <-];
         replace (Z.to_nat (end_ - current_date + 1)) with O by lia;
         cbn; rewrite app_nil_r; split; [reflexivity|intros; lia]).
  unfold bind at 1.
  destruct (phases_of_date db all_schedules holidays types start current_date w)
    as [[[]|e|] w1] eqn:Hdate; try discriminate.
  apply phases_of_date_ok in Hdate as (Hy1 & Hall1).
  unfold bind at 1, of_option, Date.add_days.
  destruct (Date.validb (current_date + 1)); cbn; [|discriminate].
  intros Hrest. apply IH in Hrest as (Hy2 & Hall2).
  replace (Z.to_nat (end_ - current_date + 1))
    with (S (Z.to_nat (end_ - (current_date + 1) + 1))) by lia.
  rewrite dates_from_succ. cbn [flat_map].
  rewrite Hy2, Hy1, <- app_assoc. split; [reflexivity|].
  intros d Hd. destruct (Z.eq_dec d current_date) as [->|Hne]; [exact Hall1|].
  apply Hall2. lia.
Qed.

End DateLoop.

(** With the last day of the calendar as its end, the loop cannot step
    past its last date. *)
Lemma date_loop_at_max `{Externals} db all_schedules holidays types start :
  forall fuel current_date w r w',
  current_date <= Date.max_ordinal ->
  date_loop db fuel all_schedules holidays types start Date.max_ordinal current_date w
  = (r, w') ->
  r <> Ok tt.
Proof.
  induction fuel as [|fuel IH]; intros current_date w r w' Hmax;
    cbn [date_loop]; unfold Date.leb;
    destruct (Z.leb_spec current_date Date.max_ordinal) as [Hle|Hgt]; try lia.
  - intros [= <- <-]. discriminate.
  - unfold bind at 1.
    destruct (phases_of_date db all_schedules holidays types start current_date w)
      as [[[]|e|] w1]; try (intros [= <- <-]; discriminate).
    unfold bind at 1, of_option, Date.add_days, Date.validb.
    destruct (Z.leb_spec (current_date + 1) Date.max_ordinal) as [Hnext|Hlast];
      rewrite ?andb_false_r, ?andb_true_r.
    + destruct (1 <=? current_date + 1); cbn.
      * apply IH. exact Hnext.
      * intros [= <- <-]. discriminate.
    + cbn. intros [= <- <-]. discriminate.
Qed.

(** ** The steps of [generate_phases] *)

Lemma generate_phases_between_steps `{Externals} db self first last w :
  generate_phases_between db self first last w =
  let offset_start := first - MAX_OFFSET_DAYS in
  let w1 := logged PhaseTypes (announced first last w) in
  if Date.validb offset_start then
    match list_holidays db self (Dt offset_start) (Dt last) true (logged Schedules w1) with
    | (Ok (inr holidays), w3) =>
        date_loop db (Z.to_nat (last - offset_start + 1)) (schedules_of db self) holidays
          (phase_types_dict_of db) first last offset_start w3
    | (Ok (inl _), w3) => (Raise AttributeError, w3)
    | (Raise e, w3) => (Raise e, w3)
    | (OutOfFuel, w3) => (OutOfFuel, w3)
    end
  else (Raise OverflowError, w1).
Proof.
  unfold generate_phases_between.
  unfold bind at 1. cbn [print]. fold (announced first last w).
  unfold bind at 1. unfold PhaseType_as_dict at 1, query, query_log, bind, ret. cbn.
  fold (phase_types_dict_of db). fold (logged PhaseTypes (announced first last w)).
  unfold of_option, Date.add_days.
  change (first + - MAX_OFFSET_DAYS) with (first - MAX_OFFSET_DAYS).
  destruct (Date.validb (first - MAX_OFFSET_DAYS)); cbn; [|reflexivity].
  fold order_columns. fold (schedules_of db self).
  match goal with
  | |- context [list_holidays db self ?a ?b true ?w0] =>
      change w0 with (logged Schedules (logged PhaseTypes (announced first last w)));
      destruct (list_holidays db self a b true
                  (logged Schedules (logged PhaseTypes (announced first last w))))
        as [[[l|holidays]|x|] w3]
  end; reflexivity.
Qed.

(** The same when the validation inside [list_holidays] passes the two
    dates of the scan. *)
Lemma generate_phases_between_window `{Externals} db self first last w :
  let offset_start := first - MAX_OFFSET_DAYS in
  let rows := holidays_between db self offset_start last in
  let w1 := logged PhaseTypes (announced first last w) in
  let w3 := logged MarketHolidays (logged Schedules w1) in
  validated_range (Dt offset_start) (Dt last) = Accept (offset_start, last) ->
  generate_phases_between db self first last w =
  if Date.validb offset_start then
    if forallb holiday_parses rows then
      date_loop db (Z.to_nat (last - offset_start + 1)) (schedules_of db self)
        (holidays_dict rows ∅) (phase_types_dict_of db) first last offset_start w3
    else (Raise ValueError, w3)
  else (Raise OverflowError, w1).
Proof.
  intros offset_start rows w1 w3 Hwin.
  rewrite generate_phases_between_steps. cbv zeta. fold offset_start w1.
  destruct (Date.validb offset_start); [|reflexivity].
  rewrite list_holidays_run, Hwin, holidays_as_dict_run. fold rows.
  destruct (forallb holiday_parses rows); reflexivity.
Qed.

(** X8. [generate_phases] prints one line, and only once the arguments
    are validated: a run with rejected arguments raises and prints
    nothing; a run with validated dates prints the line with the two dates
    in ISO form and nothing else, however it ends. *)
Theorem generate_phases_prints_its_window `{Externals} (db : Store) (self : Market)
    (start end_ : StrOrDate) (w : world) (r : result unit) (w' : world) :
  generate_phases db self start end_ w = (r, w') ->
  match validated_range start end_ with
  | Accept (first, last) =>
      printed w' =
      (printed w ++ ["generating phases between " +:+ Date.isoformat first
                     +:+ " and " +:+ Date.isoformat last])%list
  | Reject x => r = Raise x /\ w' = w
  end.
Proof.
  rewrite generate_phases_run.
  destruct (validated_range start end_) as [[first last]|x];
    [|intros [= <- <-]; split; reflexivity].
  rewrite generate_phases_between_steps. cbv zeta.
  destruct (Date.validb _); [|intros [= <- <-]; reflexivity].
  destruct (list_holidays db self _ _ true _) as [[[l|holidays]|x|] w3] eqn:Hh;
    apply list_holidays_frame in Hh as (_ & Hp & _); cbn in Hp;
    try (intros [= <- <-]; exact Hp).
  intros Hloop. apply date_loop_selected in Hloop as (es & _ & Hp' & _).
  rewrite Hp'. exact Hp.
Qed.

Lemma generate_phases_prints_its_window_witness :
  printed (snd (@generate_phases Sample.env Sample.db Sample.demo
                  (Str "2024-02-06") (Str "2024-02-07") world0))
  = ["generating phases between 2024-02-06 and 2024-02-07"].
Proof.
  exact (@generate_phases_prints_its_window Sample.env Sample.db Sample.demo
           (Str "2024-02-06") (Str "2024-02-07") world0 _ _ (surjective_pairing _)).
Defined.

(** X9. [generate_phases] at the bounds of the calendar. When the start
    is one of the first two days of the calendar, the date two days
    before it does not exist: the run raises [OverflowError] and yields
    nothing. When the end is the last day of the calendar, the run never
    ends normally: after the last date the loop steps to the day after,
    which does not exist, so a run that did not fail before raises
    there. *)
Theorem generate_phases_at_the_calendar_bounds `{Externals} (db : Store) (self : Market)
    (start end_ : StrOrDate) (first last : Date.t) (w : world) (r : result unit)
    (w' : world) :
  validated_range start end_ = Accept (first, last) ->
  generate_phases db self start end_ w = (r, w') ->
  (first <= MAX_OFFSET_DAYS -> r = Raise OverflowError /\ yielded w' = yielded w)
  /\ (last = Date.max_ordinal -> exists e, r = Raise e).
Proof.
  intros Hv Hrun. split.
  - intros Hlow. rewrite generate_phases_run, Hv, generate_phases_between_steps in Hrun.
    cbv zeta in Hrun. unfold Date.validb in Hrun.
    destruct (Z.leb_spec 1 (first - MAX_OFFSET_DAYS)); [lia|].
    cbn in Hrun. injection Hrun as <- <-. split; reflexivity.
  - intros ->.
    assert (Hfuel : r <> OutOfFuel).
    { apply (generate_phases_trace db self start end_ first Date.max_ordinal w r w' Hv)
        in Hrun as [Hfuel _]. exact Hfuel. }
    assert (Hok : r <> Ok tt).
    { rewrite generate_phases_run, Hv, generate_phases_between_steps in Hrun.
      cbv zeta in Hrun.
      destruct (Date.validb (first - MAX_OFFSET_DAYS)) eqn:Hvalid;
        [|injection Hrun as <- <-; discriminate].
      destruct (list_holidays db self _ _ true _) as [[[l|holidays]|x|] w3];
        try (injection Hrun as <- <-; discriminate).
      apply date_loop_at_max in Hrun; [exact Hrun|].
      unfold Date.validb in Hvalid. apply andb_prop in Hvalid as [_ Hmax].
      apply Z.leb_le in Hmax. exact Hmax. }
    destruct r as [[]|e|]; [contradiction|eauto|contradiction].
Qed.

(** From 0001-01-02 nothing is generated; up to 9999-12-31 the phases of
    the last two days are yielded and the run then raises. *)
Lemma generate_phases_at_the_calendar_bounds_witness :
  fst (@generate_phases Sample.env Sample.db Sample.demo
         (Str "0001-01-02") (Str "0001-01-05") world0) = Raise OverflowError
  /\ (exists e, fst (@generate_phases Sample.flat_env Sample.flat_db Sample.demo
                       (Str "9999-12-30") (Str "9999-12-31") world0) = Raise e)
  /\ map p_start
       (yielded (snd (@generate_phases Sample.flat_env Sample.flat_db Sample.demo
                        (Str "9999-12-30") (Str "9999-12-31") world0)))
     = ["9999-12-30T16:00:00+00:00"; "9999-12-31T16:00:00+00:00"].
Proof.
  split; [|split].
  - apply (proj1 (@generate_phases_at_the_calendar_bounds Sample.env Sample.db Sample.demo
                    (Str "0001-01-02") (Str "0001-01-05") 2 5 world0 _ _
                    ltac:(vm_compute; reflexivity) (surjective_pairing _))).
    unfold MAX_OFFSET_DAYS. lia.
  - apply (proj2 (@generate_phases_at_the_calendar_bounds Sample.flat_env Sample.flat_db
                    Sample.demo (Str "9999-12-30") (Str "9999-12-31") 3652058 3652059
                    world0 _ _ ltac:(vm_compute; reflexivity) (surjective_pairing _))).
    reflexivity.
  - vm_compute. reflexivity.
Defined.



(** X11. Of the market row, [generate_phases], [list_schedules] and
    [list_holidays] read the FinID and nothing else: two rows with one
    FinID give the same runs. *)
Theorem generate_phases_reads_the_fin_id_only `{Externals} (db : Store)
    (a b : Market) (start end_ : StrOrDate) (w : world) :
  m_fin_id a = m_fin_id b ->
  generate_phases db a start end_ w = generate_phases db b start end_ w
  /\ list_schedules db a w = list_schedules db b w
  /\ forall as_dict,
       list_holidays db a start end_ as_dict w = list_holidays db b start end_ as_dict w.
Proof.
  intros Hfin.
  assert (Hh : forall x y as_dict w0,
             list_holidays db a x y as_dict w0 = list_holidays db b x y as_dict w0).
  { intros. unfold list_holidays. rewrite Hfin. reflexivity. }
  assert (Hs : forall w0, list_schedules db a w0 = list_schedules db b w0).
  { intros. unfold list_schedules. rewrite Hfin. reflexivity. }
  split; [|split; [apply Hs|intros; apply Hh]].
  rewrite !generate_phases_run.
  destruct (validated_range start end_) as [[first last]|x]; [|reflexivity].
  rewrite !generate_phases_between_steps. cbv zeta.
  unfold schedules_of. rewrite Hfin, Hh. reflexivity.
Qed.

(** A row with the FinID of the sample market, another MIC, another zone
    and a successor. *)
Lemma generate_phases_reads_the_fin_id_only_witness :
  @generate_phases Sample.env Sample.db
    {| m_fin_id := "ZZ.DEMO"; m_mic := "XXXX"; m_exchange_name := "Other";
       m_market_name := "Other"; m_timezone := "Asia/Tokyo"; m_replaced_by := "ZZ.OLD" |}
    (Str "2024-02-06") (Str "2024-02-06") world0
  = @generate_phases Sample.env Sample.db Sample.demo
      (Str "2024-02-06") (Str "2024-02-06") world0.
Proof.
  apply (proj1 (@generate_phases_reads_the_fin_id_only Sample.env Sample.db
                  {| m_fin_id := "ZZ.DEMO"; m_mic := "XXXX"; m_exchange_name := "Other";
                     m_market_name := "Other"; m_timezone := "Asia/Tokyo";
                     m_replaced_by := "ZZ.OLD" |}
                  Sample.demo (Str "2024-02-06") (Str "2024-02-06") world0 eq_refl)).
Defined.

(** X13. No selected schedule is passed over. When a run of
    [generate_phases] ends normally (with the validation inside
    [list_holidays] passing the two dates of the scan), then for every
    date from the start minus [MAX_OFFSET_DAYS] to the end and every
    schedule row of the market that belongs to the date's group, is in
    force and in season on the date and matches its weekday: the offset
    of the row is a number and, when the date plus the offset is not
    before the start, the phase of the row on that date is among the
    phases yielded. *)
Theorem selected_schedules_are_emitted `{Externals} (db : Store) (self : Market)
    (start end_ : StrOrDate) (first last : Date.t) (w w' : world) :
  validated_range start end_ = Accept (first, last) ->
  validated_range (Dt (first - MAX_OFFSET_DAYS)) (Dt last)
  = Accept (first - MAX_OFFSET_DAYS, last) ->
  generate_phases db self start end_ w = (Ok tt, w') ->
  let rows := holidays_between db self (first - MAX_OFFSET_DAYS) last in
  exists ps,
    yielded w' = (yielded w ++ ps)%list
    /\ forall d s,
         first - MAX_OFFSET_DAYS <= d <= last ->
         In s (schedules db) -> s_fin_id s = m_fin_id self ->
         Py.lower (s_schedule_group s)
         = match holiday_on rows d with
           | Some h => Py.lower (h_schedule h)
           | None => "regular"
           end ->
         is_in_force s (Date.isoformat d) (Date.isoformat d) = true ->
         season_kept db d s = true ->
         weekdays_match (s_days s) (Date.weekday d) = true ->
         exists offset,
           py_int (s_offset_days s) = Some offset
           /\ (first <= d + offset ->
               exists em, emission_of (phase_types_dict_of db) d s = Some em
                          /\ e_date em = d /\ e_end_date em = d + offset
                          /\ In (e_phase em) ps).
Proof.
  intros Hv Hwin Hrun rows.
  rewrite generate_phases_run, Hv in Hrun.
  rewrite generate_phases_between_window in Hrun by exact Hwin. fold rows in Hrun.
  destruct (Date.validb _); [|discriminate].
  destruct (forallb holiday_parses rows); [|discriminate].
  apply date_loop_ok in Hrun as (Hy & Hall). cbn in Hy.
  eexists. split; [exact Hy|].
  intros d s Hd Hin Hfin Hgroup Hforce Hseason Hday.
  assert (Hfound : In s (found_on db (schedules_of db self) (holidays_dict rows ∅) d)).
  { apply found_on_complete; [|exact Hday].
    apply before_weekdays_on_in. split; [apply schedules_of_in; auto|].
    split; [|auto]. rewrite pick_schedule_group_on, Hgroup.
    destruct (holiday_on rows d); cbn; [rewrite lower_idem|]; reflexivity. }
  specialize (Hall d Hd). rewrite List.Forall_forall in Hall.
  destruct (Hall s Hfound) as (offset & Hoff & Hem).
  exists offset. split; [exact Hoff|]. intros Hle.
  destruct (Hem Hle) as [em Hof]. exists em. split; [exact Hof|].
  apply emission_of_fields in Hof as Hf.
  destruct Hf as (Hdate & _ & Hoff' & Hend & _).
  rewrite Hoff in Hoff'. injection Hoff' as Hoff'. rewrite <- Hoff' in Hend.
  split; [exact Hdate|]. split; [exact Hend|].
  apply in_flat_map. exists d. split.
  - apply in_dates_from. lia.
  - apply in_flat_map. exists s. split; [exact Hfound|].
    unfold phase_of. rewrite Hof. unfold Date.leb.
    destruct (Z.leb_spec first (e_end_date em)); [left; reflexivity|lia].
Qed.

(** The core session of Tuesday 2024-02-06. *)
Lemma selected_schedules_are_emitted_witness :
  exists ps em,
    yielded (snd (@generate_phases Sample.env Sample.db Sample.demo
                    (Str "2024-02-06") (Str "2024-02-06") world0)) = ps
    /\ @emission_of Sample.env (phase_types_dict_of Sample.db) 738922 Sample.primary
       = Some em
    /\ In (e_phase em) ps.
Proof.
  destruct (@selected_schedules_are_emitted Sample.env Sample.db Sample.demo
              (Str "2024-02-06") (Str "2024-02-06") 738922 738922 world0
              (snd (@generate_phases Sample.env Sample.db Sample.demo
                      (Str "2024-02-06") (Str "2024-02-06") world0))
              ltac:(vm_compute; reflexivity) ltac:(vm_compute; reflexivity)
              ltac:(vm_compute; reflexivity))
    as (ps & Hy & Hall).
  destruct (Hall 738922 Sample.primary ltac:(unfold MAX_OFFSET_DAYS; lia)
              ltac:(right; left; reflexivity) eq_refl
              ltac:(vm_compute; reflexivity) ltac:(vm_compute; reflexivity)
              ltac:(vm_compute; reflexivity) ltac:(vm_compute; reflexivity))
    as (offset & Hoff & Hem).
  vm_compute in Hoff. injection Hoff as <-.
  destruct (Hem ltac:(lia)) as (em & Hof & _ & _ & Hin).
  exists ps, em. split; [exact Hy|]. split; [exact Hof|exact Hin].
Defined.

(** ** The ISO form of a date, written and read back *)

Lemma digit_val_digit n : Date.digit_val (Date.digit n) = Some (n mod 10).
Proof.
  pose proof (Z.mod_pos_bound n 10 ltac:(lia)) as Hn. unfold Date.digit.
  assert (Hc : In (n mod 10) [0; 1; 2; 3; 4; 5; 6; 7; 8; 9]) by (cbn; lia).
  cbn in Hc.
  repeat (destruct Hc as [<-|Hc]; [reflexivity|]). destruct Hc.
Qed.

Lemma digit_of_digit_val c v :
  Date.digit_val c = Some v -> 0 <= v <= 9 /\ Date.digit v = c.
Proof.
  destruct c as [[] [] [] [] [] [] [] []]; intros Hv; vm_compute in Hv;
    try discriminate; injection Hv as <-; (split; [lia|reflexivity]).
Qed.

Lemma digit_mod n v : n mod 10 = v -> 0 <= v <= 9 -> Date.digit n = Date.digit v.
Proof.
  intros Hn Hv. unfold Date.digit. rewrite Hn.
  rewrite (Z.mod_small v 10) by lia. reflexivity.
Qed.

(** A number of two digits and one of four, read and written. *)
Lemma number_two c1 c2 n :
  Date.number [c1; c2] 0 = Some n ->
  0 <= n < 100 /\ Date.digits 2 n "" = String c1 (String c2 "").
Proof.
  cbn.
  destruct (Date.digit_val c1) as [v1|] eqn:H1; [|discriminate].
  destruct (Date.digit_val c2) as [v2|] eqn:H2; [|discriminate].
  apply digit_of_digit_val in H1 as [R1 <-], H2 as [R2 <-].
  intros [= <-]. split; [lia|]. cbn.
  rewrite (digit_mod (10 * (10 * 0 + v1) + v2) v2),
          (digit_mod ((10 * (10 * 0 + v1) + v2) / 10) v1); try lia;
    try reflexivity; Z.div_mod_to_equations; lia.
Qed.

Lemma number_four c1 c2 c3 c4 n :
  Date.number [c1; c2; c3; c4] 0 = Some n ->
  0 <= n < 10000
  /\ Date.digits 4 n "" = String c1 (String c2 (String c3 (String c4 ""))).
Proof.
  cbn.
  destruct (Date.digit_val c1) as [v1|] eqn:H1; [|discriminate].
  destruct (Date.digit_val c2) as [v2|] eqn:H2; [|discriminate].
  destruct (Date.digit_val c3) as [v3|] eqn:H3; [|discriminate].
  destruct (Date.digit_val c4) as [v4|] eqn:H4; [|discriminate].
  apply digit_of_digit_val in H1 as [R1 <-], H2 as [R2 <-],
    H3 as [R3 <-], H4 as [R4 <-].
  intros [= <-]. split; [lia|]. cbn.
  set (n := 10 * (10 * (10 * (10 * 0 + v1) + v2) + v3) + v4).
  rewrite (digit_mod n v4), (digit_mod (n / 10) v3), (digit_mod (n / 10 / 10) v2),
          (digit_mod (n / 10 / 10 / 10) v1); try lia;
    try reflexivity; subst n; Z.div_mod_to_equations; lia.
Qed.

Lemma digits_two_number n :
  0 <= n < 100 ->
  exists c1 c2, Date.digits 2 n "" = String c1 (String c2 "")
                /\ Date.number [c1; c2] 0 = Some n.
Proof.
  intros Hn. exists (Date.digit (n / 10)), (Date.digit n).
  split; [reflexivity|]. cbn. rewrite !digit_val_digit. f_equal.
  Z.div_mod_to_equations. lia.
Qed.

Lemma digits_four_number n :
  0 <= n < 10000 ->
  exists c1 c2 c3 c4,
    Date.digits 4 n "" = String c1 (String c2 (String c3 (String c4 "")))
    /\ Date.number [c1; c2; c3; c4] 0 = Some n.
Proof.
  intros Hn.
  exists (Date.digit (n / 10 / 10 / 10)), (Date.digit (n / 10 / 10)),
    (Date.digit (n / 10)), (Date.digit n).
  split; [reflexivity|]. cbn. rewrite !digit_val_digit. f_equal.
  Z.div_mod_to_equations. lia.
Qed.

(** The ordinal of a year, month and day gives them back. *)
Lemma ymd2ord_valid y m d :
  ymd_valid (y, m, d) -> Date.valid (Date.ymd2ord y m d).
Proof.
  intros Hv. unfold Date.valid.
  assert (H1 : ymd_valid (1, 1, 1))
    by (unfold ymd_valid; change (Date.days_in_month 1 1) with 31; lia).
  assert (H2 : ymd_valid (9999, 12, 31))
    by (unfold ymd_valid; change (Date.days_in_month 9999 12) with 31; lia).
  assert (E1 : Date.ymd2ord 1 1 1 = 1) by reflexivity.
  assert (E2 : Date.ymd2ord 9999 12 31 = Date.max_ordinal) by reflexivity.
  split.
  - destruct (ymd_compare (1, 1, 1) (y, m, d)) eqn:Hc.
    + apply ymd_compare_eq in Hc. injection Hc as <- <- <-. rewrite E1. lia.
    + pose proof (ymd2ord_lt _ _ H1 Hv Hc) as Hlt. cbv beta iota zeta in Hlt.
      rewrite E1 in Hlt. lia.
    + exfalso. unfold ymd_valid in Hv. unfold ymd_compare in Hc.
      destruct (Z.compare_spec 1 y); try lia; try discriminate.
      destruct (Z.compare_spec 1 m); try lia; try discriminate.
      destruct (Z.compare_spec 1 d); try lia; discriminate.
  - destruct (ymd_compare (y, m, d) (9999, 12, 31)) eqn:Hc.
    + apply ymd_compare_eq in Hc. injection Hc as -> -> ->. rewrite E2. lia.
    + pose proof (ymd2ord_lt _ _ Hv H2 Hc) as Hlt. cbv beta iota zeta in Hlt.
      rewrite E2 in Hlt. lia.
    + exfalso. unfold ymd_valid in Hv. unfold ymd_compare in Hc.
      pose proof (days_in_month_le y m ltac:(lia)).
      destruct (Z.compare_spec y 9999); try lia; try discriminate.
      destruct (Z.compare_spec m 12); try lia; try discriminate.
      destruct (Z.compare_spec d 31); try lia; discriminate.
Qed.

Lemma ord2ymd_ymd2ord y m d :
  ymd_valid (y, m, d) -> Date.ord2ymd (Date.ymd2ord y m d) = (y, m, d).
Proof.
  intros Hv. pose proof (ymd2ord_valid y m d Hv) as Ho.
  destruct (Date.ord2ymd (Date.ymd2ord y m d)) as [[y' m'] d'] eqn:E.
  pose proof (ord2ymd_spec _ _ _ _ Ho E) as (Hy & Hm & Hd & Hback).
  assert (Hv' : ymd_valid (y', m', d')) by (cbn; lia).
  destruct (ymd_compare (y', m', d') (y, m, d)) eqn:Hc.
  - apply ymd_compare_eq in Hc. exact Hc.
  - pose proof (ymd2ord_lt _ _ Hv' Hv Hc) as Hlt. cbv beta iota zeta in Hlt. lia.
  - assert (Hc' : ymd_compare (y, m, d) (y', m', d') = Lt)
      by (rewrite ymd_compare_antisym, Hc; reflexivity).
    pose proof (ymd2ord_lt _ _ Hv Hv' Hc') as Hlt. cbv beta iota zeta in Hlt. lia.
Qed.

Lemma isoformat_ymd o y m d :
  Date.ord2ymd o = (y, m, d) ->
  Date.isoformat o
  = Date.digits 4 y (String "-" (Date.digits 2 m (String "-" (Date.digits 2 d "")))).
Proof.
  intros E. unfold Date.isoformat. rewrite E. unfold Date.pad.
  rewrite !digits_app, !append_char, !append_empty. reflexivity.
Qed.

Lemma digits_acc w : forall n acc, Date.digits w n acc = Date.digits w n "" +:+ acc.
Proof. intros n acc. rewrite digits_app, append_empty. reflexivity. Qed.

Lemma fromisoformat_isoformat d :
  Date.valid d -> Date.fromisoformat (Date.isoformat d) = Some d.
Proof.
  intros Hd. destruct (Date.ord2ymd d) as [[y m] dd] eqn:E.
  pose proof (ord2ymd_spec _ _ _ _ Hd E) as (Hy & Hm & Hdd & Hback).
  pose proof (days_in_month_le y m Hm) as Hdim.
  rewrite (isoformat_ymd _ _ _ _ E).
  destruct (digits_four_number y ltac:(lia)) as (y1 & y2 & y3 & y4 & Ey & Ny).
  destruct (digits_two_number m ltac:(lia)) as (m1 & m2 & Em & Nm).
  destruct (digits_two_number dd ltac:(lia)) as (d1 & d2 & Ed & Nd).
  rewrite (digits_acc 4), (digits_acc 2 m), Ey, Em, Ed.
  unfold Date.fromisoformat.
  rewrite !append_char, !append_empty. cbn [list_ascii_of_string].
  change (Ascii.eqb "-" "-") with true. cbn [andb].
  rewrite Ny, Nm, Nd.
  unfold Date.MINYEAR.
  destruct (Z.leb_spec 1 y); [|lia]. destruct (Z.leb_spec 1 m); [|lia].
  destruct (Z.leb_spec m 12); [|lia]. destruct (Z.leb_spec 1 dd); [|lia].
  destruct (Z.leb_spec dd (Date.days_in_month y m)); [|lia].
  cbn. rewrite Hback. reflexivity.
Qed.

Lemma isoformat_fromisoformat s d :
  Date.fromisoformat s = Some d -> Date.valid d /\ Date.isoformat d = s.
Proof.
  unfold Date.fromisoformat.
  do 10 (destruct s as [|? s]; [discriminate|]).
  destruct s as [|? s]; [|discriminate].
  cbn [list_ascii_of_string].
  match goal with
  | |- context [Ascii.eqb ?a "-" && Ascii.eqb ?b "-"] =>
      destruct (Ascii.eqb_spec a "-") as [->|]; [|discriminate];
      destruct (Ascii.eqb_spec b "-") as [->|]; [|discriminate]
  end.
  cbn [andb].
  match goal with
  | |- context [Date.number [?a; ?b; ?c; ?e] 0] =>
      destruct (Date.number [a; b; c; e] 0) as [y|] eqn:Ny; [|discriminate]
  end.
  match goal with
  | |- match Date.number [?a; ?b] 0 with _ => _ end = _ -> _ =>
      destruct (Date.number [a; b] 0) as [m|] eqn:Nm; [|discriminate]
  end.
  match goal with
  | |- match Date.number [?a; ?b] 0 with _ => _ end = _ -> _ =>
      destruct (Date.number [a; b] 0) as [dd|] eqn:Nd; [|discriminate]
  end.
  apply number_four in Ny as [Ry Ey].
  apply number_two in Nm as [Rm Em]. apply number_two in Nd as [Rd Ed].
  destruct (_ && _) eqn:Hc; [|discriminate]. intros [= <-].
  repeat (apply andb_prop in Hc as [Hc ?]).
  unfold Date.MINYEAR in Hc.
  assert (Hv : ymd_valid (y, m, dd)) by (cbn; lia).
  split; [apply ymd2ord_valid; exact Hv|].
  rewrite (isoformat_ymd _ y m dd) by (apply ord2ymd_ymd2ord; exact Hv).
  rewrite (digits_acc 4), (digits_acc 2 m), Ey, Em, Ed. reflexivity.
Qed.

(** X14. The ISO form of a date and its reading in the form YYYY-MM-DD,
    which [list_holidays] uses for the bounds of its query and for the
    keys of its dictionary, are inverse to each other: a date of the
    calendar written in ISO form reads back as that date, and a text that
    reads as a date is the ISO form of that date, a date of the
    calendar. *)
Theorem iso_date_round_trip :
  (forall d, Date.valid d -> Date.fromisoformat (Date.isoformat d) = Some d)
  /\ (forall s d, Date.fromisoformat s = Some d -> Date.valid d /\ Date.isoformat d = s).
Proof. split; [apply fromisoformat_isoformat|apply isoformat_fromisoformat]. Qed.

(** X15. The dictionary of the holidays on data dated in ISO form. When
    the holiday rows of the market carry ISO dates, and the parser reads
    the ISO form of a date back as that date, [list_holidays] with
    [as_dict] does not fail, every key of its dictionary is a date from
    [start] to [end] and stands for a row of the market with that date,
    and every date from [start] to [end] on which the market has a row is
    a key. *)
Theorem holidays_dict_of_iso_dates `{Externals} (db : Store) (self : Market)
    (start end_ : StrOrDate) (first last : Date.t) (w : world) :
  validated_range start end_ = Accept (first, last) ->
  Date.valid first -> Date.valid last ->
  (forall d, Date.valid d -> date_fromisoformat (Date.isoformat d) = Some d) ->
  (forall r, In r (market_holidays db) -> h_fin_id r = m_fin_id self ->
             exists d, Date.valid d /\ h_date r = Date.isoformat d) ->
  exists dict,
    list_holidays db self start end_ true w = (Ok (inr dict), logged MarketHolidays w)
    /\ (forall d r, dict !! d = Some r ->
        first <= d <= last
        /\ In r (market_holidays db) /\ h_fin_id r = m_fin_id self
        /\ h_date r = Date.isoformat d)
    /\ (forall d, Date.valid d ->
        (is_Some (dict !! d) <->
         first <= d <= last
         /\ exists r, In r (market_holidays db) /\ h_fin_id r = m_fin_id self
                      /\ h_date r = Date.isoformat d)).
Proof.
  intros Hv Hfirst Hlast Hlaw Hdata.
  set (rows := holidays_between db self first last).
  assert (Hrows : forall r, In r rows <->
            In r (market_holidays db) /\ h_fin_id r = m_fin_id self
            /\ Py.str_le (Date.isoformat first) (h_date r) = true
            /\ Py.str_le (h_date r) (Date.isoformat last) = true).
  { intros r. unfold rows, holidays_between, Py.str_ge.
    rewrite filter_In, !andb_true_iff, str_eq_true. tauto. }
  assert (Hparse : forallb holiday_parses rows = true).
  { apply forallb_forall. intros r Hr. apply Hrows in Hr as (Hin & Hfin & _).
    destruct (Hdata r Hin Hfin) as (d & Hd & Hiso).
    unfold holiday_parses. rewrite Hiso, (Hlaw d Hd). reflexivity. }
  assert (Hkey : forall d r, holiday_on rows d = Some r ->
            first <= d <= last
            /\ In r (market_holidays db) /\ h_fin_id r = m_fin_id self
            /\ h_date r = Date.isoformat d).
  { intros d r Hon. apply holiday_on_in in Hon as [Hr Hd].
    apply Hrows in Hr as (Hin & Hfin & Hge & Hle).
    destruct (Hdata r Hin Hfin) as (d' & Hd' & Hiso).
    rewrite Hiso, (Hlaw d' Hd') in Hd. injection Hd as ->.
    rewrite Hiso in Hge, Hle. rewrite isoformat_le in Hge, Hle by assumption.
    apply Z.leb_le in Hge, Hle. repeat split; assumption. }
  exists (holidays_dict rows ∅).
  split; [rewrite list_holidays_run, Hv, holidays_as_dict_run; fold rows;
          rewrite Hparse; reflexivity|].
  split.
  - intros d r. rewrite holidays_dict_on. apply Hkey.
  - intros d Hd. rewrite holidays_dict_on. split.
    + intros [r Hon]. destruct (Hkey d r Hon) as (Hrange & Hin & Hfin & Hiso).
      split; [exact Hrange|]. exists r. repeat split; assumption.
    + intros (Hrange & r & Hin & Hfin & Hiso).
      assert (Hr : In r rows).
      { apply Hrows. rewrite Hiso, !isoformat_le by assumption.
        repeat split; try assumption; apply Z.leb_le; lia. }
      destruct (holiday_on_some rows d r Hr) as [r' Hon];
        [rewrite Hiso; apply Hlaw, Hd|].
      rewrite Hon. eexists. reflexivity.
Qed.

(** November and December 2024 of the sample market: the two holidays
    are keys, 2024-11-30 is not. *)
Lemma holidays_dict_of_iso_dates_witness :
  exists dict,
    @list_holidays Sample.env Sample.db Sample.demo (Str "2024-11-01") (Str "2024-12-31")
      true world0 = (Ok (inr dict), logged MarketHolidays world0)
    /\ is_Some (dict !! 739219) /\ is_Some (dict !! 739245)
    /\ ~ is_Some (dict !! 739220).
Proof.
  assert (Hvalid : forall d, 1 <= d <= 3652059 -> Date.valid d) by (intros; assumption).
  destruct (@holidays_dict_of_iso_dates Sample.env Sample.db Sample.demo
              (Str "2024-11-01") (Str "2024-12-31") 739191 739251 world0
              ltac:(vm_compute; reflexivity)
              (Hvalid 739191 ltac:(lia)) (Hvalid 739251 ltac:(lia))
              fromisoformat_isoformat)
    as (dict & Hrun & _ & Hkeys).
  - intros r [<-|[<-|[]]] _; [exists 739219|exists 739245];
      (split; [apply Hvalid; lia|vm_compute; reflexivity]).
  - exists dict. split; [exact Hrun|]. split; [|split].
    + apply (Hkeys 739219 (Hvalid 739219 ltac:(lia))). split; [lia|].
      eexists. split; [left; reflexivity|].
      split; [reflexivity|vm_compute; reflexivity].
    + apply (Hkeys 739245 (Hvalid 739245 ltac:(lia))). split; [lia|].
      eexists. split; [right; left; reflexivity|].
      split; [reflexivity|vm_compute; reflexivity].
    + intros Hsome. apply (Hkeys 739220 (Hvalid 739220 ltac:(lia))) in Hsome
        as (_ & r & Hin & _ & Hiso).
      destruct Hin as [<-|[<-|[]]]; vm_compute in Hiso; discriminate.
Defined.

(** * The generator as a whole: look-back, fallback, order and failures *)

Lemma phase_of_pruned `{Externals} types start d s offset :
  py_int (s_offset_days s) = Some offset -> d + offset < start ->
  phase_of types start d s = [].
Proof.
  intros Hoff Hlt. unfold phase_of.
  destruct (emission_of types d s) as [em|] eqn:Hem; [|reflexivity].
  apply emission_of_fields in Hem as (_ & _ & Hoff' & Hend & _).
  rewrite Hoff in Hoff'. injection Hoff' as Hoff'. rewrite <- Hoff' in Hend.
  unfold Date.leb. destruct (Z.leb_spec start (e_end_date em)); [lia|reflexivity].
Qed.

Lemma phase_of_made `{Externals} types start d s em :
  emission_of types d s = Some em -> start <= e_end_date em ->
  phase_of types start d s = [e_phase em].
Proof.
  intros Hem Hle. unfold phase_of. rewrite Hem. unfold Date.leb.
  destruct (Z.leb_spec start (e_end_date em)); [reflexivity|lia].
Qed.

(** What a schedule found on a date contributes to a run that ends
    normally. *)
Lemma emits_contribution `{Externals} types start d s :
  emits types start d s ->
  exists offset,
    py_int (s_offset_days s) = Some offset
    /\ (d + offset < start -> phase_of types start d s = [])
    /\ (start <= d + offset ->
        exists em, emission_of types d s = Some em
                   /\ e_date em = d /\ e_end_date em = d + offset
                   /\ phase_of types start d s = [e_phase em]).
Proof.
  intros (offset & Hoff & Hem). exists offset. split; [exact Hoff|]. split.
  - apply phase_of_pruned. exact Hoff.
  - intros Hle. destruct (Hem Hle) as [em Hof]. exists em.
    apply emission_of_fields in Hof as Hf.
    destruct Hf as (Hdate & _ & Hoff' & Hend & _).
    rewrite Hoff in Hoff'. injection Hoff' as Hoff'. rewrite <- Hoff' in Hend.
    split; [exact Hof|]. split; [exact Hdate|]. split; [exact Hend|].
    apply phase_of_made; [exact Hof|lia].
Qed.

(** A run of [generate_phases] that ends normally went through every date
    from the start minus [MAX_OFFSET_DAYS] to the end, and yielded for
    each the phases of the schedules found on it, in their order. *)
Lemma generate_phases_ok_window `{Externals} db self start end_ first last w w' :
  validated_range start end_ = Accept (first, last) ->
  validated_range (Dt (first - MAX_OFFSET_DAYS)) (Dt last)
  = Accept (first - MAX_OFFSET_DAYS, last) ->
  generate_phases db self start end_ w = (Ok tt, w') ->
  let holidays :=
    holidays_dict (holidays_between db self (first - MAX_OFFSET_DAYS) last) ∅ in
  yielded w' =
    (yielded w
     ++ flat_map (fun d => flat_map (phase_of (phase_types_dict_of db) first d)
                             (found_on db (schedules_of db self) holidays d))
          (dates_from (first - MAX_OFFSET_DAYS)
             (Z.to_nat (last - (first - MAX_OFFSET_DAYS) + 1))))%list
  /\ forall d, first - MAX_OFFSET_DAYS <= d <= last ->
       Forall (emits (phase_types_dict_of db) first d)
         (found_on db (schedules_of db self) holidays d).
Proof.
  intros Hv Hwin Hrun holidays.
  rewrite generate_phases_run, Hv in Hrun.
  rewrite generate_phases_between_window in Hrun by exact Hwin.
  destruct (Date.validb _); [|discriminate].
  destruct (forallb holiday_parses _); [|discriminate].
  apply date_loop_ok in Hrun as (Hy & Hall). cbn in Hy.
  split; [exact Hy|exact Hall].
Qed.

(** C1. On a date on which the weekday filter yields nothing and fallback
    is allowed, [generate_phases] searches the earlier weekdays, from
    (today - 1) mod 7 backward modulo 7, each on the schedules that
    entered the weekday filter (those of the date's group that are in
    force and in season), and adopts the first weekday whose filter
    yields something. The search: it ends after at most 6 (so at most 7)
    iterations whatever fuel of 6 or more it gets, it tries a prefix of
    the six earlier weekdays and never today's, and its result is empty
    when every earlier weekday yields nothing; when the weekday filter
    yields something or fallback is not allowed, the weekday filter's
    result stands. In [generate_phases]: the turn of the loop for such a
    date makes its phases from the adopted schedules, sorted, and from no
    others, all of them when it ends normally; and in a run that ends
    normally the phase of every adopted schedule that ends in the window
    is among the phases yielded. *)
Theorem fallback_search `{Externals} (current_date : Date.t)
    (before_weekdays : list Schedule) (fallback : bool) :
  let current_weekday := Date.weekday current_date in
  let found := _filter_weekdays current_weekday before_weekdays in
  let candidates := earlier_weekdays current_weekday in
  let adopted :=
    first_nonempty (map (fun k => _filter_weekdays k before_weekdays) candidates) in
  hd_error candidates = Some ((current_weekday - 1) mod 7)
  /\ (found = [] -> fallback = true ->
      forall w, found_schedules_of fallback current_weekday before_weekdays w
                = (Ok adopted, w))
  /\ (found <> [] \/ fallback = false ->
      forall w, found_schedules_of fallback current_weekday before_weekdays w
                = (Ok found, w))
  /\ (forall fuel, (6 <= fuel)%nat ->
      exists final ran,
        while_loop fuel (fallback_cond current_weekday) (fallback_body before_weekdays)
          ([], if current_weekday =? 0 then 6 else current_weekday - 1)
        = Some (final, ran)
        /\ fst final = adopted
        /\ (length ran <= 6 <= 7)%nat
        /\ (exists rest, candidates = (map snd ran ++ rest)%list)
        /\ ~ In current_weekday (map snd ran))
  /\ (Forall (fun k => _filter_weekdays k before_weekdays = []) candidates ->
      adopted = [])
  /\ (forall db all_schedules holidays types start w r w',
      before_weekdays = before_weekdays_on db all_schedules holidays current_date ->
      fallback = snd (_pick_schedule_group current_date holidays) ->
      found = [] -> fallback = true ->
      phases_of_date db all_schedules holidays types start current_date w = (r, w') ->
      exists es,
        yielded w' = (yielded w ++ map e_phase es)%list
        /\ Forall (fun em =>
             emission_of types current_date (e_schedule em) = Some em
             /\ start <= e_end_date em) es
        /\ sublist (map e_schedule es) (Py.sorted Py.pair_lt schedule_key adopted)
        /\ (r = Ok tt ->
            map e_phase es
            = flat_map (phase_of types start current_date)
                (Py.sorted Py.pair_lt schedule_key adopted)))
  /\ (forall db self start end_ first last w w',
      validated_range start end_ = Accept (first, last) ->
      validated_range (Dt (first - MAX_OFFSET_DAYS)) (Dt last)
      = Accept (first - MAX_OFFSET_DAYS, last) ->
      generate_phases db self start end_ w = (Ok tt, w') ->
      first - MAX_OFFSET_DAYS <= current_date <= last ->
      let holidays :=
        holidays_dict (holidays_between db self (first - MAX_OFFSET_DAYS) last) ∅ in
      before_weekdays
      = before_weekdays_on db (schedules_of db self) holidays current_date ->
      fallback = snd (_pick_schedule_group current_date holidays) ->
      found = [] -> fallback = true ->
      exists ps,
        yielded w' = (yielded w ++ ps)%list
        /\ forall s, In s adopted ->
             exists offset,
               py_int (s_offset_days s) = Some offset
               /\ (first <= current_date + offset ->
                   exists em,
                     emission_of (phase_types_dict_of db) current_date s = Some em
                     /\ e_end_date em = current_date + offset
                     /\ In (e_phase em) ps)).
Proof.
  intros current_weekday found candidates adopted.
  pose proof (weekday_range current_date) as Hrange. fold current_weekday in Hrange.
  split; [|split; [|split; [|split; [|split; [|split]]]]].
  - reflexivity.
  - intros Hfound -> w. rewrite found_schedules_of_run by exact Hrange.
    fold found. rewrite Hfound. reflexivity.
  - intros Hor w. rewrite found_schedules_of_run by exact Hrange.
    fold found. destruct Hor as [Hne| ->].
    + destruct found; [contradiction|reflexivity].
    + rewrite andb_false_r. reflexivity.
  - intros fuel Hfuel. apply fallback_loop_run; assumption.
  - intros Hall. apply first_nonempty_all_empty.
    rewrite List.Forall_forall in Hall |- *. intros l Hl.
    apply in_map_iff in Hl as (k & <- & Hk). auto.
  - intros db all_schedules holidays types start w r w' Hbefore Hflag Hfound Hfb.
    rewrite phases_of_date_unfold.
    destruct (_filter_season db current_date _ w) as [[before|e|] w1] eqn:Hseason.
    + apply filter_season_ok in Hseason as (-> & _ & _ & Hy).
      fold (before_weekdays_on db all_schedules holidays current_date).
      rewrite <- Hbefore, <- Hflag. fold current_weekday. fold found.
      rewrite Hfound, Hfb. cbn [is_nil andb].
      fold (adopted_of current_weekday before_weekdays).
      change (adopted_of current_weekday before_weekdays) with adopted.
      intros Hrun.
      pose proof (for_each_emit types start current_date _ _ _ _ Hrun)
        as (_ & es & Hw' & Hsub & Hall).
      exists es. split; [rewrite Hw'; cbn; rewrite Hy; reflexivity|].
      split; [|split; [exact Hsub|]].
      * exact Hall.
      * intros ->. apply for_each_emit_ok in Hrun as (Hw'' & _).
        rewrite Hw' in Hw''. apply (f_equal yielded) in Hw''. cbn in Hw''.
        apply app_inv_head in Hw''. exact Hw''.
    + apply filter_season_frame in Hseason as (_ & _ & Hy).
      intros [= <- <-]. exists []. cbn. rewrite app_nil_r.
      split; [exact Hy|]. split; [constructor|].
      split; [apply sublist_nil_l|discriminate].
    + apply filter_season_frame in Hseason as (Hf & _). contradiction.
  - intros db self start end_ first last w w' Hv Hwin Hrun Hdate holidays
      Hbefore Hflag Hfound Hfb.
    destruct (generate_phases_ok_window db self start end_ first last w w' Hv Hwin Hrun)
      as (Hy & Hall).
    fold holidays in Hy, Hall.
    eexists. split; [exact Hy|].
    assert (Hon : found_on db (schedules_of db self) holidays current_date
                  = Py.sorted Py.pair_lt schedule_key adopted).
    { unfold found_on. rewrite <- Hbefore, <- Hflag. fold current_weekday. fold found.
      rewrite Hfound, Hfb. reflexivity. }
    intros s Hs.
    assert (Hs' : In s (found_on db (schedules_of db self) holidays current_date)).
    { rewrite Hon.
      apply (Permutation_in _ (Permutation_sym (sorted_perm Py.pair_lt schedule_key _))).
      exact Hs. }
    specialize (Hall current_date Hdate). rewrite List.Forall_forall in Hall.
    destruct (emits_contribution _ _ _ _ (Hall s Hs'))
      as (offset & Hoff & _ & Hmade).
    exists offset. split; [exact Hoff|]. intros Hle.
    destruct (Hmade Hle) as (em & Hof & _ & Hend & Hphase).
    exists em. split; [exact Hof|]. split; [exact Hend|].
    apply in_flat_map. exists current_date. split; [apply in_dates_from; lia|].
    apply in_flat_map. exists s. split; [exact Hs'|].
    rewrite Hphase. left. reflexivity.
Qed.

(** Friday 2024-11-29 is a holiday of the group Partial, which is open
    and whose only schedule runs Monday to Thursday: the search adopts
    Thursday's schedule, and the run yields its phase for the Friday. *)
Lemma fallback_search_witness :
  @_filter_weekdays Sample.env (Date.weekday 739219) [Sample.partial] = []
  /\ exists ps em,
      yielded (snd (@generate_phases Sample.env Sample.db Sample.demo
                      (Str "2024-11-29") (Str "2024-11-29") world0)) = ps
      /\ @emission_of Sample.env (phase_types_dict_of Sample.db) 739219 Sample.partial
         = Some em
      /\ In (e_phase em) ps.
Proof.
  split; [vm_compute; reflexivity|].
  destruct (proj2 (proj2 (proj2 (proj2 (proj2 (proj2
              (@fallback_search Sample.env 739219 [Sample.partial] true))))))
              Sample.db Sample.demo (Str "2024-11-29") (Str "2024-11-29")
              739219 739219 world0
              (snd (@generate_phases Sample.env Sample.db Sample.demo
                      (Str "2024-11-29") (Str "2024-11-29") world0))
              ltac:(vm_compute; reflexivity) ltac:(vm_compute; reflexivity)
              ltac:(vm_compute; reflexivity) ltac:(unfold MAX_OFFSET_DAYS; lia)
              ltac:(vm_compute; reflexivity) ltac:(vm_compute; reflexivity)
              ltac:(vm_compute; reflexivity) eq_refl)
    as (ps & Hy & Hall).
  destruct (Hall Sample.partial ltac:(vm_compute; left; reflexivity))
    as (offset & Hoff & Hem).
  vm_compute in Hoff. injection Hoff as <-.
  destruct (Hem ltac:(lia)) as (em & Hof & _ & Hin).
  exists ps, em. split; [exact Hy|]. split; [exact Hof|exact Hin].
Defined.

(** C3. Every phase that [generate_phases] yields ends on or after the
    start of the window: it is made from a schedule row of the market on
    a date between the start minus [MAX_OFFSET_DAYS] (2) and the end, its
    end date is that date plus the offset days, and its end date is not
    before the start. The body of the loop yields nothing for a schedule
    whose end date is before the start, and yields the phase of one whose
    end date is on or after the start, whatever its date. The scan begins
    at the start minus [MAX_OFFSET_DAYS]: a run that ends normally has
    gone through every date from there to the end, and has yielded, date
    by date, the phases of the schedules that survived the filters on the
    date, except those that end before the start; so the phase of a
    surviving schedule of a date before the start that ends on or after
    the start is among the phases yielded. *)
Theorem emitted_phases_end_in_window `{Externals} (db : Store) (self : Market)
    (start end_ : StrOrDate) (first last : Date.t) (w : world) (r : result unit)
    (w' : world) :
  validated_range start end_ = Accept (first, last) ->
  generate_phases db self start end_ w = (r, w') ->
  MAX_OFFSET_DAYS = 2
  /\ (exists es,
      yielded w' = (yielded w ++ map e_phase es)%list
      /\ Forall (fun em =>
           emission_of (phase_types_dict_of db) (e_date em) (e_schedule em) = Some em
           /\ In (e_schedule em) (schedules db)
           /\ s_fin_id (e_schedule em) = m_fin_id self
           /\ p_end (e_phase em) = datetime_isoformat (e_end em)
           /\ dt_date (e_end em) = e_end_date em
           /\ e_end_date em = e_date em + e_offset em
           /\ first - MAX_OFFSET_DAYS <= e_date em <= last
           /\ first <= e_end_date em) es)
  /\ (forall types current_date s offset end_date w0,
        py_int (s_offset_days s) = Some offset ->
        Date.add_days current_date offset = Some end_date ->
        end_date < first ->
        emit_phase types first current_date s w0 = (Ok tt, w0))
  /\ (forall types current_date s em w0,
        emission_of types current_date s = Some em ->
        first <= e_end_date em ->
        emit_phase types first current_date s w0 = (Ok tt, pushed w0 [e_phase em]))
  /\ (r = Ok tt ->
      validated_range (Dt (first - MAX_OFFSET_DAYS)) (Dt last)
      = Accept (first - MAX_OFFSET_DAYS, last) ->
      let holidays :=
        holidays_dict (holidays_between db self (first - MAX_OFFSET_DAYS) last) ∅ in
      let survivors := found_on db (schedules_of db self) holidays in
      yielded w' =
        (yielded w
         ++ flat_map (fun d => flat_map (phase_of (phase_types_dict_of db) first d)
                                 (survivors d))
              (dates_from (first - MAX_OFFSET_DAYS)
                 (Z.to_nat (last - (first - MAX_OFFSET_DAYS) + 1))))%list
      /\ forall d s,
           first - MAX_OFFSET_DAYS <= d <= last -> In s (survivors d) ->
           exists offset,
             py_int (s_offset_days s) = Some offset
             /\ (d + offset < first ->
                 phase_of (phase_types_dict_of db) first d s = [])
             /\ (first <= d + offset ->
                 exists em,
                   emission_of (phase_types_dict_of db) d s = Some em
                   /\ e_date em = d /\ e_end_date em = d + offset
                   /\ phase_of (phase_types_dict_of db) first d s = [e_phase em]
                   /\ In (e_phase em)
                        (flat_map
                           (fun d => flat_map (phase_of (phase_types_dict_of db) first d)
                                       (survivors d))
                           (dates_from (first - MAX_OFFSET_DAYS)
                              (Z.to_nat (last - (first - MAX_OFFSET_DAYS) + 1)))))).
Proof.
  intros Hv Hrun. split; [reflexivity|]. split; [|split; [|split]].
  - destruct (generate_phases_trace db self start end_ first last w r w' Hv Hrun)
      as (_ & es & Hy & Hes & _).
    exists es. split; [exact Hy|].
    eapply List.Forall_impl; [|exact Hes]. cbn.
    intros em ((Hem & Hend) & Hrange & Hin & Hfin).
    apply emission_of_fields in Hem as Hf.
    destruct Hf as (_ & _ & _ & Hsum & _ & _ & _ & _ & Hpend & _).
    repeat split; try assumption; try reflexivity; lia.
  - intros. eapply emit_phase_suppressed; eassumption.
  - intros. apply emit_phase_emitted; assumption.
  - intros -> Hwin holidays survivors.
    destruct (generate_phases_ok_window db self start end_ first last w w' Hv Hwin Hrun)
      as (Hy & Hall).
    fold holidays in Hy, Hall. fold survivors in Hy, Hall.
    split; [exact Hy|].
    intros d s Hd Hs.
    specialize (Hall d Hd). rewrite List.Forall_forall in Hall.
    destruct (emits_contribution _ _ _ _ (Hall s Hs))
      as (offset & Hoff & Hpruned & Hmade).
    exists offset. split; [exact Hoff|]. split; [exact Hpruned|].
    intros Hle. destruct (Hmade Hle) as (em & Hof & Hdate & Hend & Hphase).
    exists em. repeat split; try assumption.
    apply in_flat_map. exists d. split; [apply in_dates_from; lia|].
    apply in_flat_map. exists s. split; [exact Hs|].
    rewrite Hphase. left. reflexivity.
Qed.

(** The window of one day, 2024-02-06: the overnight session that began
    on the 5th, a date of the look-back, is yielded, and as the first
    phase. *)
Lemma emitted_phases_end_in_window_witness :
  (exists em,
      @emission_of Sample.env (phase_types_dict_of Sample.db) 738921 Sample.overnight
      = Some em
      /\ e_date em = 738921 /\ e_end_date em = 738922
      /\ In (e_phase em)
           (yielded (snd (@generate_phases Sample.env Sample.db Sample.demo
                            (Str "2024-02-06") (Str "2024-02-06") world0))))
  /\ option_map p_start
       (hd_error (yielded (snd (@generate_phases Sample.env Sample.db Sample.demo
                                  (Str "2024-02-06") (Str "2024-02-06") world0))))
     = Some "2024-02-05T22:00:00+00:00".
Proof.
  split; [|vm_compute; reflexivity].
  destruct (@emitted_phases_end_in_window Sample.env Sample.db Sample.demo
              (Str "2024-02-06") (Str "2024-02-06") 738922 738922 world0
              (Ok tt)
              (snd (@generate_phases Sample.env Sample.db Sample.demo
                      (Str "2024-02-06") (Str "2024-02-06") world0))
              ltac:(vm_compute; reflexivity) ltac:(vm_compute; reflexivity))
    as (_ & _ & _ & _ & Hscan).
  destruct (Hscan eq_refl ltac:(vm_compute; reflexivity)) as (Hy & Hall).
  destruct (Hall 738921 Sample.overnight ltac:(unfold MAX_OFFSET_DAYS; lia)
              ltac:(vm_compute; repeat (first [left; reflexivity | right])))
    as (offset & Hoff & _ & Hmade).
  vm_compute in Hoff. injection Hoff as <-.
  destruct (Hmade ltac:(lia)) as (em & Hof & Hdate & Hend & _ & Hin).
  exists em. split; [exact Hof|]. split; [exact Hdate|]. split; [exact Hend|].
  cbn [yielded world0 app] in Hy. rewrite Hy. exact Hin.
Defined.

(** The order in which the phases are yielded, as the code has it: by
    date, and among the phases of one date by the pair of the start and
    the duration of their schedule rows, each compared as Python compares
    two texts. *)
Lemma emitted_phases_in_key_order `{Externals} (db : Store) (self : Market)
    (start end_ : StrOrDate) (first last : Date.t) (w : world) (r : result unit)
    (w' : world) :
  validated_range start end_ = Accept (first, last) ->
  generate_phases db self start end_ w = (r, w') ->
  exists es,
    yielded w' = (yielded w ++ map e_phase es)%list
    /\ Forall (fun em =>
         emission_of (phase_types_dict_of db) (e_date em) (e_schedule em) = Some em
         /\ In (e_schedule em) (schedules db)
         /\ s_fin_id (e_schedule em) = m_fin_id self) es
    /\ StronglySorted emission_le es.
Proof.
  intros Hv Hrun.
  destruct (generate_phases_trace db self start end_ first last w r w' Hv Hrun)
    as (_ & es & Hy & Hes & Hsorted).
  exists es. split; [exact Hy|]. split; [|exact Hsorted].
  eapply List.Forall_impl; [|exact Hes]. cbn.
  intros em ((Hem & _) & _ & Hin & Hfin). repeat split; assumption.
Qed.

(** C4. The order by duration fails. Two sessions of one market start at
    09:30:00, one of 10800 seconds and one of 1800 seconds, and
    [list_schedules] gives the shorter one first; on 2024-02-06
    [generate_phases] yields the longer one first. Its sort compares the
    pairs (start, duration) of the rows as Python compares texts, and as
    texts 10800 comes before 1800. *)
Theorem emitted_phases_not_by_duration :
  fst (list_schedules Sample.tie_db Sample.demo world0)
  = Ok [Sample.short_auction; Sample.long_session]
  /\ fst (@generate_phases Sample.tie_env Sample.tie_db Sample.demo
            (Str "2024-02-06") (Str "2024-02-06") world0) = Ok tt
  /\ map (fun p => (p_phase_name p, p_start p, p_end p))
       (yielded (snd (@generate_phases Sample.tie_env Sample.tie_db Sample.demo
                        (Str "2024-02-06") (Str "2024-02-06") world0)))
     = [("Long Session", "2024-02-06T09:30:00+00:00", "2024-02-06T12:30:00+00:00");
        ("Short Auction", "2024-02-06T09:30:00+00:00", "2024-02-06T10:00:00+00:00")]
  /\ s_start Sample.long_session = s_start Sample.short_auction
  /\ @py_int Sample.tie_env (s_duration Sample.long_session) = Some 10800
  /\ @py_int Sample.tie_env (s_duration Sample.short_auction) = Some 1800
  /\ Py.pair_lt (schedule_key Sample.long_session) (schedule_key Sample.short_auction)
     = true.
Proof. vm_compute. repeat split. Qed.

(** X7. How the making of a phase fails, for a schedule on a date [d] in
    the window that starts at [start]. An offset that is no number is a
    [ValueError], also when the phase would end before the window; an
    end date outside the calendar is an [OverflowError]. A phase that ends
    before the window is passed over without a look at its times, zone
    and phase type. Otherwise an unreadable start or end time is a
    [ValueError]; then a zone that [ZoneInfo] does not give raises what
    [ZoneInfo] raises for that key; then a phase type that the dictionary
    lacks is a [KeyError]. Whenever no phase is made, nothing is
    yielded. *)
Theorem emit_phase_failures `{Externals} (types : gmap string PhaseType)
    (start d : Date.t) (s : Schedule) (w : world) :
  (py_int (s_offset_days s) = None ->
   emit_phase types start d s w = (Raise ValueError, w))
  /\ (forall offset, py_int (s_offset_days s) = Some offset ->
      (Date.validb (d + offset) = false ->
       emit_phase types start d s w = (Raise OverflowError, w))
      /\ (Date.validb (d + offset) = true -> d + offset < start ->
          emit_phase types start d s w = (Ok tt, w))
      /\ (Date.validb (d + offset) = true -> start <= d + offset ->
          (time_fromisoformat (s_start s) = None \/ time_fromisoformat (s_end s) = None ->
           emit_phase types start d s w = (Raise ValueError, w))
          /\ (time_fromisoformat (s_start s) <> None ->
              time_fromisoformat (s_end s) <> None ->
              (ZoneInfo (s_timezone s) = None ->
               emit_phase types start d s w
               = (Raise (ZoneInfo_error (s_timezone s)), w))
              /\ (ZoneInfo (s_timezone s) <> None ->
                  types !! s_phase_type s = None ->
                  emit_phase types start d s w = (Raise KeyError, w)))))
  /\ (forall r w', emit_phase types start d s w = (r, w') -> r <> Ok tt -> w' = w).
Proof.
  unfold emit_phase, bind, of_option, Date.add_days, Date.leb.
  split; [|split].
  - intros ->. reflexivity.
  - intros offset ->. cbn. split; [|split].
    + intros ->. reflexivity.
    + intros -> Hlt. cbn. destruct (Z.leb_spec start (d + offset)); [lia|reflexivity].
    + intros -> Hle. cbn. destruct (Z.leb_spec start (d + offset)); [|lia].
      split.
      * intros [->| ->]; [reflexivity|].
        destruct (time_fromisoformat (s_start s)); reflexivity.
      * intros Hst Het.
        destruct (time_fromisoformat (s_start s)); [|contradiction].
        destruct (time_fromisoformat (s_end s)); [|contradiction]. cbn.
        split; [intros ->; reflexivity|].
        intros Hz ->. destruct (ZoneInfo (s_timezone s)); [reflexivity|contradiction].
  - intros r w'.
    destruct (py_int _) as [offset|]; cbn; [|intros [= <- <-]; reflexivity].
    destruct (Date.validb _); cbn; [|intros [= <- <-]; reflexivity].
    destruct (start <=? d + offset); [|intros [= <- <-]; contradiction].
    destruct (time_fromisoformat (s_start s)); cbn; [|intros [= <- <-]; reflexivity].
    destruct (time_fromisoformat (s_end s)); cbn; [|intros [= <- <-]; reflexivity].
    destruct (ZoneInfo _); cbn; [|intros [= <- <-]; reflexivity].
    destruct (types !! _); cbn; intros [= <- <-]; [contradiction|reflexivity].
Qed.

(** On 2024-02-06: a schedule whose phase type is not in the table fails
    in the window that starts that day and is passed over in the window
    that starts the day after; the core session in a zone without data,
    and in a zone whose key is the empty text. *)
Lemma emit_phase_failures_witness :
  @emit_phase Sample.env (phase_types_dict_of Sample.db) 738922 738922
    (Sample.schedule_row "Regular" "Lunch Break" "Lunch" "Mon-Fri"
       "12:00:00" "13:00:00" "0" "3600" "" "") world0
  = (Raise KeyError, world0)
  /\ @emit_phase Sample.env (phase_types_dict_of Sample.db) 738923 738922
       (Sample.schedule_row "Regular" "Lunch Break" "Lunch" "Mon-Fri"
          "12:00:00" "13:00:00" "0" "3600" "" "") world0
     = (Ok tt, world0)
  /\ @emit_phase Sample.env (phase_types_dict_of Sample.db) 738922 738922
       (Sample.in_zone "Mars/Olympus" Sample.primary) world0
     = (Raise ZoneInfoNotFoundError, world0)
  /\ @emit_phase Sample.env (phase_types_dict_of Sample.db) 738922 738922
       (Sample.in_zone "" Sample.primary) world0
     = (Raise ValueError, world0).
Proof.
  split; [|split; [|split]].
  - destruct (@emit_phase_failures Sample.env (phase_types_dict_of Sample.db)
                738922 738922
                (Sample.schedule_row "Regular" "Lunch Break" "Lunch" "Mon-Fri"
                   "12:00:00" "13:00:00" "0" "3600" "" "") world0)
      as (_ & Hoffset & _).
    destruct (Hoffset 0 eq_refl) as (_ & _ & Hwindow).
    destruct (Hwindow eq_refl ltac:(lia)) as (_ & Htimes).
    destruct (Htimes ltac:(discriminate) ltac:(discriminate)) as (_ & Htype).
    apply Htype; [discriminate|reflexivity].
  - destruct (@emit_phase_failures Sample.env (phase_types_dict_of Sample.db)
                738923 738922
                (Sample.schedule_row "Regular" "Lunch Break" "Lunch" "Mon-Fri"
                   "12:00:00" "13:00:00" "0" "3600" "" "") world0)
      as (_ & Hoffset & _).
    destruct (Hoffset 0 eq_refl) as (_ & Hbefore & _).
    apply Hbefore; [reflexivity|lia].
  - destruct (@emit_phase_failures Sample.env (phase_types_dict_of Sample.db)
                738922 738922 (Sample.in_zone "Mars/Olympus" Sample.primary) world0)
      as (_ & Hoffset & _).
    destruct (Hoffset 0 eq_refl) as (_ & _ & Hwindow).
    destruct (Hwindow eq_refl ltac:(lia)) as (_ & Htimes).
    destruct (Htimes ltac:(discriminate) ltac:(discriminate)) as (Hzone & _).
    exact (Hzone eq_refl).
  - destruct (@emit_phase_failures Sample.env (phase_types_dict_of Sample.db)
                738922 738922 (Sample.in_zone "" Sample.primary) world0)
      as (_ & Hoffset & _).
    destruct (Hoffset 0 eq_refl) as (_ & _ & Hwindow).
    destruct (Hwindow eq_refl ltac:(lia)) as (_ & Htimes).
    destruct (Htimes ltac:(discriminate) ltac:(discriminate)) as (Hzone & _).
    exact (Hzone eq_refl).
Defined.

(** X12. Which schedules the phases of a date come from. With group
    names in ASCII (where [Py.lower] is [str.lower]) and the validation
    inside [list_holidays] passing the two dates of the scan, every phase
    that [generate_phases] yields for a date is the phase of a schedule
    row of the market's FinID that is in force and in season on that date
    and belongs to the date's group: the group named by the holiday row
    of that date (the last such row of the market between the start minus
    [MAX_OFFSET_DAYS] and the end), letter case apart, and the group
    regular on a date without holiday row. On a date without holiday row
    the schedule matches the weekday of the date. On a holiday it matches
    the weekday of the date or, when it does not, the group of the holiday
    is open and the schedule matches an earlier weekday. *)
Theorem emitted_phases_follow_the_holidays `{Externals} (db : Store) (self : Market)
    (start end_ : StrOrDate) (first last : Date.t) (w : world) (r : result unit)
    (w' : world) :
  validated_range start end_ = Accept (first, last) ->
  validated_range (Dt (first - MAX_OFFSET_DAYS)) (Dt last)
  = Accept (first - MAX_OFFSET_DAYS, last) ->
  (forall s, In s (schedules db) -> s_fin_id s = m_fin_id self ->
             isascii (s_schedule_group s) = true) ->
  (forall h, In h (market_holidays db) -> h_fin_id h = m_fin_id self ->
             isascii (h_schedule h) = true) ->
  generate_phases db self start end_ w = (r, w') ->
  let rows := holidays_between db self (first - MAX_OFFSET_DAYS) last in
  exists es,
    yielded w' = (yielded w ++ map e_phase es)%list
    /\ Forall (fun em =>
         let d := e_date em in
         let s := e_schedule em in
         let today := Date.weekday d in
         emission_of (phase_types_dict_of db) d s = Some em
         /\ In s (schedules db) /\ s_fin_id s = m_fin_id self
         /\ first - MAX_OFFSET_DAYS <= d <= last
         /\ is_in_force s (Date.isoformat d) (Date.isoformat d) = true
         /\ season_kept db d s = true
         /\ match holiday_on rows d with
            | None =>
                Py.lower (s_schedule_group s) = "regular"
                /\ weekdays_match (s_days s) today = true
            | Some h =>
                Py.lower (s_schedule_group s) = Py.lower (h_schedule h)
                /\ (weekdays_match (s_days s) today = true
                    \/ (is_group_open (Py.lower (h_schedule h)) = true
                        /\ weekdays_match (s_days s) today = false
                        /\ exists k, In k (earlier_weekdays today)
                                     /\ weekdays_match (s_days s) k = true))
            end) es.
Proof.
  intros Hv Hwin _ _ Hrun rows.
  rewrite generate_phases_run, Hv in Hrun.
  rewrite generate_phases_between_window in Hrun by exact Hwin. fold rows in Hrun.
  destruct (Date.validb _);
    [|injection Hrun as <- <-; exists []; cbn; rewrite app_nil_r;
      split; [reflexivity|constructor]].
  destruct (forallb holiday_parses rows);
    [|injection Hrun as <- <-; exists []; cbn; rewrite app_nil_r;
      split; [reflexivity|constructor]].
  apply date_loop_selected in Hrun as (es & Hy & _ & Hes).
  exists es. split; [exact Hy|].
  eapply List.Forall_impl; [|exact Hes]. cbn.
  intros em (Hrange & [Hem _] & Hfound).
  apply found_on_sound in Hfound as [Hbefore Hday].
  apply before_weekdays_on_in in Hbefore as (Hall & Hgroup & Hforce & Hseason).
  apply schedules_of_in in Hall as [Hin Hfin].
  rewrite pick_schedule_group_on in Hgroup, Hday.
  split; [exact Hem|]. split; [exact Hin|]. split; [exact Hfin|].
  split; [exact Hrange|]. split; [exact Hforce|]. split; [exact Hseason|].
  destruct (holiday_on rows (e_date em)) as [h|]; cbn in Hgroup, Hday.
  - rewrite lower_idem in Hgroup. split; [exact Hgroup|exact Hday].
  - split; [exact Hgroup|].
    destruct Hday as [Hday|[Hfb _]]; [exact Hday|discriminate].
Qed.

(** Friday 2024-11-29 is a holiday of the group Partial, whose only
    schedule runs Monday to Thursday; Thursday the 28th is no holiday. *)
Lemma emitted_phases_follow_the_holidays_witness :
  exists es,
    yielded (snd (@generate_phases Sample.env Sample.db Sample.demo
                    (Str "2024-11-29") (Str "2024-11-29") world0))
    = map e_phase es
    /\ Forall (fun em =>
         In (e_schedule em) (schedules Sample.db)
         /\ (e_date em = 739219 -> Py.lower (s_schedule_group (e_schedule em)) = "partial")
         /\ (e_date em = 739218 -> Py.lower (s_schedule_group (e_schedule em)) = "regular"))
         es
    /\ map p_phase_name
         (yielded (snd (@generate_phases Sample.env Sample.db Sample.demo
                          (Str "2024-11-29") (Str "2024-11-29") world0)))
       = ["Overnight Session"; "Short Session"].
Proof.
  destruct (@emitted_phases_follow_the_holidays Sample.env Sample.db Sample.demo
              (Str "2024-11-29") (Str "2024-11-29") 739219 739219 world0
              (fst (@generate_phases Sample.env Sample.db Sample.demo
                      (Str "2024-11-29") (Str "2024-11-29") world0))
              (snd (@generate_phases Sample.env Sample.db Sample.demo
                      (Str "2024-11-29") (Str "2024-11-29") world0))
              ltac:(vm_compute; reflexivity) ltac:(vm_compute; reflexivity))
    as (es & Hy & Hes).
  - intros s Hs _. cbn in Hs.
    repeat (destruct Hs as [<-|Hs]; [reflexivity|]). destruct Hs.
  - intros h Hh _. cbn in Hh.
    repeat (destruct Hh as [<-|Hh]; [reflexivity|]). destruct Hh.
  - apply surjective_pairing.
  - exists es. split; [exact Hy|]. split; [|vm_compute; reflexivity].
    eapply List.Forall_impl; [|exact Hes]. cbn.
    intros em (_ & Hin & _ & _ & _ & _ & Hgroup). split; [exact Hin|].
    split; intros Hd; rewrite Hd in Hgroup.
    + change (holiday_on _ 739219)
        with (Some (Sample.holiday_row "2024-11-29" "Day after Thanksgiving"
                      "Partial" "Open"))
        in Hgroup.
      destruct Hgroup as [Hgroup _]. exact Hgroup.
    + change (holiday_on _ 739218) with (@None MarketHoliday) in Hgroup.
      destruct Hgroup as [Hgroup _]. exact Hgroup.
Defined.
